(** * aspen-bot: scheduler, settings store and time validation

    A shallow embedding of the parts of [src/database.py],
    [src/bot/scheduler.py] and [src/bot/handlers.py] that decide how
    accounts and settings are stored, how a user's daily job is computed,
    registered and fired, and which time strings the handlers accept.

    Conventions.
    - A Python [str] is a list of Unicode code points ([N]); [bytes] is a
      list of byte values ([N] below 256).
    - A Python exception is a value of [exn]; code that can raise returns
      [res A]; a [try ... except Exception] block is a [match] on it.
    - The SQLite file is a pair of finite maps keyed by [telegram_id]
      (the INTEGER PRIMARY KEY of both tables).  The connection itself is
      assumed not to fail (no I/O error, ids fit SQLite's 64-bit INTEGER).
    - Third-party libraries (Fernet, pytz's zone table, the scraper and the
      Telegram transport) are parameters: type classes whose fields are the
      calls the code makes and whose laws are the libraries' documented
      contracts.  The host job queue (python-telegram-bot over APScheduler)
      is modelled by the few operations the code calls on it. *)

From Stdlib Require Import ZArith NArith Lia String Ascii List DecimalZ.
From stdpp Require Import base option list gmap.

(* ===================================================================== *)
(** * Part I. The embedding                                               *)
(* ===================================================================== *)

(** ** Exceptions and the error monad *)

Inductive exn :=
| ValueError
| UnicodeEncodeError
| UnicodeDecodeError
| InvalidToken
| UnknownTimeZoneError
| FetchError
| TelegramError.

Inductive res (A : Type) :=
| Ok (a : A)
| Raise (e : exn).
Arguments Ok {A} a.
Arguments Raise {A} e.

Definition res_bind {A B} (m : res A) (k : A -> res B) : res B :=
  match m with
  | Ok a => k a
  | Raise e => Raise e
  end.

Declare Scope res_scope.
Delimit Scope res_scope with res.
Notation "'let*' x ':=' m 'in' k" := (res_bind m (fun x => k))
  (at level 10, x name, m at level 100, k at level 200) : res_scope.
Notation "'let*' ' p ':=' m 'in' k" :=
  (res_bind m (fun x => match x with p => k end))
  (at level 10, p pattern, m at level 100, k at level 200) : res_scope.
Local Open Scope res_scope.

(** ** Python strings *)

Module Py.

(** A character is its code point; a string is a list of them. *)
Definition char := N.
Abbreviation str := (list N).
Abbreviation bytes := (list N).

Local Open Scope N_scope.

(** String literals of the source, which are all ASCII. *)
Definition lit (s : string) : str :=
  map N_of_ascii (list_ascii_of_string s).

Definition str_eqb (a b : str) : bool := bool_decide (a = b).

(** [str.isspace] on one character: the code points CPython's
    [_PyUnicode_IsWhitespace] answers true on. *)
Definition isspace (c : char) : bool :=
  ((9 <=? c) && (c <=? 13)) || ((28 <=? c) && (c <=? 32))
  || (c =? 133) || (c =? 160) || (c =? 5760)
  || ((8192 <=? c) && (c <=? 8202))
  || (c =? 8232) || (c =? 8233) || (c =? 8239) || (c =? 8287)
  || (c =? 12288).

Fixpoint lstrip (s : str) : str :=
  match s with
  | c :: s' => if isspace c then lstrip s' else s
  | [] => []
  end.

Definition rstrip (s : str) : str := rev (lstrip (rev s)).

(** [s.strip()] *)
Definition strip (s : str) : str := rstrip (lstrip s).

(** [s.split(sep)] for a one-character separator: never empty, one more
    part than there are separators. *)
Fixpoint split (sep : char) (s : str) : list str :=
  match s with
  | [] => [[]]
  | c :: s' =>
      if c =? sep then [] :: split sep s'
      else match split sep s' with
           | p :: ps => (c :: p) :: ps
           | [] => [[c]]
           end
  end.

Definition is_digit (c : char) : bool := (48 <=? c) && (c <=? 57).

Definition digit_val (c : char) : Z := Z.of_N c - 48.

(** The digits of an [int] literal after the sign: decimal digits, with
    single underscores allowed between digits.  [acc] is the value read so
    far, [prev_digit] tells whether the last character was a digit. *)
Fixpoint int_digits (s : str) (acc : Z) (prev_digit : bool) : option Z :=
  match s with
  | [] => if prev_digit then Some acc else None
  | c :: s' =>
      if is_digit c then int_digits s' (10 * acc + digit_val c)%Z true
      else if (c =? 95) && prev_digit then
             match s' with
             | d :: _ => if is_digit d then int_digits s' acc false else None
             | [] => None
             end
           else None
  end.

(** [int(s)] for a [str]: surrounding whitespace is dropped, one optional
    sign, then the digits.  Only ASCII digits are modelled: [int] also reads
    the decimal digits of other scripts, which no string that passes the
    handlers' pattern contains. *)
Definition int (s : str) : res Z :=
  let body := strip s in
  let '(neg, ds) :=
    match body with
    | c :: r =>
        if c =? 45 then (true, r)
        else if c =? 43 then (false, r)
        else (false, body)
    | [] => (false, body)
    end in
  match int_digits ds 0 false with
  | Some v => Ok (if neg then (- v)%Z else v)
  | None => Raise ValueError
  end.

(** *** UTF-8: [str.encode()] and [bytes.decode()]

    Both calls of the source use the default codec, UTF-8 with strict error
    handling: a surrogate code point cannot be encoded, and the decoder
    refuses overlong forms, surrogates and values above U+10FFFF. *)

Definition is_surrogate (c : char) : bool := (55296 <=? c) && (c <=? 57343).

(** A code point that UTF-8 can carry. *)
Definition is_scalar (c : char) : bool :=
  (c <? 1114112) && negb (is_surrogate c).

Definition encode_char (c : char) : res bytes :=
  if c <? 128 then Ok [c]
  else if c <? 2048 then Ok [192 + c / 64; 128 + c mod 64]
  else if c <? 65536 then
    if is_surrogate c then Raise UnicodeEncodeError
    else Ok [224 + c / 4096; 128 + (c / 64) mod 64; 128 + c mod 64]
  else if c <? 1114112 then
    Ok [240 + c / 262144; 128 + (c / 4096) mod 64;
        128 + (c / 64) mod 64; 128 + c mod 64]
  else Raise UnicodeEncodeError.

(** [s.encode()] *)
Fixpoint encode (s : str) : res bytes :=
  match s with
  | [] => Ok []
  | c :: s' =>
      let* b := encode_char c in
      let* bs := encode s' in
      Ok (b ++ bs)
  end.

Definition is_cont (b : N) : bool := (128 <=? b) && (b <=? 191).

(** [bs.decode()] *)
Fixpoint decode (bs : bytes) : res str :=
  match bs with
  | [] => Ok []
  | b0 :: r1 =>
      if b0 <? 128 then
        let* s := decode r1 in Ok (b0 :: s)
      else if (194 <=? b0) && (b0 <=? 223) then
        match r1 with
        | b1 :: r2 =>
            if is_cont b1 then
              let* s := decode r2 in
              Ok ((b0 - 192) * 64 + (b1 - 128) :: s)
            else Raise UnicodeDecodeError
        | _ => Raise UnicodeDecodeError
        end
      else if (224 <=? b0) && (b0 <=? 239) then
        match r1 with
        | b1 :: b2 :: r3 =>
            let c := (b0 - 224) * 4096 + (b1 - 128) * 64 + (b2 - 128) in
            if is_cont b1 && is_cont b2 && (2048 <=? c)
               && negb (is_surrogate c) then
              let* s := decode r3 in Ok (c :: s)
            else Raise UnicodeDecodeError
        | _ => Raise UnicodeDecodeError
        end
      else if (240 <=? b0) && (b0 <=? 244) then
        match r1 with
        | b1 :: b2 :: b3 :: r4 =>
            let c := (b0 - 240) * 262144 + (b1 - 128) * 4096
                     + (b2 - 128) * 64 + (b3 - 128) in
            if is_cont b1 && is_cont b2 && is_cont b3
               && (65536 <=? c) && (c <? 1114112) then
              let* s := decode r4 in Ok (c :: s)
            else Raise UnicodeDecodeError
        | _ => Raise UnicodeDecodeError
        end
      else Raise UnicodeDecodeError
  end.

(** [f"{n}"] for an [int]: its decimal digits, with a minus sign if
    negative. *)
Fixpoint uint_digits (d : Decimal.uint) : str :=
  match d with
  | Decimal.Nil => []
  | Decimal.D0 d' => 48 :: uint_digits d'
  | Decimal.D1 d' => 49 :: uint_digits d'
  | Decimal.D2 d' => 50 :: uint_digits d'
  | Decimal.D3 d' => 51 :: uint_digits d'
  | Decimal.D4 d' => 52 :: uint_digits d'
  | Decimal.D5 d' => 53 :: uint_digits d'
  | Decimal.D6 d' => 54 :: uint_digits d'
  | Decimal.D7 d' => 55 :: uint_digits d'
  | Decimal.D8 d' => 56 :: uint_digits d'
  | Decimal.D9 d' => 57 :: uint_digits d'
  end.

Definition str_of_int (n : Z) : str :=
  match Z.to_int n with
  | Decimal.Pos d => uint_digits d
  | Decimal.Neg d => 45 :: uint_digits d
  end.

(** *** [datetime]

    A date is its proleptic Gregorian ordinal ([date.toordinal()], day 1 is
    0001-01-01), which is what [datetime] itself converts to for
    arithmetic.  [tzoffset] is the UTC offset, in seconds, of the [tzinfo]
    the value carries ([None] for a naive value): pytz attaches a
    fixed-offset [tzinfo] to the values it builds, and [replace] and
    [+ timedelta] keep it as it is.  An instant is a number of microseconds
    since midnight UTC before day 1.  All values are taken within
    [datetime]'s range (years 1 to 9999), whose overflow checks are not
    modelled. *)

Local Open Scope Z_scope.

Record datetime := mk_datetime {
  ordinal : Z;
  hour : Z;
  minute : Z;
  second : Z;
  microsecond : Z;
  tzoffset : option Z
}.

Record time := mk_time {
  t_hour : Z;
  t_minute : Z;
  t_second : Z
}.

Definition us_per_second : Z := 1000000.
Definition us_per_day : Z := 86400 * us_per_second.

(** Microseconds from the start of day 0 to the wall-clock reading. *)
Definition wall_us (d : datetime) : Z :=
  (((ordinal d * 24 + hour d) * 60 + minute d) * 60 + second d)
  * us_per_second + microsecond d.

Definition offset_us (d : datetime) : Z :=
  match tzoffset d with
  | Some off => off * us_per_second
  | None => 0
  end.

(** The instant an aware value denotes; for a naive value, its wall clock. *)
Definition instant (d : datetime) : Z := wall_us d - offset_us d.

(** The wall-clock fields of the instant [t] at UTC offset [off] seconds. *)
Definition at_offset (t : Z) (off : Z) (tz : option Z) : datetime :=
  let w := t + off * us_per_second in
  {| ordinal := w / us_per_day;
     hour := (w / (3600 * us_per_second)) mod 24;
     minute := (w / (60 * us_per_second)) mod 60;
     second := (w / us_per_second) mod 60;
     microsecond := w mod us_per_second;
     tzoffset := tz |}.

(** [d.replace(hour=h, minute=m, second=s, microsecond=0)] *)
Definition replace_hms (d : datetime) (h m s : Z) : res datetime :=
  if (0 <=? h) && (h <=? 23) && (0 <=? m) && (m <=? 59)
     && (0 <=? s) && (s <=? 59)
  then Ok {| ordinal := ordinal d; hour := h; minute := m; second := s;
             microsecond := 0; tzoffset := tzoffset d |}
  else Raise ValueError.

(** [d + timedelta(days=n)] *)
Definition add_days (d : datetime) (n : Z) : datetime :=
  {| ordinal := ordinal d + n; hour := hour d; minute := minute d;
     second := second d; microsecond := microsecond d;
     tzoffset := tzoffset d |}.

(** [a <= b] and [a > b], for two aware values or two naive ones. *)
Definition le (a b : datetime) : bool := instant a <=? instant b.
Definition gt (a b : datetime) : bool := instant b <? instant a.

(** [d.astimezone(pytz.UTC)] for an aware [d] *)
Definition astimezone_utc (d : datetime) : datetime :=
  at_offset (instant d) 0 (Some 0).

(** [d.weekday()]: Monday is 0, Sunday is 6. *)
Definition weekday (d : datetime) : Z := (ordinal d + 6) mod 7.

(** [(a - b).total_seconds()], as an exact number of microseconds. *)
Definition diff_us (a b : datetime) : Z := instant a - instant b.

(** [date(y, m, d).toordinal()] *)
Definition is_leap (y : Z) : bool :=
  (y mod 4 =? 0) && (negb (y mod 100 =? 0) || (y mod 400 =? 0)).

Definition days_before_year (y : Z) : Z :=
  let p := y - 1 in p * 365 + p / 4 - p / 100 + p / 400.

Definition days_in_month (y m : Z) : Z :=
  if m =? 2 then (if is_leap y then 29 else 28)
  else if (m =? 4) || (m =? 6) || (m =? 9) || (m =? 11) then 30
  else 31.

Definition days_before_month (y m : Z) : Z :=
  fold_right Z.add 0
    (map (days_in_month y) (map Z.of_nat (seq 1 (Z.to_nat (m - 1))))).

Definition ymd2ord (y m d : Z) : Z :=
  days_before_year y + days_before_month y m + d.

(** The instant of [y-m-d hh:mm:ss] UTC. *)
Definition utc (y m d hh mm ss : Z) : Z :=
  (((ymd2ord y m d * 24 + hh) * 60 + mm) * 60 + ss) * us_per_second.

(** *** More string operations *)

Local Open Scope N_scope.

(** [s.startswith(prefix)] *)
Fixpoint startswith (s prefix : str) : bool :=
  match prefix, s with
  | [], _ => true
  | a :: prefix', b :: s' => (a =? b) && startswith s' prefix'
  | _ :: _, [] => false
  end.

(** [s.replace(old, new)] for a non-empty [old]: the occurrences of [old]
    are found from the left and do not overlap.  [skip] counts the
    characters of an occurrence that are still to be passed over. *)
Fixpoint replace_from (s old new : str) (skip : nat) : str :=
  match s with
  | [] => []
  | c :: s' =>
      match skip with
      | S k => replace_from s' old new k
      | O =>
          if startswith s old
          then new ++ replace_from s' old new (Nat.pred (length old))
          else c :: replace_from s' old new 0
      end
  end.

(** [s.replace(old, new)]; for an empty [old], [new] is put before every
    character and at the end. *)
Definition replace (s old new : str) : str :=
  match old with
  | [] => new ++ flat_map (fun c => c :: new) s
  | _ :: _ => replace_from s old new 0
  end.

(** [f"{n:02d}"]: at least two characters, padded with a zero. *)
Definition format_02d (n : Z) : str :=
  let digits := str_of_int n in
  if (length digits <? 2)%nat then 48 :: digits else digits.

(** [os.path.dirname] and [os.path.join] (of two paths) on POSIX. *)
Fixpoint path_head (p : str) : str :=      (* p[:p.rfind('/') + 1] *)
  match p with
  | [] => []
  | c :: p' =>
      match path_head p' with
      | [] => if c =? 47 then [c] else []
      | h => c :: h
      end
  end.

Fixpoint lstrip_slash (s : str) : str :=
  match s with
  | c :: s' => if c =? 47 then lstrip_slash s' else s
  | [] => []
  end.

Definition rstrip_slash (s : str) : str := rev (lstrip_slash (rev s)).

Definition all_slash (s : str) : bool := forallb (fun c => c =? 47) s.

Definition dirname (p : str) : str :=
  let head := path_head p in
  match head with
  | [] => head
  | _ :: _ => if all_slash head then head else rstrip_slash head
  end.

Definition endswith_slash (s : str) : bool :=
  match rev s with
  | c :: _ => c =? 47
  | [] => false
  end.

Definition path_join (a b : str) : str :=
  if startswith b [47] then b
  else match a with
       | [] => a ++ b
       | _ :: _ => if endswith_slash a then a ++ b else a ++ 47 :: b
       end.

End Py.

(** ** Regular expressions, as far as [time_pattern] needs them *)

Module Re.
Import Py.
Local Open Scope N_scope.

Inductive regex :=
| Empty                       (* matches nothing *)
| Eps                         (* the empty string *)
| Chr (c : char)              (* one literal character *)
| Range (lo hi : char)        (* [lo-hi] *)
| Seq (r1 r2 : regex)
| Alt (r1 r2 : regex)         (* r1|r2 *)
| Opt (r : regex).            (* r? *)

Fixpoint nullable (r : regex) : bool :=
  match r with
  | Empty => false
  | Eps => true
  | Chr _ => false
  | Range _ _ => false
  | Seq r1 r2 => nullable r1 && nullable r2
  | Alt r1 r2 => nullable r1 || nullable r2
  | Opt _ => true
  end.

(** The derivative of [r] by the character [c]. *)
Fixpoint deriv (c : char) (r : regex) : regex :=
  match r with
  | Empty => Empty
  | Eps => Empty
  | Chr d => if c =? d then Eps else Empty
  | Range lo hi => if (lo <=? c) && (c <=? hi) then Eps else Empty
  | Seq r1 r2 =>
      if nullable r1 then Alt (Seq (deriv c r1) r2) (deriv c r2)
      else Seq (deriv c r1) r2
  | Alt r1 r2 => Alt (deriv c r1) (deriv c r2)
  | Opt r1 => deriv c r1
  end.

(** [r] matches the whole of [s]. *)
Fixpoint fullmatch (r : regex) (s : str) : bool :=
  match s with
  | [] => nullable r
  | c :: s' => fullmatch (deriv c r) s'
  end.

Definition ends_with_newline (s : str) : option str :=
  match rev s with
  | c :: r => if c =? 10 then Some (rev r) else None
  | [] => None
  end.

(** [re.match('^' r '$', s)] is truthy: [r] matches from the start, and [$]
    holds at the end of the string or just before one final newline. *)
Definition match_anchored (r : regex) (s : str) : bool :=
  fullmatch r s
  || match ends_with_newline s with
     | Some s' => fullmatch r s'
     | None => false
     end.

(** The language of a pattern: [matches r s] when [s] is one of the strings
    [r] stands for. *)
Inductive matches : regex -> str -> Prop :=
| m_eps : matches Eps []
| m_chr c : matches (Chr c) [c]
| m_range lo hi c : lo <= c -> c <= hi -> matches (Range lo hi) [c]
| m_seq r1 r2 s1 s2 :
    matches r1 s1 -> matches r2 s2 -> matches (Seq r1 r2) (s1 ++ s2)
| m_alt_l r1 r2 s : matches r1 s -> matches (Alt r1 r2) s
| m_alt_r r1 r2 s : matches r2 s -> matches (Alt r1 r2) s
| m_opt_none r : matches (Opt r) []
| m_opt_some r s : matches r s -> matches (Opt r) s.

End Re.

(** ** The libraries the code calls *)

(** [cryptography.fernet.Fernet].  A key is a valid Fernet key (the store
    only ever uses the one it generated or loaded).  Encryption draws an IV
    and a timestamp, here the argument [entropy]; a token is URL-safe
    base64, hence ASCII; decryption of anything that is not a token made
    with the same key raises [InvalidToken]. *)
Class Fernet := {
  fernet_key : Type;
  fernet_encrypt : fernet_key -> N -> Py.bytes -> Py.bytes;
  fernet_decrypt : fernet_key -> Py.bytes -> res Py.bytes;
  fernet_decrypt_encrypt : forall k entropy m,
    Forall (fun b => (b < 256)%N) m ->
    fernet_decrypt k (fernet_encrypt k entropy m) = Ok m;
  fernet_token_ascii : forall k entropy m,
    Forall (fun b => (b < 128)%N) (fernet_encrypt k entropy m)
}.

(** [pytz]: the zone table and the UTC offset (in seconds) a zone has at an
    instant.  pytz keeps every offset to a whole number of minutes. *)
Class Pytz := {
  tzinfo : Type;
  pytz_timezone : Py.str -> res tzinfo;
  utcoffset : tzinfo -> Z -> Z;
  utcoffset_whole_minutes : forall z t, (utcoffset z t mod 60 = 0)%Z
}.

(** [AspenScraper(username, password).fetch_formatted_grades(title=...)],
    [context.bot.send_message(chat_id=..., text=...)], and the text of
    [d.strftime('%A, %B %d, %Y at %I:%M %p %Z')]. *)
Class Collaborators := {
  fetch_formatted_grades : Py.str -> Py.str -> Py.str -> res (list Py.str);
  send_message : Z -> Py.str -> res unit;
  strftime_title : Py.datetime -> Py.str
}.

(** ** [src/database.py] *)

Module Database.
Import Py.
Local Open Scope Z_scope.

(** A row of table [users]; both credential columns hold ciphertext. *)
Record user_row := mk_user_row {
  row_aspen_username : str;
  row_aspen_password : str;
  row_notification_method : str;
  row_email : option str;
  row_is_active : Z;
  row_created_at : Z;
  row_last_updated : Z
}.

(** A row of table [user_settings]. *)
Record settings_row := mk_settings_row {
  row_timezone : str;
  row_notification_frequency : str;
  row_notification_time : str
}.

(** The dict [get_user] and [get_all_active_users] build. *)
Record user := mk_user {
  telegram_id : Z;
  aspen_username : str;
  aspen_password : str;
  notification_method : str;
  is_active : bool;
  created_at : Z;
  last_updated : Z
}.

(** The dict [get_user_settings] builds. *)
Record settings := mk_settings {
  s_telegram_id : Z;
  timezone : str;
  notification_frequency : str;
  notification_time : str
}.

Section WithFernet.
Context `{Fernet}.

(** The [Database] object: its key and the two tables.  The declared
    FOREIGN KEY of [user_settings] is not enforced: no connection turns
    [PRAGMA foreign_keys] on. *)
Record Database := mk_Database {
  encryption_key : fernet_key;
  users : gmap Z user_row;
  user_settings : gmap Z settings_row
}.

(** [Database._encrypt] *)
Definition _encrypt (self : Database) (entropy : N) (data : str) : res str :=
  let* plain := encode data in
  decode (fernet_encrypt (encryption_key self) entropy plain).

(** [Database._decrypt] *)
Definition _decrypt (self : Database) (encrypted_data : str) : res str :=
  let* token := encode encrypted_data in
  let* plain := fernet_decrypt (encryption_key self) token in
  decode plain.

(** [Database.add_user]; [utcnow] is what [datetime.utcnow()] reads and
    [e1], [e2] are the entropy of the two encryptions. *)
Definition add_user_body (self : Database) (telegram_id : Z)
    (aspen_username aspen_password notification_method : str)
    (utcnow : Z) (e1 e2 : N) : res Database :=
  let* encrypted_username := _encrypt self e1 aspen_username in
  let* encrypted_password := _encrypt self e2 aspen_password in
  match users self !! telegram_id with
  | Some existing_user =>
      Ok {| encryption_key := encryption_key self;
            users := <[telegram_id :=
              {| row_aspen_username := encrypted_username;
                 row_aspen_password := encrypted_password;
                 row_notification_method := notification_method;
                 row_email := row_email existing_user;
                 row_is_active := row_is_active existing_user;
                 row_created_at := row_created_at existing_user;
                 row_last_updated := utcnow |}]> (users self);
            user_settings := user_settings self |}
  | None =>
      Ok {| encryption_key := encryption_key self;
            users := <[telegram_id :=
              {| row_aspen_username := encrypted_username;
                 row_aspen_password := encrypted_password;
                 row_notification_method := notification_method;
                 row_email := None;
                 row_is_active := 1;
                 row_created_at := utcnow;
                 row_last_updated := utcnow |}]> (users self);
            user_settings := user_settings self |}
  end.

Definition add_user (self : Database) (telegram_id : Z)
    (aspen_username aspen_password notification_method : str)
    (utcnow : Z) (e1 e2 : N) : Database * bool :=
  match add_user_body self telegram_id aspen_username aspen_password
          notification_method utcnow e1 e2 with
  | Ok self' => (self', true)
  | Raise _ => (self, false)
  end.

(** The dict built from one row of [users]. *)
Definition user_of_row (self : Database) (id : Z) (r : user_row) : res user :=
  let* username := _decrypt self (row_aspen_username r) in
  let* password := _decrypt self (row_aspen_password r) in
  Ok {| telegram_id := id;
        aspen_username := username;
        aspen_password := password;
        notification_method := row_notification_method r;
        is_active := negb (row_is_active r =? 0);
        created_at := row_created_at r;
        last_updated := row_last_updated r |}.

(** [Database.get_user] *)
Definition get_user_body (self : Database) (telegram_id : Z)
    : res (option user) :=
  match users self !! telegram_id with
  | Some r => let* u := user_of_row self telegram_id r in Ok (Some u)
  | None => Ok None
  end.

Definition get_user (self : Database) (telegram_id : Z) : option user :=
  match get_user_body self telegram_id with
  | Ok u => u
  | Raise _ => None
  end.

(** The loop of [get_all_active_users] over the fetched rows. *)
Fixpoint users_of_rows (self : Database) (rows : list (Z * user_row))
    : res (list user) :=
  match rows with
  | [] => Ok []
  | (id, r) :: rows' =>
      let* u := user_of_row self id r in
      let* us := users_of_rows self rows' in
      Ok (u :: us)
  end.

(** [SELECT * FROM users WHERE is_active = 1]; SQL leaves the order of the
    rows open. *)
Definition select_active (self : Database) : list (Z * user_row) :=
  filter (fun ir => row_is_active ir.2 = 1) (map_to_list (users self)).

(** [Database.get_all_active_users] *)
Definition get_all_active_users (self : Database) : list user :=
  match users_of_rows self (select_active self) with
  | Ok result => result
  | Raise _ => []
  end.

(** [Database.get_user_settings] *)
Definition get_user_settings (self : Database) (telegram_id : Z)
    : option settings :=
  match user_settings self !! telegram_id with
  | Some r =>
      Some {| s_telegram_id := telegram_id;
              timezone := row_timezone r;
              notification_frequency := row_notification_frequency r;
              notification_time := row_notification_time r |}
  | None => None
  end.

(** [Database.update_user_notification_time] *)
Definition update_user_notification_time (self : Database)
    (telegram_id : Z) (notification_time : str) : Database * bool :=
  let current_settings := get_user_settings self telegram_id in
  let timezone :=
    match current_settings with
    | Some cs => timezone cs
    | None => lit "America/Chicago"
    end in
  ({| encryption_key := encryption_key self;
      users := users self;
      user_settings := <[telegram_id :=
        {| row_timezone := timezone;
           row_notification_frequency := lit "daily";
           row_notification_time := notification_time |}]>
        (user_settings self) |}, true).

(** [Database.update_user_timezone] *)
Definition update_user_timezone (self : Database)
    (telegram_id : Z) (timezone : str) : Database * bool :=
  let current_settings := get_user_settings self telegram_id in
  let notification_time :=
    match current_settings with
    | Some cs => notification_time cs
    | None => lit "15:00"
    end in
  ({| encryption_key := encryption_key self;
      users := users self;
      user_settings := <[telegram_id :=
        {| row_timezone := timezone;
           row_notification_frequency := lit "daily";
           row_notification_time := notification_time |}]>
        (user_settings self) |}, true).

(** [Database.deactivate_user] *)
Definition deactivate_user (self : Database) (telegram_id : Z) (utcnow : Z)
    : Database * bool :=
  match users self !! telegram_id with
  | Some r =>
      ({| encryption_key := encryption_key self;
          users := <[telegram_id :=
            {| row_aspen_username := row_aspen_username r;
               row_aspen_password := row_aspen_password r;
               row_notification_method := row_notification_method r;
               row_email := row_email r;
               row_is_active := 0;
               row_created_at := row_created_at r;
               row_last_updated := utcnow |}]> (users self);
          user_settings := user_settings self |}, true)
  | None => (self, false)
  end.

(** [Database.delete_user] *)
Definition delete_user (self : Database) (telegram_id : Z)
    : Database * bool :=
  let affected_users :=
    match users self !! telegram_id with Some _ => 1 | None => 0 end in
  let affected_settings :=
    match user_settings self !! telegram_id with Some _ => 1 | None => 0 end in
  ({| encryption_key := encryption_key self;
      users := delete telegram_id (users self);
      user_settings := delete telegram_id (user_settings self) |},
   0 <? affected_users + affected_settings).

(** [Database.update_user_notification_method] *)
Definition update_user_notification_method (self : Database)
    (telegram_id : Z) (method : str) (utcnow : Z) : Database * bool :=
  match users self !! telegram_id with
  | Some r =>
      ({| encryption_key := encryption_key self;
          users := <[telegram_id :=
            {| row_aspen_username := row_aspen_username r;
               row_aspen_password := row_aspen_password r;
               row_notification_method := method;
               row_email := row_email r;
               row_is_active := row_is_active r;
               row_created_at := row_created_at r;
               row_last_updated := utcnow |}]> (users self);
          user_settings := user_settings self |}, true)
  | None => (self, false)
  end.

(** [Database.get_user_count]: [SELECT COUNT( * ) FROM users WHERE
    is_active = 1]. *)
Definition get_user_count (self : Database) : Z :=
  Z.of_nat (length (select_active self)).

End WithFernet.
End Database.

(** ** The key file

    [Database._get_or_create_encryption_key].  The files are a finite map
    from paths to contents (regular files only, the directory of the store
    exists); [generated] is what [Fernet.generate_key()] returns if it is
    called. *)

Module KeyFile.
Import Py.

Definition key_file (db_path : str) : str :=
  path_join (dirname db_path) (lit "encryption.key").

Definition _get_or_create_encryption_key (files : gmap (list N) bytes)
    (db_path : str) (generated : bytes) : gmap (list N) bytes * bytes :=
  match files !! key_file db_path with
  | Some content => (files, content)
  | None => (<[key_file db_path := generated]> files, generated)
  end.

End KeyFile.

(** ** The job queue of the host framework

    What the code calls on [context.job_queue] / [app.job_queue]:
    [run_daily], [get_jobs_by_name], [Job.schedule_removal] and the
    underlying scheduler's [remove_all_jobs].  [run_daily(callback, time,
    ...)] registers a job that the framework runs every day at the time of
    day [time], read in UTC when [time] carries no zone; the first run is at
    [next_run_time]. *)

Module JobQueue.
Import Py.
Local Open Scope Z_scope.

Section WithFernet.
Context `{Fernet}.

Record Job := mk_Job {
  job_id : nat;
  name : str;
  time : Py.time;                      (* the daily rule, UTC time of day *)
  data : Database.user;                (* the dict given at registration *)
  next_run_time : datetime;
  scheduled_time : option datetime     (* an attribute no job is given *)
}.

Record JobQueue := mk_JobQueue {
  jobs : list Job;
  next_id : nat
}.

Definition run_daily (q : JobQueue) (time : Py.time) (name : str)
    (data : Database.user) (next_run_time : datetime) : JobQueue :=
  {| jobs := jobs q ++
       [{| job_id := next_id q; name := name; time := time; data := data;
           next_run_time := next_run_time; scheduled_time := None |}];
     next_id := S (next_id q) |}.

Definition get_jobs_by_name (q : JobQueue) (n : str) : list Job :=
  filter (fun j => name j = n) (jobs q).

(** [job.schedule_removal()] *)
Definition schedule_removal (q : JobQueue) (job : Job) : JobQueue :=
  {| jobs := filter (fun j => job_id j <> job_id job) (jobs q);
     next_id := next_id q |}.

Definition remove_all_jobs (q : JobQueue) : JobQueue :=
  {| jobs := []; next_id := next_id q |}.

(** The daily rule: the first instant after [prev] whose UTC time of day is
    [t]. *)
Definition time_of_day_us (t : Py.time) : Z :=
  ((t_hour t * 60 + t_minute t) * 60 + t_second t) * us_per_second.

Definition daily_next (t : Py.time) (prev : Z) : Z :=
  let candidate := prev / us_per_day * us_per_day + time_of_day_us t in
  if candidate <=? prev then candidate + us_per_day else candidate.

(** The job as the framework leaves it once it has run: same rule, same
    data, next run one occurrence of the rule later. *)
Definition after_run (j : Job) : Job :=
  {| job_id := job_id j; name := name j; time := time j; data := data j;
     next_run_time :=
       at_offset (daily_next (time j) (instant (next_run_time j))) 0 (Some 0);
     scheduled_time := scheduled_time j |}.

End WithFernet.
End JobQueue.

(** ** [src/bot/scheduler.py] *)

Module Scheduler.
Import Py Database JobQueue.
Local Open Scope Z_scope.

Record plan := mk_plan {
  scheduled_datetime : datetime;   (* in the user's zone *)
  scheduled_utc : datetime;
  job_time_utc : Py.time
}.

(** What the process clock reads during one firing: the instants of the two
    [datetime.now()] calls, and the UTC offset of the machine's own zone. *)
Record fire_clock := mk_fire_clock {
  now_1 : Z;
  now_2 : Z;
  sys_utcoffset : Z -> Z
}.

(** How a firing ends, as its last log line tells. *)
Inductive outcome :=
| UserNotFound
| WeekendSkipped
| SentUpdate
| Failed (e : exn).

Section WithLibraries.
Context `{Fernet} `{Pytz} `{Collaborators}.

(** [datetime.now(tz)] at instant [t] *)
Definition datetime_now (tz : tzinfo) (t : Z) : datetime :=
  at_offset t (utcoffset tz t) (Some (utcoffset tz t)).

(** [datetime.now()] at instant [t]: naive, in the machine's zone *)
Definition datetime_now_naive (sys_off : Z -> Z) (t : Z) : datetime :=
  at_offset t (sys_off t) None.

Definition job_name (telegram_id : Z) : str :=
  lit "grade_check_user_" ++ str_of_int telegram_id.

(** [hour, minute = map(int, notification_time.split(':'))] *)
Definition parse_hour_minute (notification_time : str) : res (Z * Z) :=
  match split 58%N notification_time with
  | [a; b] =>
      let* hour := Py.int a in
      let* minute := Py.int b in
      Ok (hour, minute)
  | _ => Raise ValueError
  end.

(** [setup_scheduler], from the parse of the time to [job_time_utc]:
    [t] is the instant [datetime.now(user_tz)] reads and
    [random_offset_seconds] the draw of [random.randint(0, 30)]. *)
Definition next_run (notification_time : str) (user_tz : tzinfo)
    (t : Z) (random_offset_seconds : Z) : res plan :=
  let* '(hour, minute) := parse_hour_minute notification_time in
  let now := datetime_now user_tz t in
  let* scheduled_datetime :=
    replace_hms now hour minute random_offset_seconds in
  let scheduled_datetime :=
    if le scheduled_datetime now then add_days scheduled_datetime 1
    else scheduled_datetime in
  let scheduled_utc := astimezone_utc scheduled_datetime in
  let job_time_utc :=
    {| t_hour := Py.hour scheduled_utc; t_minute := Py.minute scheduled_utc;
       t_second := Py.second scheduled_utc |} in
  Ok {| scheduled_datetime := scheduled_datetime;
        scheduled_utc := scheduled_utc;
        job_time_utc := job_time_utc |}.

(** The body of the loop of [setup_scheduler] for one user. *)
Definition schedule_user (db : Database) (q : JobQueue) (user : Database.user)
    (t : Z) (random_offset_seconds : Z) : JobQueue :=
  let settings := get_user_settings db (telegram_id user) in
  let notification_time :=
    match settings with
    | Some st => notification_time st
    | None => lit "15:00"
    end in
  let user_timezone :=
    match settings with
    | Some st => timezone st
    | None => lit "America/Chicago"
    end in
  match (let* user_tz := pytz_timezone user_timezone in
         next_run notification_time user_tz t random_offset_seconds) with
  | Ok p =>
      run_daily q (job_time_utc p) (job_name (telegram_id user)) user
        (scheduled_utc p)
  | Raise _ => q
  end.

(** [setup_scheduler]; [TIMEZONE] is [config.TIMEZONE], and [clock id],
    [draw id] are the clock reading and the random draw made while the user
    [id] is handled.  The look-up of the global zone sits outside every
    [try]. *)
Definition setup_scheduler (TIMEZONE : str) (db : Database) (q : JobQueue)
    (clock draw : Z -> Z) : JobQueue * res unit :=
  let q := remove_all_jobs q in
  match pytz_timezone TIMEZONE with
  | Raise e => (q, Raise e)
  | Ok tz =>
      let users := get_all_active_users db in
      (fold_left
         (fun q user =>
            schedule_user db q user (clock (telegram_id user))
              (draw (telegram_id user)))
         users q, Ok tt)
  end.

(** The loop [for message in messages: await send_message(...)]: what was
    delivered, and the error that stopped it, if any. *)
Fixpoint send_all (chat_id : Z) (messages : list str)
    : list (Z * str) * res unit :=
  match messages with
  | [] => ([], Ok tt)
  | m :: ms =>
      match send_message chat_id m with
      | Ok _ =>
          let '(sent, r) := send_all chat_id ms in ((chat_id, m) :: sent, r)
      | Raise e => ([], Raise e)
      end
  end.

Definition grade_title (formatted_time : str) : str :=
  [128218%N] ++ lit " Daily Grade Update (" ++ formatted_time ++ lit ")".

Definition delay_notice (delay_minutes : Z) : str :=
  [9200%N] ++ lit " <b>Delay Notice</b>" ++ [10%N; 10%N]
  ++ lit "Your notification was delayed by " ++ str_of_int delay_minutes
  ++ lit " minutes due to rate limiting protection." ++ [10%N; 10%N]
  ++ lit "This ensures reliable service for all users "
  ++ lit "by preventing server overload.".

(** [fetch_and_notify_user], the body under the semaphore: how the firing
    ends and the messages delivered, in order. *)
Definition fetch_and_notify_user (db : Database) (job : Job)
    (clk : fire_clock) : outcome * list (Z * str) :=
  let user_data := data job in
  let user_id := telegram_id user_data in
  match get_user db user_id with
  | None => (UserNotFound, [])
  | Some fresh_user =>
      let username := aspen_username fresh_user in
      let password := aspen_password fresh_user in
      let current_time := datetime_now_naive (sys_utcoffset clk) (now_1 clk) in
      if 5 <=? weekday current_time then (WeekendSkipped, [])
      else
        let current_time :=
          datetime_now_naive (sys_utcoffset clk) (now_2 clk) in
        let scheduled_time :=
          match scheduled_time job with
          | Some st => st
          | None => current_time
          end in
        let delay_minutes :=
          if gt current_time scheduled_time
          then Z.quot (diff_us current_time scheduled_time)
                      (60 * us_per_second)
          else 0 in
        let settings := get_user_settings db user_id in
        let user_timezone :=
          match settings with
          | Some st => timezone st
          | None => lit "America/Chicago"
          end in
        match pytz_timezone user_timezone with
        | Raise e => (Failed e, [])
        | Ok user_tz =>
            let user_local_time := datetime_now user_tz (now_2 clk) in
            let formatted_time := strftime_title user_local_time in
            match fetch_formatted_grades username password
                    (grade_title formatted_time) with
            | Raise e => (Failed e, [])
            | Ok messages =>
                match send_all user_id messages with
                | (sent, Raise e) => (Failed e, sent)
                | (sent, Ok _) =>
                    if 0 <? delay_minutes then
                      match send_message user_id
                              (delay_notice delay_minutes) with
                      | Ok _ =>
                          (SentUpdate,
                           sent ++ [(user_id, delay_notice delay_minutes)])
                      | Raise e => (Failed e, sent)
                      end
                    else (SentUpdate, sent)
                end
            end
        end
  end.

(** One firing of [job] by the framework: the callback runs, and the job
    stays in the queue under its daily rule. *)
Definition fire (db : Database) (q : JobQueue) (job : Job)
    (clk : fire_clock) : JobQueue * (outcome * list (Z * str)) :=
  ({| jobs := map (fun j => if bool_decide (job_id j = job_id job)
                            then after_run j else j) (jobs q);
      next_id := next_id q |},
   fetch_and_notify_user db job clk).

(** What the [try] block of the loop of [setup_scheduler] computes for one
    user before it registers the job: the settings with their defaults, the
    zone, and the plan. *)
Definition user_plan (db : Database) (user : Database.user)
    (t : Z) (random_offset_seconds : Z) : res plan :=
  let settings := get_user_settings db (telegram_id user) in
  let notification_time :=
    match settings with
    | Some st => notification_time st
    | None => lit "15:00"
    end in
  let user_timezone :=
    match settings with
    | Some st => timezone st
    | None => lit "America/Chicago"
    end in
  let* user_tz := pytz_timezone user_timezone in
  next_run notification_time user_tz t random_offset_seconds.

(** Whether that block gets as far as registering the job. *)
Definition plannable (db : Database) (clock draw : Z -> Z)
    (user : Database.user) : bool :=
  match user_plan db user (clock (telegram_id user))
          (draw (telegram_id user)) with
  | Ok _ => true
  | Raise _ => false
  end.

End WithLibraries.
End Scheduler.

(** ** [src/bot/handlers.py] *)

Module Handlers.
Import Py Re Database JobQueue.
Local Open Scope Z_scope.

(** [time_pattern = r'^([01]?[0-9]|2[0-3]):([0-5][0-9])$'], between its
    anchors. *)
Definition time_pattern : regex :=
  (Seq (Alt (Seq (Opt (Range 48 49)) (Range 48 57))
            (Seq (Chr 50) (Range 48 51)))
       (Seq (Chr 58) (Seq (Range 48 53) (Range 48 57))))%N.

(** The conversation states, [range(11)], and [ConversationHandler.END]. *)
Inductive conv_state :=
| REGISTER_USERNAME | REGISTER_PASSWORD
| SET_CREDENTIALS_USERNAME | SET_CREDENTIALS_PASSWORD
| SET_NOTIFICATION_TIME | SET_TIMEZONE
| SETTINGS_MENU
| SETUP_TIMEZONE | SETUP_NOTIFICATION_TIME
| FEEDBACK_TYPE | FEEDBACK_MESSAGE
| END.

(** The texts the two time handlers answer with, by what they say. *)
Inductive reply :=
| InvalidTimeFormat
| NotificationTimeUpdated (time_input : str)
| DatabaseUpdateFailed
| NotificationTimeSet (time_input : str)
| SetupUpdateFailed.

(** What the handlers read from [update]. *)
Record update := mk_update {
  effective_user_id : Z;
  effective_chat_id : Z;
  message_text : str
}.

Section WithLibraries.
Context `{Fernet} `{Pytz}.

Record handled := mk_handled {
  next_state : conv_state;
  db_after : Database;
  queue_after : JobQueue;
  replies : list (Z * reply)
}.

Definition job_name (telegram_id : Z) : str :=
  lit "grade_check_user_" ++ str_of_int telegram_id.

(** [reschedule_user_job], from the parse of the time to [job_time]. *)
Definition next_run (notification_time : str) (tz : tzinfo)
    (t : Z) (random_offset_seconds : Z) : res Scheduler.plan :=
  match split 58%N notification_time with
  | [a; b] =>
      let* hour := Py.int a in
      let* minute := Py.int b in
      let now := at_offset t (utcoffset tz t) (Some (utcoffset tz t)) in
      let* scheduled_datetime :=
        replace_hms now hour minute random_offset_seconds in
      let scheduled_datetime :=
        if le scheduled_datetime now then add_days scheduled_datetime 1
        else scheduled_datetime in
      let scheduled_utc := astimezone_utc scheduled_datetime in
      let job_time :=
        {| t_hour := Py.hour scheduled_utc;
           t_minute := Py.minute scheduled_utc;
           t_second := Py.second scheduled_utc |} in
      Ok {| Scheduler.scheduled_datetime := scheduled_datetime;
            Scheduler.scheduled_utc := scheduled_utc;
            Scheduler.job_time_utc := job_time |}
  | _ => Raise ValueError
  end.

(** [reschedule_user_job]: every step that can raise comes before the
    queue is touched, and the [except] only logs. *)
Definition reschedule_user_job (db : Database) (q : JobQueue)
    (telegram_id : Z) (notification_time : str)
    (t : Z) (random_offset_seconds : Z) : JobQueue :=
  match get_user db telegram_id with
  | None => q
  | Some user =>
      let settings := get_user_settings db telegram_id in
      let user_timezone :=
        match settings with
        | Some st => timezone st
        | None => lit "America/Chicago"
        end in
      match (let* tz := pytz_timezone user_timezone in
             next_run notification_time tz t random_offset_seconds) with
      | Raise _ => q
      | Ok p =>
          let job_name := job_name telegram_id in
          let current_jobs := get_jobs_by_name q job_name in
          let q := fold_left schedule_removal current_jobs q in
          run_daily q (Scheduler.job_time_utc p) job_name user
            (Scheduler.scheduled_utc p)
      end
  end.

(** [set_notification_time] *)
Definition set_notification_time (upd : update) (db : Database)
    (q : JobQueue) (t : Z) (random_offset_seconds : Z) : handled :=
  let time_input := strip (message_text upd) in
  if negb (match_anchored time_pattern time_input) then
    {| next_state := SET_NOTIFICATION_TIME; db_after := db;
       queue_after := q;
       replies := [(effective_chat_id upd, InvalidTimeFormat)] |}
  else
    let '(db, success) :=
      update_user_notification_time db (effective_user_id upd) time_input in
    let chat_id := effective_chat_id upd in
    if success then
      let q :=
        reschedule_user_job db q (effective_user_id upd) time_input
          t random_offset_seconds in
      {| next_state := END; db_after := db; queue_after := q;
         replies := [(chat_id, NotificationTimeUpdated time_input)] |}
    else
      {| next_state := END; db_after := db; queue_after := q;
         replies := [(chat_id, DatabaseUpdateFailed)] |}.

(** [setup_notification_time_input] *)
Definition setup_notification_time_input (upd : update) (db : Database)
    (q : JobQueue) : handled :=
  let time_input := strip (message_text upd) in
  if negb (match_anchored time_pattern time_input) then
    {| next_state := SETUP_NOTIFICATION_TIME; db_after := db;
       queue_after := q;
       replies := [(effective_chat_id upd, InvalidTimeFormat)] |}
  else
    let '(db, success) :=
      update_user_notification_time db (effective_user_id upd) time_input in
    if success then
      {| next_state := END; db_after := db; queue_after := q;
         replies := [(effective_chat_id upd, NotificationTimeSet time_input)] |}
    else
      {| next_state := END; db_after := db; queue_after := q;
         replies := [(effective_chat_id upd, SetupUpdateFailed)] |}.

(** [COMMON_TIMEZONES], in the order of the dict. *)
Definition us_flag : str := [127482%N; 127480%N].
Definition ca_flag : str := [127464%N; 127462%N].

Definition COMMON_TIMEZONES : list (str * str) :=
  [ (us_flag ++ lit " Eastern", lit "America/New_York");
    (us_flag ++ lit " Central", lit "America/Chicago");
    (us_flag ++ lit " Mountain", lit "America/Denver");
    (us_flag ++ lit " Pacific", lit "America/Los_Angeles");
    (us_flag ++ lit " Alaska", lit "America/Anchorage");
    (us_flag ++ lit " Hawaii", lit "Pacific/Honolulu");
    (ca_flag ++ lit " Eastern", lit "America/Toronto");
    (ca_flag ++ lit " Central", lit "America/Winnipeg");
    (ca_flag ++ lit " Mountain", lit "America/Edmonton");
    (ca_flag ++ lit " Pacific", lit "America/Vancouver") ].

(** [generate_random_notification_time]; [hour] is the draw of
    [random.randint(12, 19)] and [minute] that of
    [random.choice([0, 15, 30, 45])]. *)
Definition generate_random_notification_time (hour minute : Z) : str :=
  format_02d hour ++ lit ":" ++ format_02d minute.

(** The loop that looks a zone up among the display names; [default] is
    what the variable holds before the loop. *)
Fixpoint timezone_display (zones : list (str * str)) (timezone default : str)
    : str :=
  match zones with
  | [] => default
  | (display, tz) :: zones' =>
      if str_eqb tz timezone then display
      else timezone_display zones' timezone default
  end.

(** What the handlers below answer, by what it says; a keyboard is the
    list of its buttons, each a label and its callback data. *)
Inductive answer :=
| RegistrationComplete (random_time : str) (buttons : list (str * str))
| CredentialsUpdated
| RegistrationFailed (action : str)
| AskNewUsername
| AskNotificationTime
| AskSetupNotificationTime
| TimezoneKeyboard (buttons : list (str * str))
| TimezoneUpdated (display : str)
| TimezoneUpdateFailed
| TimezoneCancelled
| ConfirmDeletion (buttons : list (str * str))
| AccountDeleted
| DeletionFailed
| DeletionCancelled
| AlreadyRegistered
| AskUsername
| UsernameSaved (username : str)
| NewUsernameSaved (username : str).

(** The exceptions that leave these handlers. *)
Inductive crash :=
| KeyError
| NameError
| AttributeError.

(** What a handler leaves: the value it returns ([None] where the Python
    function returns nothing), the store, [context.user_data] and its
    answers. *)
Record left := mk_left {
  returned : option conv_state;
  db_left : Database;
  user_data_left : gmap (list N) (list N);
  answers : list answer
}.

Inductive ended :=
| Returned (l : left)
| Crashed (e : crash).

(** [start_setup_flow] *)
Definition start_setup_flow (user_id : Z) (db : Database)
    (hour minute : Z) : Database * answer :=
  let random_time := generate_random_notification_time hour minute in
  let db := (update_user_timezone db user_id (lit "America/Chicago")).1 in
  let db := (update_user_notification_time db user_id random_time).1 in
  (db,
   RegistrationComplete random_time
     [ ([127757%N] ++ lit " Change Timezone", lit "setup_timezone");
       ([9200%N] ++ lit " Change Time", lit "setup_notification_time");
       ([9989%N] ++ lit " Keep Defaults", lit "setup_complete") ]).

(** [register] *)
Definition register (upd : update) (user_data : gmap (list N) (list N))
    (db : Database) : left :=
  let user_data : gmap (list N) (list N) := ∅ in
  let user_id := effective_user_id upd in
  match get_user db user_id with
  | Some _ =>
      {| returned := Some END; db_left := db; user_data_left := user_data;
         answers := [AlreadyRegistered] |}
  | None =>
      {| returned := Some REGISTER_USERNAME; db_left := db;
         user_data_left := user_data; answers := [AskUsername] |}
  end.

(** [register_username], which does not read the store. *)
Definition register_username (upd : update)
    (user_data : gmap (list N) (list N))
    : conv_state * gmap (list N) (list N) * answer :=
  let username := strip (message_text upd) in
  let user_data := <[lit "aspen_username" := username]> user_data in
  let is_update :=
    bool_decide (user_data !! lit "updating" = Some (lit "credentials")) in
  if is_update then
    (SET_CREDENTIALS_PASSWORD, user_data, NewUsernameSaved username)
  else (REGISTER_PASSWORD, user_data, UsernameSaved username).

(** [register_password]; [utcnow], [e1], [e2] as for [add_user], [hour]
    and [minute] as for [generate_random_notification_time]. *)
Definition register_password (upd : update)
    (user_data : gmap (list N) (list N)) (db : Database)
    (utcnow : Z) (e1 e2 : N) (hour minute : Z) : ended :=
  let password := strip (message_text upd) in
  let user_data := <[lit "aspen_password" := password]> user_data in
  match user_data !! lit "aspen_username" with
  | None => Crashed KeyError
  | Some aspen_username =>
      let '(db, success) :=
        add_user db (effective_user_id upd) aspen_username password
          (lit "telegram") utcnow e1 e2 in
      if success then
        let is_update :=
          bool_decide (user_data !! lit "updating" = Some (lit "credentials")) in
        if is_update then
          Returned {| returned := Some END; db_left := db;
                      user_data_left := user_data;
                      answers := [CredentialsUpdated] |}
        else
          let '(db, a) :=
            start_setup_flow (effective_user_id upd) db hour minute in
          Returned {| returned := Some END; db_left := db;
                      user_data_left := user_data; answers := [a] |}
      else
        let action :=
          if bool_decide (user_data !! lit "updating"
                          = Some (lit "credentials"))
          then lit "update" else lit "registration" in
        Returned {| returned := Some END; db_left := db;
                    user_data_left := user_data;
                    answers := [RegistrationFailed action] |}
  end.

(** What the handlers read from a callback query: its data and the two
    ids. *)
Record callback := mk_callback {
  data : str;
  from_user_id : Z;
  callback_effective_user_id : Z
}.

Definition timezone_buttons (prefix cancel : str) : list (str * str) :=
  map (fun '(display_name, timezone) => (display_name, prefix ++ timezone))
    COMMON_TIMEZONES
  ++ [([10060%N] ++ lit " Cancel", cancel)].

(** [button_callback].  [handle_feedback_type] is defined nowhere, and
    [complete_setup] calls [update.message.reply_text] where a callback
    query has no message. *)
Definition button_callback (cb : callback)
    (user_data : gmap (list N) (list N)) (db : Database) : ended :=
  let stay (r : option conv_state) (a : list answer) :=
    Returned {| returned := r; db_left := db; user_data_left := user_data;
                answers := a |} in
  if startswith (data cb) (lit "feedback_") then Crashed NameError
  else if str_eqb (data cb) (lit "update_creds") then
    Returned {| returned := Some SET_CREDENTIALS_USERNAME; db_left := db;
                user_data_left :=
                  <[lit "updating" := lit "credentials"]> user_data;
                answers := [AskNewUsername] |}
  else if str_eqb (data cb) (lit "set_notification_time") then
    stay (Some SET_NOTIFICATION_TIME) [AskNotificationTime]
  else if str_eqb (data cb) (lit "set_timezone") then
    stay (Some SET_TIMEZONE)
      [TimezoneKeyboard
         (timezone_buttons (lit "timezone_") (lit "cancel_timezone"))]
  else if startswith (data cb) (lit "timezone_") then
    let timezone := replace (data cb) (lit "timezone_") [] in
    let '(db, success) := update_user_timezone db (from_user_id cb) timezone in
    if success then
      Returned {| returned := Some END; db_left := db;
                  user_data_left := user_data;
                  answers :=
                    [TimezoneUpdated
                       (timezone_display COMMON_TIMEZONES timezone
                          (lit "Unknown"))] |}
    else
      Returned {| returned := Some END; db_left := db;
                  user_data_left := user_data;
                  answers := [TimezoneUpdateFailed] |}
  else if str_eqb (data cb) (lit "cancel_timezone") then
    stay (Some END) [TimezoneCancelled]
  else if str_eqb (data cb) (lit "setup_timezone")
          || str_eqb (data cb) (lit "setup_notification_time")
          || str_eqb (data cb) (lit "setup_complete") then
    if str_eqb (data cb) (lit "setup_timezone") then
      stay (Some SETUP_TIMEZONE)
        [TimezoneKeyboard
           (timezone_buttons (lit "setup_timezone_") (lit "setup_complete"))]
    else if str_eqb (data cb) (lit "setup_notification_time") then
      stay (Some SETUP_NOTIFICATION_TIME) [AskSetupNotificationTime]
    else Crashed AttributeError
  else if str_eqb (data cb) (lit "delete_account") then
    stay (Some SETTINGS_MENU)
      [ConfirmDeletion
         [ ([9989%N] ++ lit " Yes, Delete", lit "confirm_delete");
           ([10060%N] ++ lit " Cancel", lit "cancel_delete") ]]
  else if str_eqb (data cb) (lit "confirm_delete") then
    let '(db, success) := delete_user db (callback_effective_user_id cb) in
    Returned {| returned := Some END; db_left := db; user_data_left := ∅;
                answers := [if success then AccountDeleted
                            else DeletionFailed] |}
  else if str_eqb (data cb) (lit "cancel_delete") then
    stay (Some END) [DeletionCancelled]
  else stay None [].

End WithLibraries.
End Handlers.

(** ** Time strings, as the specification words them *)

Module TimeSpec.
Import Py.
Local Open Scope N_scope.

(** The 24-hour form [HH:MM] from 00:00 to 23:59, read to the letter: two
    digits, a colon, two digits, the hour at most 23 and the minute at most
    59. *)
Definition is_HHMM (s : str) : bool :=
  match s with
  | [h1; h2; c; m1; m2] =>
      is_digit h1 && is_digit h2 && (c =? 58) && is_digit m1 && is_digit m2
      && (10 * (h1 - 48) + (h2 - 48) <=? 23)
      && (10 * (m1 - 48) + (m2 - 48) <=? 59)
  | _ => false
  end.

(** The same with a one-digit hour, [H:MM]. *)
Definition is_HMM (s : str) : bool :=
  match s with
  | [h; c; m1; m2] =>
      is_digit h && (c =? 58) && is_digit m1 && is_digit m2
      && (10 * (m1 - 48) + (m2 - 48) <=? 59)
  | _ => false
  end.

(** The hour and the minute a time string names. *)
Definition hour_minute_of (s : str) : Z * Z :=
  match s with
  | [h1; h2; _; m1; m2] =>
      (10 * digit_val h1 + digit_val h2, 10 * digit_val m1 + digit_val m2)%Z
  | [h; _; m1; m2] => (digit_val h, 10 * digit_val m1 + digit_val m2)%Z
  | _ => (0, 0)%Z
  end.

End TimeSpec.

(* ===================================================================== *)
(** * Part II. Sample libraries for closed examples                       *)
(* ===================================================================== *)

(** Tactics shared by the proofs below. *)

(** Decide every comparison of the goal that [lia] settles from the
    context. *)
Ltac settle_N :=
  repeat match goal with
  | |- context [N.leb ?a ?b] =>
      first [ rewrite (proj2 (N.leb_le a b)) by lia
            | rewrite (proj2 (N.leb_gt a b)) by lia ]
  | |- context [N.ltb ?a ?b] =>
      first [ rewrite (proj2 (N.ltb_lt a b)) by lia
            | rewrite (proj2 (N.ltb_ge a b)) by lia ]
  | |- context [N.eqb ?a ?b] =>
      first [ rewrite (proj2 (N.eqb_eq a b)) by lia
            | rewrite (proj2 (N.eqb_neq a b)) by lia ]
  end.

Ltac settle_Z :=
  repeat match goal with
  | |- context [Z.leb ?a ?b] =>
      first [ rewrite (proj2 (Z.leb_le a b)) by lia
            | rewrite (proj2 (Z.leb_gt a b)) by lia ]
  | |- context [Z.ltb ?a ?b] =>
      first [ rewrite (proj2 (Z.ltb_lt a b)) by lia
            | rewrite (proj2 (Z.ltb_ge a b)) by lia ]
  | |- context [Z.eqb ?a ?b] =>
      first [ rewrite (proj2 (Z.eqb_eq a b)) by lia
            | rewrite (proj2 (Z.eqb_neq a b)) by lia ]
  end.

(** Name a quotient and a remainder by a constant, keeping only their
    defining equation and bound, so that [lia] sees linear facts. *)
Ltac name_divmod a d :=
  let q := fresh "q" in
  let r := fresh "r" in
  pose proof (N.div_mod a d ltac:(lia));
  pose proof (N.mod_lt a d ltac:(lia));
  generalize dependent (N.modulo a d); intros r;
  generalize dependent (N.div a d); intros q; intros.

(** Small stand-ins for the libraries, used where a statement is evaluated
    on concrete data: a transparent cipher with Fernet's interface, four
    zones with their offsets of the year 2024, and a scraper that always
    answers the same two messages. *)

Module Sample.
Import Py.
Local Open Scope N_scope.

(** A token is [g], a letter for the key, a letter for the entropy, then
    two letters per byte of the message. *)
Fixpoint toy_pairs (m : bytes) : bytes :=
  match m with
  | [] => []
  | b :: m' => 65 + (b / 16) mod 16 :: 65 + b mod 16 :: toy_pairs m'
  end.

Fixpoint toy_unpairs (t : bytes) : res bytes :=
  match t with
  | [] => Ok []
  | hi :: lo :: t' =>
      if (65 <=? hi) && (hi <=? 80) && (65 <=? lo) && (lo <=? 80) then
        let* m := toy_unpairs t' in
        Ok ((hi - 65) * 16 + (lo - 65) :: m)
      else Raise InvalidToken
  | _ => Raise InvalidToken
  end.

Definition toy_encrypt (k : N) (entropy : N) (m : bytes) : bytes :=
  103 :: 65 + k mod 26 :: 65 + entropy mod 26 :: toy_pairs m.

Definition toy_decrypt (k : N) (t : bytes) : res bytes :=
  match t with
  | 103 :: kc :: _ :: body =>
      if kc =? 65 + k mod 26 then toy_unpairs body else Raise InvalidToken
  | _ => Raise InvalidToken
  end.

Inductive zone := Chicago | New_York | Tokyo | UTC.

(** Daylight saving time of 2024 in the United States: from 10 March,
    2:00 local standard time, to 3 November, 2:00 local daylight time. *)
Definition zone_offset (z : zone) (t : Z) : Z :=
  match z with
  | Chicago =>
      if ((utc 2024 3 10 8 0 0 <=? t) && (t <? utc 2024 11 3 7 0 0))%Z
      then (-18000)%Z else (-21600)%Z
  | New_York =>
      if ((utc 2024 3 10 7 0 0 <=? t) && (t <? utc 2024 11 3 6 0 0))%Z
      then (-14400)%Z else (-18000)%Z
  | Tokyo => 32400%Z
  | UTC => 0%Z
  end.

Definition zone_of_name (n : str) : res zone :=
  if str_eqb n (lit "America/Chicago") then Ok Chicago
  else if str_eqb n (lit "America/New_York") then Ok New_York
  else if str_eqb n (lit "Asia/Tokyo") then Ok Tokyo
  else if str_eqb n (lit "UTC") then Ok UTC
  else Raise UnknownTimeZoneError.

Definition two_messages : list str := [lit "Math: A"; lit "Art: B+"].

Lemma toy_unpairs_pairs (m : bytes) :
  Forall (fun b => b < 256) m -> toy_unpairs (toy_pairs m) = Ok m.
Proof.
  induction 1 as [|b m Hb _ IH]; [reflexivity|].
  cbv beta in Hb. cbn [toy_pairs toy_unpairs]. rewrite IH. clear IH.
  assert (Hq : (b / 16) mod 16 = b / 16).
  { apply N.mod_small, N.Div0.div_lt_upper_bound. lia. }
  rewrite Hq. clear Hq. name_divmod b 16.
  assert (q < 16) by lia.
  replace ((65 <=? 65 + q) && (65 + q <=? 80)
           && (65 <=? 65 + r) && (65 + r <=? 80)) with true.
  2:{ symmetry. repeat (apply andb_true_intro; split); apply N.leb_le; lia. }
  cbn [res_bind]. f_equal. f_equal. lia.
Qed.

Lemma toy_pairs_ascii (m : bytes) : Forall (fun b => b < 128) (toy_pairs m).
Proof.
  induction m as [|b m IH]; cbn [toy_pairs]; [constructor|].
  pose proof (N.mod_lt (b / 16) 16 ltac:(lia)).
  pose proof (N.mod_lt b 16 ltac:(lia)).
  generalize dependent ((b / 16) mod 16). generalize dependent (b mod 16).
  intros. repeat constructor; [lia | lia | exact IH].
Qed.

Lemma toy_decrypt_encrypt (k entropy : N) (m : bytes) :
  Forall (fun b => b < 256) m ->
  toy_decrypt k (toy_encrypt k entropy m) = Ok m.
Proof.
  intros Hm. unfold toy_decrypt, toy_encrypt.
  rewrite N.eqb_refl. by apply toy_unpairs_pairs.
Qed.

Lemma toy_token_ascii (k entropy : N) (m : bytes) :
  Forall (fun b => b < 128) (toy_encrypt k entropy m).
Proof.
  unfold toy_encrypt.
  pose proof (N.mod_lt k 26 ltac:(lia)).
  pose proof (N.mod_lt entropy 26 ltac:(lia)).
  generalize dependent (k mod 26). generalize dependent (entropy mod 26).
  intros. repeat constructor; [lia | lia | apply toy_pairs_ascii].
Qed.

Lemma zone_offset_whole_minutes (z : zone) (t : Z) :
  (zone_offset z t mod 60 = 0)%Z.
Proof.
  destruct z; unfold zone_offset;
    repeat match goal with |- context [if ?b then _ else _] => destruct b end;
    reflexivity.
Qed.

#[export] Instance toy_fernet : Fernet := {|
  fernet_key := N;
  fernet_encrypt := toy_encrypt;
  fernet_decrypt := toy_decrypt;
  fernet_decrypt_encrypt := toy_decrypt_encrypt;
  fernet_token_ascii := toy_token_ascii
|}.

#[export] Instance year_2024 : Pytz := {|
  tzinfo := zone;
  pytz_timezone := zone_of_name;
  utcoffset := zone_offset;
  utcoffset_whole_minutes := zone_offset_whole_minutes
|}.

#[export] Instance always_two : Collaborators := {|
  fetch_formatted_grades := fun _ _ _ => Ok two_messages;
  send_message := fun _ _ => Ok tt;
  strftime_title := fun _ => lit "now"
|}.

End Sample.

(** ** A sample account *)

Module Scenario.
Import Py Database JobQueue Sample.
Local Open Scope Z_scope.

(** A small store: one good account, and one whose ciphertext is damaged. *)

Definition empty_db : @Database Sample.toy_fernet :=
  @mk_Database Sample.toy_fernet 1%N ∅ ∅.

Definition damaged_row : user_row :=
  {| row_aspen_username := lit "not-a-token";
     row_aspen_password := lit "not-a-token";
     row_notification_method := lit "telegram";
     row_email := None;
     row_is_active := 1;
     row_created_at := 0;
     row_last_updated := 0 |}.

Definition alice_db : @Database Sample.toy_fernet :=
  (add_user empty_db 42 (lit "alice") (lit "s3cret") (lit "telegram")
     (utc 2024 2 1 9 0 0) 3 4).1.

Definition damaged_db : @Database Sample.toy_fernet :=
  @mk_Database Sample.toy_fernet (encryption_key alice_db)
    (<[7 := damaged_row]> (users alice_db)) (user_settings alice_db).

Definition alice : user :=
  {| telegram_id := 42; aspen_username := lit "alice";
     aspen_password := lit "s3cret"; notification_method := lit "telegram";
     is_active := true; created_at := utc 2024 2 1 9 0 0;
     last_updated := utc 2024 2 1 9 0 0 |}.

Definition empty_queue : JobQueue := {| jobs := []; next_id := 0 |}.

(** Alice, with settings America/Chicago and the given time. *)
Definition alice_at (time_text : string) : @Database toy_fernet :=
  (update_user_notification_time
     (update_user_timezone alice_db 42 (lit "America/Chicago")).1
     42 (lit time_text)).1.

Definition job_of (hh mm ss : Z) (first_run : Z) : Job :=
  {| job_id := 0; name := Handlers.job_name 42;
     time := {| t_hour := hh; t_minute := mm; t_second := ss |};
     data := alice; next_run_time := at_offset first_run 0 (Some 0);
     scheduled_time := None |}.

(** The machine runs on UTC. *)
Definition clock_at (t : Z) : Scheduler.fire_clock :=
  {| Scheduler.now_1 := t; Scheduler.now_2 := t + 45 * us_per_second;
     Scheduler.sys_utcoffset := fun _ => 0 |}.

Definition two_sent : list (Z * str) :=
  [(42, lit "Math: A"); (42, lit "Art: B+")].

Definition reschedule := @Handlers.reschedule_user_job toy_fernet year_2024.
Definition notify :=
  @Scheduler.fetch_and_notify_user toy_fernet year_2024 always_two.
Definition fire := @Scheduler.fire toy_fernet year_2024 always_two.
Definition plan_for := @Scheduler.next_run year_2024.

(** Friday 1 March 2024, 14:10 in Chicago: Alice asks for 15:00. *)
Definition friday_afternoon : Z := utc 2024 3 1 20 10 0.

Definition first_plan : Scheduler.plan :=
  {| Scheduler.scheduled_datetime :=
       {| ordinal := ymd2ord 2024 3 1; hour := 15; minute := 0; second := 7;
          microsecond := 0; tzoffset := Some (-21600) |};
     Scheduler.scheduled_utc := at_offset (utc 2024 3 1 21 0 7) 0 (Some 0);
     Scheduler.job_time_utc :=
       {| t_hour := 21; t_minute := 0; t_second := 7 |} |}.

Definition text_from_alice (text : string) : Handlers.update :=
  {| Handlers.effective_user_id := 42; Handlers.effective_chat_id := 42;
     Handlers.message_text := lit text |}.

Definition handle (text : string) :=
  @Handlers.set_notification_time toy_fernet year_2024
    (text_from_alice text) (alice_at "15:00") empty_queue friday_afternoon 7.

End Scenario.

(* ===================================================================== *)
(** * Part III. Properties                                                *)
(* ===================================================================== *)

(** ** Regular expressions: the matcher decides the language *)

Module ReFacts.
Import Py Re.
Local Open Scope N_scope.

Create HintDb re discriminated.
#[local] Hint Constructors matches : re.

Lemma matches_empty_inv (s : str) : matches Empty s -> False.
Proof. inversion 1. Qed.

Lemma matches_eps_inv (s : str) : matches Eps s -> s = [].
Proof. inversion 1; reflexivity. Qed.

Lemma matches_chr_inv (c : char) (s : str) : matches (Chr c) s -> s = [c].
Proof. inversion 1; reflexivity. Qed.

Lemma matches_range_inv (lo hi : char) (s : str) :
  matches (Range lo hi) s -> exists c, s = [c] /\ lo <= c /\ c <= hi.
Proof. inversion 1; subst; eauto. Qed.

Lemma matches_seq_inv (r1 r2 : regex) (s : str) :
  matches (Seq r1 r2) s ->
  exists s1 s2, s = s1 ++ s2 /\ matches r1 s1 /\ matches r2 s2.
Proof. inversion 1; subst; eauto. Qed.

Lemma matches_alt_inv (r1 r2 : regex) (s : str) :
  matches (Alt r1 r2) s -> matches r1 s \/ matches r2 s.
Proof. inversion 1; subst; eauto. Qed.

Lemma matches_opt_inv (r : regex) (s : str) :
  matches (Opt r) s -> s = [] \/ matches r s.
Proof. inversion 1; subst; eauto. Qed.

Lemma matches_seq_cons (r1 r2 : regex) (c : char) (s1 s2 : str) :
  matches r1 (c :: s1) -> matches r2 s2 -> matches (Seq r1 r2) (c :: s1 ++ s2).
Proof. intros H1 H2. apply (m_seq r1 r2 (c :: s1) s2 H1 H2). Qed.

Lemma matches_seq_nil (r1 r2 : regex) (s : str) :
  matches r1 [] -> matches r2 s -> matches (Seq r1 r2) s.
Proof. intros H1 H2. apply (m_seq r1 r2 [] s H1 H2). Qed.

Lemma nullable_spec (r : regex) : nullable r = true <-> matches r [].
Proof.
  induction r as [| | c | lo hi | r1 IH1 r2 IH2 | r1 IH1 r2 IH2 | r IH];
    cbn [nullable]; split; intros Hm;
    try discriminate; try (inversion Hm; fail); eauto with re.
  - apply andb_true_iff in Hm as [H1 H2].
    apply matches_seq_nil; tauto.
  - apply matches_seq_inv in Hm as (s1 & s2 & Heq & H1 & H2).
    symmetry in Heq. apply app_eq_nil in Heq as [-> ->].
    apply andb_true_iff. tauto.
  - apply orb_true_iff in Hm as [H1|H2]; [apply m_alt_l|apply m_alt_r]; tauto.
  - apply orb_true_iff. apply matches_alt_inv in Hm. tauto.
Qed.

Lemma deriv_spec (c : char) (r : regex) (s : str) :
  matches (deriv c r) s <-> matches r (c :: s).
Proof.
  revert s.
  induction r as [| | d | lo hi | r1 IH1 r2 IH2 | r1 IH1 r2 IH2 | r IH];
    intros s; cbn [deriv].
  - split; intros Hm; inversion Hm.
  - split; intros Hm; inversion Hm.
  - destruct (N.eqb_spec c d) as [->|Hne]; split; intros Hm.
    + apply matches_eps_inv in Hm as ->. constructor.
    + apply matches_chr_inv in Hm. injection Hm as ->. constructor.
    + inversion Hm.
    + apply matches_chr_inv in Hm. congruence.
  - split; intros Hm.
    + destruct (N.leb_spec lo c); destruct (N.leb_spec c hi); cbn [andb] in Hm;
        try (inversion Hm; fail).
      apply matches_eps_inv in Hm as ->. by constructor.
    + apply matches_range_inv in Hm as (c' & Heq & Hlo & Hhi).
      injection Heq as -> ->. settle_N. constructor.
  - destruct (nullable r1) eqn:Hn.
    + split; intros Hm.
      * apply matches_alt_inv in Hm as [Hl|Hr].
        -- apply matches_seq_inv in Hl as (s1 & s2 & -> & H1 & H2).
           apply matches_seq_cons; [apply IH1|]; assumption.
        -- apply matches_seq_nil; [apply nullable_spec, Hn|apply IH2, Hr].
      * apply matches_seq_inv in Hm as (s1 & s2 & Heq & H1 & H2).
        destruct s1 as [|c' s1]; cbn in Heq.
        -- subst s2. apply m_alt_r, IH2, H2.
        -- injection Heq as -> ->. apply m_alt_l. constructor; [|exact H2].
           apply IH1, H1.
    + split; intros Hm.
      * apply matches_seq_inv in Hm as (s1 & s2 & -> & H1 & H2).
        apply matches_seq_cons; [apply IH1|]; assumption.
      * apply matches_seq_inv in Hm as (s1 & s2 & Heq & H1 & H2).
        destruct s1 as [|c' s1]; cbn in Heq.
        -- apply nullable_spec in H1. congruence.
        -- injection Heq as -> ->. constructor; [|exact H2]. apply IH1, H1.
  - split; intros Hm; apply matches_alt_inv in Hm as [Hl|Hr];
      [apply m_alt_l, IH1|apply m_alt_r, IH2|apply m_alt_l, IH1
      |apply m_alt_r, IH2]; assumption.
  - split; intros Hm.
    + apply m_opt_some, IH, Hm.
    + apply matches_opt_inv in Hm as [Heq|Hm]; [discriminate|].
      apply IH, Hm.
Qed.

Lemma fullmatch_spec (r : regex) (s : str) :
  fullmatch r s = true <-> matches r s.
Proof.
  revert r. induction s as [|c s IH]; intros r; cbn [fullmatch].
  - apply nullable_spec.
  - rewrite IH. apply deriv_spec.
Qed.

End ReFacts.

(** ** The time strings the handlers accept *)

Module TimeFacts.
Import Py Re ReFacts Handlers TimeSpec.
Local Open Scope N_scope.

Ltac inv_matches :=
  repeat match goal with
  | H : matches (Seq _ _) _ |- _ =>
      apply matches_seq_inv in H as (? & ? & -> & ? & ?)
  | H : matches (Alt _ _) _ |- _ => apply matches_alt_inv in H as [?|?]
  | H : matches (Opt _) _ |- _ => apply matches_opt_inv in H as [->|?]
  | H : matches (Chr _) _ |- _ => apply matches_chr_inv in H as ->
  | H : matches (Range _ _) _ |- _ =>
      apply matches_range_inv in H as (? & -> & ? & ?)
  | H : matches Eps _ |- _ => apply matches_eps_inv in H as ->
  end.

Ltac split_andb :=
  repeat match goal with
  | H : _ && _ = true |- _ => apply andb_true_iff in H as [? ?]
  | H : is_digit _ = true |- _ => unfold is_digit in H
  | H : (_ <=? _) = true |- _ => apply N.leb_le in H
  | H : (_ =? _) = true |- _ => apply N.eqb_eq in H
  end.

Lemma matches_digit (lo hi c : char) :
  lo <= c -> c <= hi -> matches (Range lo hi) [c].
Proof. by constructor. Qed.

Lemma matches_minutes (m1 m2 : char) :
  48 <= m1 -> m1 <= 53 -> 48 <= m2 -> m2 <= 57 ->
  matches (Seq (Chr 58) (Seq (Range 48 53) (Range 48 57))) [58; m1; m2].
Proof.
  intros. apply (m_seq _ _ [58] [m1; m2]); [constructor|].
  apply (m_seq _ _ [m1] [m2]); by constructor.
Qed.

(** The pattern accepts exactly the strings of the two forms. *)
Lemma time_pattern_spec (s : str) :
  fullmatch time_pattern s = is_HHMM s || is_HMM s.
Proof.
  apply Bool.eq_iff_eq_true. rewrite fullmatch_spec. split.
  - unfold time_pattern. intros Hm. inv_matches; cbn;
      unfold is_digit; settle_N; reflexivity.
  - intros Hs. apply orb_true_iff in Hs as [Hs|Hs].
    + destruct s as [|h1 [|h2 [|c [|m1 [|m2 [|? ?]]]]]]; try discriminate.
      cbn in Hs. split_andb. subst c.
      apply (m_seq _ _ [h1; h2] [58; m1; m2]); [|apply matches_minutes; lia].
      destruct (N.leb_spec h1 49).
      * apply m_alt_l.
        apply (m_seq _ _ [h1] [h2]); [apply m_opt_some|]; constructor; lia.
      * assert (h1 = 50) as -> by lia. apply m_alt_r.
        apply (m_seq _ _ [50] [h2]); constructor; lia.
    + destruct s as [|h [|c [|m1 [|m2 [|? ?]]]]]; try discriminate.
      cbn in Hs. split_andb. subst c.
      apply (m_seq _ _ [h] [58; m1; m2]); [|apply matches_minutes; lia].
      apply m_alt_l. apply (m_seq _ _ [] [h]); constructor; lia.
Qed.

End TimeFacts.

(** ** Strings: [strip], [split] and [int] on time strings *)

Module StrFacts.
Import Py Re TimeSpec TimeFacts.
Local Open Scope N_scope.

Lemma lstrip_head (s : str) :
  match lstrip s with
  | c :: _ => isspace c = false
  | [] => True
  end.
Proof.
  induction s as [|c s IH]; cbn [lstrip]; [exact I|].
  destruct (isspace c) eqn:Hc; [exact IH|exact Hc].
Qed.

(** A stripped string does not end in a newline, so [$] can only hold at
    its very end. *)
Lemma strip_no_final_newline (s : str) : ends_with_newline (strip s) = None.
Proof.
  unfold ends_with_newline, strip, rstrip. rewrite rev_involutive.
  pose proof (lstrip_head (rev (lstrip s))) as Hh.
  destruct (lstrip (rev (lstrip s))) as [|c r]; [reflexivity|].
  destruct (N.eqb_spec c 10) as [->|_]; [discriminate|reflexivity].
Qed.

Lemma match_anchored_strip (r : regex) (s : str) :
  match_anchored r (strip s) = fullmatch r (strip s).
Proof.
  unfold match_anchored. rewrite strip_no_final_newline. apply orb_false_r.
Qed.

Lemma digit_not_space (c : char) : is_digit c = true -> isspace c = false.
Proof.
  unfold is_digit. intros Hc. apply andb_true_iff in Hc as [Hlo Hhi].
  apply N.leb_le in Hlo, Hhi. unfold isspace. settle_N. reflexivity.
Qed.

Lemma digit_val_range (c : char) :
  is_digit c = true -> (0 <= digit_val c <= 9)%Z.
Proof.
  unfold is_digit, digit_val. intros Hc. apply andb_true_iff in Hc as [Hlo Hhi].
  apply N.leb_le in Hlo, Hhi. lia.
Qed.

Lemma int_one_digit (d : char) :
  is_digit d = true -> Py.int [d] = Ok (digit_val d).
Proof.
  intros Hd. pose proof (digit_not_space d Hd) as Hs.
  unfold Py.int, strip, rstrip. cbn [lstrip rev app]. rewrite Hs.
  cbn [lstrip rev app]. rewrite Hs. cbn [rev app].
  unfold is_digit in Hd. apply andb_true_iff in Hd as [Hlo Hhi].
  apply N.leb_le in Hlo, Hhi. settle_N.
  cbn [int_digits]. unfold is_digit. settle_N. cbn [andb].
  f_equal; lia.
Qed.

Lemma int_two_digits (a d : char) :
  is_digit a = true -> is_digit d = true ->
  Py.int [a; d] = Ok (10 * digit_val a + digit_val d)%Z.
Proof.
  intros Ha Hd. pose proof (digit_not_space a Ha) as Hsa.
  pose proof (digit_not_space d Hd) as Hsd.
  unfold Py.int, strip, rstrip. cbn [lstrip rev app]. rewrite Hsa.
  cbn [lstrip rev app]. rewrite Hsd. cbn [rev app].
  unfold is_digit in Ha, Hd.
  apply andb_true_iff in Ha as [Hlo Hhi].
  apply andb_true_iff in Hd as [Hlo' Hhi'].
  apply N.leb_le in Hlo, Hhi, Hlo', Hhi'. settle_N.
  cbn [int_digits]. unfold is_digit. settle_N. cbn [andb].
  f_equal; lia.
Qed.

Lemma hour_minute_of_range (s : str) :
  is_HHMM s || is_HMM s = true ->
  (0 <= (hour_minute_of s).1 <= 23 /\ 0 <= (hour_minute_of s).2 <= 59)%Z.
Proof.
  intros Hs. apply orb_true_iff in Hs as [Hs|Hs].
  - destruct s as [|h1 [|h2 [|c [|m1 [|m2 [|? ?]]]]]]; try discriminate.
    cbn in Hs. split_andb. unfold hour_minute_of, digit_val. cbn [fst snd]. lia.
  - destruct s as [|h [|c [|m1 [|m2 [|? ?]]]]]; try discriminate.
    cbn in Hs. split_andb. unfold hour_minute_of, digit_val. cbn [fst snd]. lia.
Qed.

Lemma parse_hour_minute_valid (s : str) :
  is_HHMM s || is_HMM s = true ->
  Scheduler.parse_hour_minute s = Ok (hour_minute_of s).
Proof.
  intros Hs. apply orb_true_iff in Hs as [Hs|Hs].
  - destruct s as [|h1 [|h2 [|c [|m1 [|m2 [|? ?]]]]]]; try discriminate.
    cbn in Hs. apply andb_true_iff in Hs as [Hs _].
    apply andb_true_iff in Hs as [Hs _].
    apply andb_true_iff in Hs as [Hs Hm2].
    apply andb_true_iff in Hs as [Hs Hm1].
    apply andb_true_iff in Hs as [Hs Hc].
    apply andb_true_iff in Hs as [Hh1 Hh2].
    apply N.eqb_eq in Hc as ->.
    unfold Scheduler.parse_hour_minute. cbn [split].
    assert (Hne : forall d, is_digit d = true -> (d =? 58) = false).
    { intros d Hd. unfold is_digit in Hd. split_andb. settle_N. reflexivity. }
    repeat (cbn [split];
            first [rewrite Hne by assumption | rewrite N.eqb_refl]).
    rewrite !int_two_digits by assumption. reflexivity.
  - destruct s as [|h [|c [|m1 [|m2 [|? ?]]]]]; try discriminate.
    cbn in Hs. apply andb_true_iff in Hs as [Hs _].
    apply andb_true_iff in Hs as [Hs Hm2].
    apply andb_true_iff in Hs as [Hs Hm1].
    apply andb_true_iff in Hs as [Hh Hc].
    apply N.eqb_eq in Hc as ->.
    unfold Scheduler.parse_hour_minute. cbn [split].
    assert (Hne : forall d, is_digit d = true -> (d =? 58) = false).
    { intros d Hd. unfold is_digit in Hd. split_andb. settle_N. reflexivity. }
    repeat (cbn [split];
            first [rewrite Hne by assumption | rewrite N.eqb_refl]).
    rewrite int_one_digit, int_two_digits by assumption. reflexivity.
Qed.

End StrFacts.

(** ** [datetime] arithmetic *)

Module DateFacts.
Import Py.
Local Open Scope Z_scope.

(** The four quotients that [at_offset] takes, one from the other. *)
Lemma split_instant (w : Z) :
  exists a b c : Z,
    w / us_per_second = a /\ w / (60 * us_per_second) = b
    /\ w / (3600 * us_per_second) = c
    /\ w / us_per_day = c / 24
    /\ w = us_per_second * a + w mod us_per_second
    /\ 0 <= w mod us_per_second < us_per_second
    /\ a = 60 * b + a mod 60 /\ 0 <= a mod 60 < 60
    /\ b = 60 * c + b mod 60 /\ 0 <= b mod 60 < 60
    /\ c = 24 * (c / 24) + c mod 24 /\ 0 <= c mod 24 < 24.
Proof.
  unfold us_per_day, us_per_second.
  exists (w / 1000000), (w / 1000000 / 60), (w / 1000000 / 60 / 60).
  repeat split; try reflexivity;
    try (apply Z.div_mod; lia); try (apply Z.mod_pos_bound; lia).
  - rewrite Z.div_div by lia. reflexivity.
  - rewrite !Z.div_div by lia. reflexivity.
  - rewrite !Z.div_div by lia. reflexivity.
Qed.

Lemma wall_us_at_offset (t off : Z) (tz : option Z) :
  wall_us (at_offset t off tz) = t + off * us_per_second.
Proof.
  unfold wall_us, at_offset. cbn [ordinal hour minute second microsecond].
  destruct (split_instant (t + off * us_per_second))
    as (a & b & c & -> & -> & -> & -> & Hw & ? & Ha & ? & Hb & ? & Hc & ?).
  revert Hw Ha Hb Hc.
  generalize ((t + off * us_per_second) mod us_per_second).
  generalize (t + off * us_per_second).
  generalize (a mod 60) (b mod 60) (c mod 24) (c / 24).
  unfold us_per_second. intros. lia.
Qed.

Lemma instant_at_offset (t off : Z) :
  instant (at_offset t off (Some off)) = t.
Proof.
  unfold instant, offset_us. rewrite wall_us_at_offset.
  cbn [tzoffset at_offset]. lia.
Qed.

Lemma instant_at_offset_naive (t off : Z) :
  instant (at_offset t off None) = t + off * us_per_second.
Proof.
  unfold instant, offset_us. rewrite wall_us_at_offset.
  cbn [tzoffset at_offset]. lia.
Qed.

Lemma instant_astimezone_utc (d : datetime) :
  instant (astimezone_utc d) = instant d.
Proof.
  unfold astimezone_utc. rewrite instant_at_offset. reflexivity.
Qed.



End DateFacts.

(** ** The next fire time *)

Module NextRun.
Import Py Database JobQueue TimeSpec TimeFacts StrFacts DateFacts.
Local Open Scope Z_scope.

Section WithPytz.
Context `{Pytz}.

(** The two copies of the computation, in [setup_scheduler] and in
    [reschedule_user_job], agree on every input. *)
Lemma next_run_same (s : str) (tz : tzinfo) (t r : Z) :
  Handlers.next_run s tz t r = Scheduler.next_run s tz t r.
Proof.
  unfold Handlers.next_run, Scheduler.next_run, Scheduler.parse_hour_minute,
    Scheduler.datetime_now.
  destruct (split 58%N s) as [|a [|b [|? ?]]]; try reflexivity.
  destruct (Py.int a); [|reflexivity]. destruct (Py.int b); reflexivity.
Qed.



(** On a valid time string and a jitter between 0 and 30 nothing raises. *)
Lemma next_run_succeeds (s : str) (tz : tzinfo) (t r : Z) :
  is_HHMM s || is_HMM s = true -> 0 <= r <= 30 ->
  exists p, Handlers.next_run s tz t r = Ok p.
Proof.
  intros Hs Hr. rewrite next_run_same. unfold Scheduler.next_run.
  rewrite (parse_hour_minute_valid s Hs).
  pose proof (hour_minute_of_range s Hs) as [Hh Hm].
  destruct (hour_minute_of s) as [h m]. cbn [fst snd res_bind] in *.
  unfold replace_hms. settle_Z. cbn [andb res_bind]. by eexists.
Qed.


End WithPytz.

(** A user in Chicago who asked for 15:00: on Friday 1 March 2024 at 14:10
    local time (20:10 UTC) the job is due the same day, at 21:00:07 UTC; at
    15:30 local time (21:30 UTC) it is due on Saturday 2 March. *)
Example chicago_later_today :
  Scheduler.scheduled_utc <$>
    (match @Scheduler.next_run Sample.year_2024 (lit "15:00") Sample.Chicago
             (utc 2024 3 1 20 10 0) 7 with Ok p => Some p | Raise _ => None end)
  = Some (at_offset (utc 2024 3 1 21 0 7) 0 (Some 0)).
Proof. vm_compute. reflexivity. Qed.

Example chicago_rolls_over :
  Scheduler.scheduled_utc <$>
    (match @Scheduler.next_run Sample.year_2024 (lit "15:00") Sample.Chicago
             (utc 2024 3 1 21 30 0) 7 with Ok p => Some p | Raise _ => None end)
  = Some (at_offset (utc 2024 3 2 21 0 7) 0 (Some 0)).
Proof. vm_compute. reflexivity. Qed.



End NextRun.

(** ** UTF-8: decoding undoes encoding *)

Module Utf8Facts.
Import Py.
Local Open Scope N_scope.

(** One character: its bytes are bytes, and the decoder reads them back
    in front of whatever follows. *)
Lemma decode_encode_char (c : char) :
  is_scalar c = true ->
  exists bs,
    encode_char c = Ok bs
    /\ Forall (fun b => b < 256) bs
    /\ forall rest s, decode rest = Ok s -> decode (bs ++ rest) = Ok (c :: s).
Proof.
  unfold is_scalar, encode_char, is_surrogate. intros Hc.
  apply andb_true_iff in Hc as [Hmax Hsur]. apply N.ltb_lt in Hmax.
  destruct (N.ltb_spec c 128) as [H1|H1].
  { eexists. split; [reflexivity|]. split; [repeat constructor; lia|].
    intros rest s Hrest. cbn [app decode]. settle_N. rewrite Hrest.
    reflexivity. }
  destruct (N.ltb_spec c 2048) as [H2|H2].
  { eexists. split; [reflexivity|]. clear Hsur.
    name_divmod c 64.
    split; [repeat constructor; lia|].
    intros rest s Hrest. cbn [app decode]. unfold is_cont. settle_N.
    cbn [andb]. rewrite Hrest. cbn [res_bind]. do 2 f_equal. lia. }
  destruct (N.ltb_spec c 65536) as [H3|H3].
  { destruct ((55296 <=? c) && (c <=? 57343)) eqn:Hs; [discriminate|].
    eexists. split; [reflexivity|]. clear Hsur.
    assert (Hs' : c < 55296 \/ 57343 < c).
    { apply andb_false_iff in Hs as [Hs|Hs];
        [left; apply N.leb_gt, Hs|right; apply N.leb_gt, Hs]. }
    clear Hs. replace (c / 4096) with (c / 64 / 64)
      by (rewrite N.Div0.div_div; reflexivity).
    name_divmod (c / 64) 64. name_divmod c 64.
    split; [repeat constructor; lia|].
    intros rest s Hrest. cbn [app decode].
    unfold is_cont, is_surrogate.
    destruct Hs'; settle_N; cbn [andb negb]; rewrite Hrest; cbn [res_bind];
      do 2 f_equal; lia. }
  { rewrite (proj2 (N.ltb_lt c 1114112)) by lia.
    eexists. split; [reflexivity|]. clear Hsur.
    replace (c / 262144) with (c / 64 / 64 / 64)
      by (rewrite !N.Div0.div_div; reflexivity).
    replace (c / 4096) with (c / 64 / 64)
      by (rewrite N.Div0.div_div; reflexivity).
    name_divmod (c / 64 / 64) 64. name_divmod (c / 64) 64. name_divmod c 64.
    split; [repeat constructor; lia|].
    intros rest s Hrest. cbn [app decode].
    unfold is_cont. settle_N. cbn [andb]. rewrite Hrest. cbn [res_bind].
    do 2 f_equal. lia. }
Qed.

(** A string without surrogates encodes, to bytes that decode to it. *)
Lemma decode_encode (s : str) :
  Forall (fun c => is_scalar c = true) s ->
  exists bs,
    encode s = Ok bs /\ Forall (fun b => b < 256) bs /\ decode bs = Ok s.
Proof.
  induction 1 as [|c s Hc _ (bs & He & Hb & Hd)].
  - exists []. repeat split; constructor.
  - destruct (decode_encode_char c Hc) as (b & Hec & Hbb & Hdc).
    exists (b ++ bs). cbn [encode]. rewrite Hec, He. cbn [res_bind].
    split; [reflexivity|]. split; [by apply Forall_app|]. by apply Hdc.
Qed.

(** ASCII bytes and ASCII strings are the same lists. *)
Lemma decode_ascii (bs : bytes) :
  Forall (fun b => b < 128) bs -> decode bs = Ok bs.
Proof.
  induction 1 as [|b bs Hb _ IH]; [reflexivity|].
  cbn [decode]. cbv beta in Hb. settle_N. rewrite IH. reflexivity.
Qed.

Lemma encode_ascii (s : str) :
  Forall (fun c => c < 128) s -> encode s = Ok s.
Proof.
  induction 1 as [|c s Hc _ IH]; [reflexivity|].
  cbn [encode]. unfold encode_char. cbv beta in Hc. settle_N. rewrite IH.
  reflexivity.
Qed.

End Utf8Facts.

(** ** The store *)

Module StoreFacts.
Import Py Database Utf8Facts Scenario.
Local Open Scope Z_scope.

Section WithFernet.
Context `{Fernet}.

(** What [_encrypt] stores, [_decrypt] reads back. *)
Lemma decrypt_encrypt (self : Database) (entropy : N) (data : str) :
  Forall (fun c => is_scalar c = true) data ->
  exists token,
    _encrypt self entropy data = Ok token /\ _decrypt self token = Ok data.
Proof.
  intros Hdata. destruct (decode_encode data Hdata) as (bs & He & Hb & Hd).
  pose proof (fernet_token_ascii (encryption_key self) entropy bs) as Hascii.
  exists (fernet_encrypt (encryption_key self) entropy bs).
  unfold _encrypt, _decrypt. rewrite He. cbn [res_bind].
  rewrite (decode_ascii _ Hascii), (encode_ascii _ Hascii). cbn [res_bind].
  rewrite fernet_decrypt_encrypt by exact Hb. cbn [res_bind].
  split; [reflexivity|exact Hd].
Qed.

(** [_decrypt] looks at the key only. *)
Lemma _decrypt_key (self self' : Database) (token : str) :
  encryption_key self' = encryption_key self ->
  _decrypt self' token = _decrypt self token.
Proof. unfold _decrypt. by intros ->. Qed.

Lemma user_of_row_key (self self' : Database) (id : Z) (r : user_row) :
  encryption_key self' = encryption_key self ->
  user_of_row self' id r = user_of_row self id r.
Proof.
  intros Hk. unfold user_of_row. by rewrite !(_decrypt_key self self') by done.
Qed.

Lemma user_of_row_ok (self : Database) (id : Z) (r : user_row)
    (username password : str) :
  _decrypt self (row_aspen_username r) = Ok username ->
  _decrypt self (row_aspen_password r) = Ok password ->
  user_of_row self id r =
  Ok {| telegram_id := id; aspen_username := username;
        aspen_password := password;
        notification_method := row_notification_method r;
        is_active := negb (row_is_active r =? 0);
        created_at := row_created_at r;
        last_updated := row_last_updated r |}.
Proof. intros Hu Hp. unfold user_of_row. by rewrite Hu, Hp. Qed.

(** The loop of [get_all_active_users] stops at the first row that does not
    decrypt. *)
Lemma users_of_rows_raise (self : Database) (rows : list (Z * user_row))
    (id : Z) (r : user_row) (e : exn) :
  (id, r) ∈ rows -> user_of_row self id r = Raise e ->
  exists e', users_of_rows self rows = Raise e'.
Proof.
  intros Hin Hr. induction rows as [|[id' r'] rows IH]; [by inversion Hin|].
  cbn [users_of_rows]. apply elem_of_cons in Hin as [Heq|Hin].
  - injection Heq as <- <-. rewrite Hr. by eexists.
  - destruct (user_of_row self id' r'); [|by eexists].
    destruct (IH Hin) as [e' ->]. by eexists.
Qed.

(** C6.  For a username and a password without surrogate code points
    (every printable string is one), [add_user] succeeds, and [get_user] on
    the resulting store returns the account with exactly that username and
    that password in the clear, under the same id and method. *)
Theorem add_user_get_user (self : Database) (id : Z)
    (username password method : str) (utcnow : Z) (e1 e2 : N) :
  Forall (fun c => is_scalar c = true) username ->
  Forall (fun c => is_scalar c = true) password ->
  exists self' u,
    add_user self id username password method utcnow e1 e2 = (self', true)
    /\ get_user self' id = Some u
    /\ aspen_username u = username
    /\ aspen_password u = password
    /\ telegram_id u = id
    /\ notification_method u = method.
Proof.
  intros Hu Hp.
  destruct (decrypt_encrypt self e1 username Hu) as (tu & Heu & Hdu).
  destruct (decrypt_encrypt self e2 password Hp) as (tp & Hep & Hdp).
  unfold add_user, add_user_body. rewrite Heu, Hep. cbn [res_bind].
  destruct (users self !! id) as [existing|] eqn:Hex;
    eexists; eexists; (split; [reflexivity|]);
    unfold get_user, get_user_body; cbn [users];
    rewrite lookup_insert_eq;
    (rewrite (user_of_row_key self) by reflexivity);
    (erewrite user_of_row_ok by eassumption);
    cbn [res_bind]; repeat split; reflexivity.
Qed.

Lemma get_user_settings_insert_eq (k : fernet_key) (us : gmap Z user_row)
    (ss : gmap Z settings_row) (id : Z) (r : settings_row) :
  get_user_settings
    {| encryption_key := k; users := us; user_settings := <[id := r]> ss |} id
  = Some {| s_telegram_id := id; timezone := row_timezone r;
            notification_frequency := row_notification_frequency r;
            notification_time := row_notification_time r |}.
Proof.
  unfold get_user_settings. cbn [user_settings]. by rewrite lookup_insert_eq.
Qed.

Lemma get_user_settings_insert_ne (self : Database) (k : fernet_key)
    (us : gmap Z user_row) (id id' : Z) (r : settings_row) :
  id' <> id ->
  get_user_settings
    {| encryption_key := k; users := us;
       user_settings := <[id := r]> (user_settings self) |} id'
  = get_user_settings self id'.
Proof.
  intros Hne. unfold get_user_settings. cbn [user_settings].
  by rewrite lookup_insert_ne.
Qed.

(** C8.  [update_user_notification_time] stores the new time next to the
    zone that was stored (America/Chicago if there was no row), and
    [update_user_timezone] stores the new zone next to the time that was
    stored (15:00 if there was no row); neither touches the accounts or
    another user's settings. *)
Theorem settings_update_keeps_other_field (self : Database) (id : Z)
    (new_time new_zone : str) :
  let zone_before :=
    match get_user_settings self id with
    | Some cs => timezone cs
    | None => lit "America/Chicago"
    end in
  let time_before :=
    match get_user_settings self id with
    | Some cs => notification_time cs
    | None => lit "15:00"
    end in
  let by_time := update_user_notification_time self id new_time in
  let by_zone := update_user_timezone self id new_zone in
  get_user_settings by_time.1 id
    = Some {| s_telegram_id := id; timezone := zone_before;
              notification_frequency := lit "daily";
              notification_time := new_time |}
  /\ get_user_settings by_zone.1 id
    = Some {| s_telegram_id := id; timezone := new_zone;
              notification_frequency := lit "daily";
              notification_time := time_before |}
  /\ by_time.2 = true /\ by_zone.2 = true
  /\ users by_time.1 = users self /\ users by_zone.1 = users self
  /\ (forall id', id' <> id ->
        get_user_settings by_time.1 id' = get_user_settings self id'
        /\ get_user_settings by_zone.1 id' = get_user_settings self id').
Proof.
  cbv zeta. unfold update_user_notification_time, update_user_timezone.
  cbn [fst snd users]. rewrite !get_user_settings_insert_eq.
  repeat split; try reflexivity; by apply get_user_settings_insert_ne.
Qed.

(** C10.  For an id with no account, both settings updates answer success
    and leave a settings row for that id, while there is still no account:
    a settings row need not belong to an account. *)
Theorem settings_without_account (self : Database) (id : Z)
    (new_time new_zone : str) :
  users self !! id = None ->
  let by_time := update_user_notification_time self id new_time in
  let by_zone := update_user_timezone self id new_zone in
  by_time.2 = true /\ by_zone.2 = true
  /\ is_Some (user_settings by_time.1 !! id)
  /\ is_Some (user_settings by_zone.1 !! id)
  /\ users by_time.1 !! id = None /\ users by_zone.1 !! id = None
  /\ get_user by_time.1 id = None /\ get_user by_zone.1 id = None.
Proof.
  intros Hno. cbv zeta.
  unfold update_user_notification_time, update_user_timezone, get_user,
    get_user_body.
  cbn [fst snd users user_settings]. rewrite !lookup_insert_eq, Hno.
  repeat split; eauto.
Qed.

(** C2, as the code has it.  When a stored credential of a row does not
    decrypt, the error is caught inside the store: [get_user] answers
    [None], which is also its answer for an id without a row, and, if the
    row is active, [get_all_active_users] answers the empty list. *)
Theorem decrypt_failure_is_swallowed (self : Database) (id : Z)
    (r : user_row) (e : exn) :
  users self !! id = Some r ->
  user_of_row self id r = Raise e ->
  get_user self id = None
  /\ (row_is_active r = 1 -> get_all_active_users self = []).
Proof.
  intros Hrow Hbad. split.
  - unfold get_user, get_user_body. rewrite Hrow, Hbad. reflexivity.
  - intros Hact. unfold get_all_active_users.
    destruct (users_of_rows_raise self (select_active self) id r e)
      as [e' ->]; [|exact Hbad|reflexivity].
    unfold select_active. apply list_elem_of_filter. split; [exact Hact|].
    by apply elem_of_map_to_list.
Qed.

End WithFernet.

Example alice_reads_back :
  get_user alice_db 42 =
  Some {| telegram_id := 42; aspen_username := lit "alice";
          aspen_password := lit "s3cret";
          notification_method := lit "telegram"; is_active := true;
          created_at := utc 2024 2 1 9 0 0;
          last_updated := utc 2024 2 1 9 0 0 |}.
Proof. vm_compute. reflexivity. Qed.

Lemma add_user_get_user_witness :
  exists self' u,
    add_user empty_db 42 (lit "alice") [233%N; 8364%N; 128512%N]
      (lit "telegram") 0 3 4 = (self', true)
    /\ get_user self' 42 = Some u
    /\ aspen_username u = lit "alice"
    /\ aspen_password u = [233%N; 8364%N; 128512%N].
Proof.
  destruct (add_user_get_user empty_db 42 (lit "alice")
              [233%N; 8364%N; 128512%N] (lit "telegram") 0 3 4)
    as (self' & u & Ha & Hg & Hu & Hp & _).
  - repeat constructor.
  - repeat constructor.
  - exists self', u. auto.
Defined.

Lemma settings_without_account_witness :
  (update_user_timezone empty_db 99 (lit "America/Denver")).2 = true
  /\ is_Some (user_settings
               (update_user_timezone empty_db 99 (lit "America/Denver")).1
             !! 99)
  /\ get_user
       (update_user_timezone empty_db 99 (lit "America/Denver")).1 99 = None.
Proof.
  destruct (settings_without_account empty_db 99 (lit "09:30")
              (lit "America/Denver"))
    as (_ & Hok & _ & Hrow & _ & _ & _ & Hno).
  - reflexivity.
  - auto.
Defined.

(** C2, as the claim states it, fails: the account 7 is stored and active,
    its ciphertext does not decrypt, and the caller sees the same answers
    as for the id 8, which has no row, and as for a store without any
    active account. *)
Lemma damaged_account_looks_missing :
  users damaged_db !! 7 = Some damaged_row
  /\ _decrypt damaged_db (row_aspen_username damaged_row) = Raise InvalidToken
  /\ users damaged_db !! 8 = None
  /\ get_user damaged_db 7 = get_user damaged_db 8
  /\ get_user damaged_db 7 = None
  /\ get_all_active_users damaged_db = get_all_active_users empty_db
  /\ get_all_active_users damaged_db = []
  /\ get_all_active_users alice_db <> [].
Proof. vm_compute. repeat split. discriminate. Qed.

Lemma decrypt_failure_is_swallowed_witness :
  get_user damaged_db 7 = None /\ get_all_active_users damaged_db = [].
Proof.
  destruct (decrypt_failure_is_swallowed damaged_db 7 damaged_row InvalidToken)
    as [Hg Ha].
  - reflexivity.
  - reflexivity.
  - split; [exact Hg|apply Ha; reflexivity].
Defined.

End StoreFacts.

(** ** The job queue under [reschedule_user_job] *)

Module QueueFacts.
Import Py Database JobQueue TimeSpec TimeFacts StrFacts DateFacts NextRun.
Local Open Scope Z_scope.

Section WithLibraries.
Context `{Fernet} `{Pytz}.

Lemma filter_all {A} (P : A -> Prop) `{!forall x, Decision (P x)}
    (l : list A) :
  (forall x, x ∈ l -> P x) -> filter P l = l.
Proof.
  induction l as [|a l IH]; intros Hl; [reflexivity|].
  rewrite filter_cons_True by (apply Hl; left).
  f_equal. apply IH. intros x Hx. apply Hl. by right.
Qed.

Lemma filter_none {A} (P : A -> Prop) `{!forall x, Decision (P x)}
    (l : list A) :
  (forall x, x ∈ l -> ~ P x) -> filter P l = [].
Proof.
  induction l as [|a l IH]; intros Hl; [reflexivity|].
  rewrite filter_cons_False by (apply Hl; left).
  apply IH. intros x Hx. apply Hl. by right.
Qed.

(** Removing the jobs of a list one after the other removes the jobs that
    carry one of their ids. *)
Lemma jobs_after_removals (l : list Job) (q : JobQueue) :
  jobs (fold_left schedule_removal l q)
  = filter (fun j => job_id j ∉ map job_id l) (jobs q)
  /\ next_id (fold_left schedule_removal l q) = next_id q.
Proof.
  revert q. induction l as [|a l IH]; intros q; cbn [fold_left map].
  - split; [|reflexivity]. symmetry. apply filter_all.
    intros j _. apply not_elem_of_nil.
  - destruct (IH (schedule_removal q a)) as [-> ->].
    split; [|reflexivity]. cbn [schedule_removal jobs].
    rewrite list_filter_filter. apply list_filter_iff. intros j.
    rewrite not_elem_of_cons. tauto.
Qed.

(** Once the jobs named [n] are removed, none is left under that name. *)
Lemma no_job_left_by_name (q : JobQueue) (n : str) :
  get_jobs_by_name (fold_left schedule_removal (get_jobs_by_name q n) q) n
  = [].
Proof.
  unfold get_jobs_by_name at 1.
  destruct (jobs_after_removals (get_jobs_by_name q n) q) as [-> _].
  rewrite list_filter_filter. apply filter_none.
  intros j Hj [Hname Hid]. apply Hid, list_elem_of_fmap. exists j.
  split; [reflexivity|]. unfold get_jobs_by_name.
  apply list_elem_of_filter. by split.
Qed.

(** What [reschedule_user_job] leaves, when nothing raises. *)
Lemma reschedule_user_job_ok (db : Database) (q : JobQueue) (id : Z)
    (s : str) (t r : Z) (u : user) (tz : tzinfo) (p : Scheduler.plan) :
  get_user db id = Some u ->
  pytz_timezone
    (match get_user_settings db id with
     | Some st => timezone st
     | None => lit "America/Chicago"
     end) = Ok tz ->
  Handlers.next_run s tz t r = Ok p ->
  Handlers.reschedule_user_job db q id s t r
  = run_daily
      (fold_left schedule_removal
         (get_jobs_by_name q (Handlers.job_name id)) q)
      (Scheduler.job_time_utc p) (Handlers.job_name id) u
      (Scheduler.scheduled_utc p).
Proof.
  intros Hu Htz Hp. unfold Handlers.reschedule_user_job.
  rewrite Hu, Htz. cbn [res_bind]. rewrite Hp. reflexivity.
Qed.

(** A queue to which [run_daily] was applied right after the jobs named [n]
    were removed holds exactly the new job under [n]. *)
Lemma one_job_after_replace (q : JobQueue) (n : str) (tm : Py.time)
    (u : user) (nrt : datetime) :
  let q' :=
    run_daily (fold_left schedule_removal (get_jobs_by_name q n) q)
      tm n u nrt in
  get_jobs_by_name q' n
  = [ {| job_id := next_id q; name := n; time := tm; data := u;
         next_run_time := nrt; scheduled_time := None |} ]
  /\ next_id q' = S (next_id q).
Proof.
  cbv zeta. unfold get_jobs_by_name at 1. unfold run_daily. cbn [jobs next_id].
  destruct (jobs_after_removals (get_jobs_by_name q n) q) as [Hj Hn].
  rewrite Hn. split; [|reflexivity].
  rewrite filter_app. fold (get_jobs_by_name
    (fold_left schedule_removal (get_jobs_by_name q n) q) n).
  rewrite no_job_left_by_name. cbn [app].
  rewrite filter_cons_True by reflexivity. reflexivity.
Qed.

(** The job name tells the user: distinct ids have distinct names. *)
Lemma uint_digits_inj (d d' : Decimal.uint) :
  uint_digits d = uint_digits d' -> d = d'.
Proof.
  revert d'. induction d as [|d IH|d IH|d IH|d IH|d IH|d IH|d IH|d IH|d IH|d IH];
    intros [|d'|d'|d'|d'|d'|d'|d'|d'|d'|d']; cbn [uint_digits]; intros Heq;
    try discriminate; try reflexivity;
    injection Heq as Heq; f_equal; by apply IH.
Qed.

Lemma uint_digits_no_sign (d d' : Decimal.uint) :
  uint_digits d <> 45%N :: uint_digits d'.
Proof. destruct d; cbn [uint_digits]; discriminate. Qed.

Lemma str_of_int_inj (a b : Z) : str_of_int a = str_of_int b -> a = b.
Proof.
  unfold str_of_int. intros Heq. apply DecimalZ.to_int_inj.
  destruct (Z.to_int a) as [d|d], (Z.to_int b) as [d'|d'].
  - by rewrite (uint_digits_inj d d' Heq).
  - by apply uint_digits_no_sign in Heq.
  - symmetry in Heq. by apply uint_digits_no_sign in Heq.
  - injection Heq as Heq. by rewrite (uint_digits_inj d d' Heq).
Qed.

Lemma job_name_inj (id id' : Z) :
  Handlers.job_name id = Handlers.job_name id' -> id = id'.
Proof.
  unfold Handlers.job_name. intros Heq. apply app_inv_head in Heq.
  by apply str_of_int_inj.
Qed.

Lemma job_name_same (id : Z) : Scheduler.job_name id = Handlers.job_name id.
Proof. reflexivity. Qed.

Lemma same_id_same_job (l : list Job) (j j' : Job) :
  NoDup (map job_id l) -> j ∈ l -> j' ∈ l -> job_id j = job_id j' -> j = j'.
Proof.
  induction l as [|a l IH]; cbn [map]; intros Hnd Hj Hj' Hid;
    [by apply elem_of_nil in Hj|].
  apply NoDup_cons in Hnd as [Ha Hnd].
  apply elem_of_cons in Hj as [->|Hj]; apply elem_of_cons in Hj' as [->|Hj'].
  - reflexivity.
  - exfalso. apply Ha. rewrite Hid. apply list_elem_of_fmap. by exists j'.
  - exfalso. apply Ha. rewrite <- Hid. apply list_elem_of_fmap. by exists j.
  - by apply IH.
Qed.

Lemma filter_agree {A} (P Q : A -> Prop) `{!forall x, Decision (P x)}
    `{!forall x, Decision (Q x)} (l : list A) :
  (forall x, x ∈ l -> P x <-> Q x) -> filter P l = filter Q l.
Proof.
  induction l as [|a l IH]; intros Hl; [reflexivity|].
  rewrite !filter_cons.
  destruct (decide (P a)) as [Hp|Hp], (decide (Q a)) as [Hq|Hq].
  - f_equal. apply IH. intros x Hx. apply Hl. by right.
  - exfalso. apply Hq, (Hl a); [left|exact Hp].
  - exfalso. apply Hp, (Hl a); [left|exact Hq].
  - apply IH. intros x Hx. apply Hl. by right.
Qed.

(** Where the jobs of a queue have distinct ids, [reschedule_user_job]
    leaves the jobs under every other name as they are: the jobs of the
    other users are not disturbed. *)
Lemma reschedule_keeps_other_names (db : Database) (q : JobQueue) (id : Z)
    (s : str) (t r : Z) (n : str) :
  NoDup (map job_id (jobs q)) ->
  n <> Handlers.job_name id ->
  get_jobs_by_name (Handlers.reschedule_user_job db q id s t r) n
  = get_jobs_by_name q n.
Proof.
  intros Hnd Hn. unfold Handlers.reschedule_user_job.
  destruct (get_user db id) as [u|]; [|reflexivity].
  destruct (res_bind _ _) as [p|]; [|reflexivity].
  unfold get_jobs_by_name at 1. unfold run_daily. cbn [jobs].
  destruct (jobs_after_removals
              (get_jobs_by_name q (Handlers.job_name id)) q) as [-> _].
  rewrite filter_app, filter_cons_False, filter_nil, app_nil_r
    by (cbn [name]; congruence).
  rewrite list_filter_filter. apply filter_agree.
  intros j Hj. split; [tauto|]. intros Hname. split; [exact Hname|].
  intros Hid. apply list_elem_of_fmap in Hid as (j' & Hid & Hj').
  apply list_elem_of_filter in Hj' as [Hname' Hj'].
  assert (j = j') by (by apply (same_id_same_job (jobs q))).
  subst j'. congruence.
Qed.

(** C5.  For a user whose account the store returns, whose zone the table
    knows and a valid time string, two calls of [reschedule_user_job] in a
    row leave exactly one job under the user's name
    [grade_check_user_<id>] after the first call and exactly one after the
    second: each call removes every job of that name and registers one new
    job, which carries the plan computed at that call. *)
Theorem reschedule_twice_one_job (db : Database) (q : JobQueue) (id : Z)
    (s : str) (t1 r1 t2 r2 : Z) (u : user) (tz : tzinfo) :
  get_user db id = Some u ->
  pytz_timezone
    (match get_user_settings db id with
     | Some st => timezone st
     | None => lit "America/Chicago"
     end) = Ok tz ->
  is_HHMM s || is_HMM s = true ->
  0 <= r1 <= 30 -> 0 <= r2 <= 30 ->
  let q1 := Handlers.reschedule_user_job db q id s t1 r1 in
  let q2 := Handlers.reschedule_user_job db q1 id s t2 r2 in
  exists p1 p2,
    Handlers.next_run s tz t1 r1 = Ok p1
    /\ Handlers.next_run s tz t2 r2 = Ok p2
    /\ get_jobs_by_name q1 (Handlers.job_name id)
       = [ {| job_id := next_id q; name := Handlers.job_name id;
              time := Scheduler.job_time_utc p1; data := u;
              next_run_time := Scheduler.scheduled_utc p1;
              scheduled_time := None |} ]
    /\ get_jobs_by_name q2 (Handlers.job_name id)
       = [ {| job_id := S (next_id q); name := Handlers.job_name id;
              time := Scheduler.job_time_utc p2; data := u;
              next_run_time := Scheduler.scheduled_utc p2;
              scheduled_time := None |} ]
    /\ length (get_jobs_by_name q1 (Handlers.job_name id)) = 1%nat
    /\ length (get_jobs_by_name q2 (Handlers.job_name id)) = 1%nat.
Proof.
  intros Hu Htz Hs Hr1 Hr2 q1 q2.
  destruct (next_run_succeeds s tz t1 r1 Hs Hr1) as [p1 Hp1].
  destruct (next_run_succeeds s tz t2 r2 Hs Hr2) as [p2 Hp2].
  exists p1, p2. split; [exact Hp1|]. split; [exact Hp2|].
  assert (H1 : get_jobs_by_name q1 (Handlers.job_name id)
       = [ {| job_id := next_id q; name := Handlers.job_name id;
              time := Scheduler.job_time_utc p1; data := u;
              next_run_time := Scheduler.scheduled_utc p1;
              scheduled_time := None |} ] /\ next_id q1 = S (next_id q)).
  { unfold q1. rewrite (reschedule_user_job_ok _ _ _ _ _ _ _ _ _ Hu Htz Hp1).
    apply one_job_after_replace. }
  assert (H2 : get_jobs_by_name q2 (Handlers.job_name id)
       = [ {| job_id := next_id q1; name := Handlers.job_name id;
              time := Scheduler.job_time_utc p2; data := u;
              next_run_time := Scheduler.scheduled_utc p2;
              scheduled_time := None |} ]).
  { unfold q2. rewrite (reschedule_user_job_ok _ _ _ _ _ _ _ _ _ Hu Htz Hp2).
    apply one_job_after_replace. }
  destruct H1 as [H1 Hn]. rewrite Hn in H2. rewrite H1, H2. auto.
Qed.

End WithLibraries.
End QueueFacts.

(** ** Firings *)

Module FiringFacts.
Import Py Database JobQueue TimeSpec TimeFacts StrFacts DateFacts NextRun.
Local Open Scope Z_scope.

(** A job that is due at an instant of its own daily rule is due again
    exactly one day later. *)
Lemma daily_next_on_rule (tm : Py.time) (y : Z) :
  y mod us_per_day = time_of_day_us tm ->
  daily_next tm y = y + us_per_day.
Proof.
  intros Hy. unfold daily_next. rewrite <- Hy.
  assert (Hpos : us_per_day <> 0) by (unfold us_per_day, us_per_second; lia).
  pose proof (Z.div_mod y us_per_day Hpos) as Hd.
  replace (y / us_per_day * us_per_day + y mod us_per_day) with y by lia.
  rewrite Z.leb_refl. reflexivity.
Qed.

(** The time of day of a whole second, as [at_offset] splits it. *)
Lemma time_of_day_at_utc (x : Z) (tz : option Z) :
  x mod us_per_second = 0 ->
  time_of_day_us
    {| t_hour := hour (at_offset x 0 tz);
       t_minute := minute (at_offset x 0 tz);
       t_second := second (at_offset x 0 tz) |}
  = x mod us_per_day.
Proof.
  intros Hx. unfold time_of_day_us. cbn [t_hour t_minute t_second].
  cbn [hour minute second at_offset].
  replace (x + 0 * us_per_second) with x by lia.
  destruct (split_instant x)
    as (a & b & c & -> & -> & -> & Hday & Hw & _ & Ha & ? & Hb & ? & Hc & ?).
  rewrite Hx in Hw.
  apply (Z.mod_unique _ _ (c / 24)).
  - left. unfold us_per_day, us_per_second.
    generalize dependent (a mod 60). generalize dependent (b mod 60).
    generalize dependent (c mod 24). intros. lia.
  - revert Hw Ha Hb Hc. unfold us_per_day, us_per_second.
    generalize (a mod 60) (b mod 60) (c mod 24) (c / 24). intros. lia.
Qed.

Section WithLibraries.
Context `{Fernet} `{Pytz} `{Collaborators}.

(** The plan [next_run] makes: a whole second, and a daily rule that is
    the time of day of its first fire instant. *)
Lemma plan_on_rule (s : str) (tz : tzinfo) (t r : Z) (p : Scheduler.plan) :
  Scheduler.next_run s tz t r = Ok p ->
  instant (Scheduler.scheduled_utc p) mod us_per_day
  = time_of_day_us (Scheduler.job_time_utc p).
Proof.
  unfold Scheduler.next_run. destruct (Scheduler.parse_hour_minute s)
    as [[h m]|]; [|discriminate]. cbn [res_bind].
  unfold replace_hms.
  destruct ((0 <=? h) && (h <=? 23) && (0 <=? m) && (m <=? 59)
            && (0 <=? r) && (r <=? 59)); [|discriminate].
  cbn [res_bind]. intros Heq.
  apply (f_equal (fun x => match x with Ok y => y | Raise _ => p end)) in Heq.
  cbv beta iota in Heq. subst p.
  cbn [Scheduler.scheduled_utc Scheduler.job_time_utc].
  rewrite instant_astimezone_utc. unfold astimezone_utc.
  symmetry. apply time_of_day_at_utc.
  match goal with |- instant ?d mod _ = 0 =>
    assert (Hd : exists k, instant d = k * us_per_second) end.
  { set (o := ordinal (Scheduler.datetime_now tz t)).
    destruct (le _ _);
      [exists ((((o + 1) * 24 + h) * 60 + m) * 60 + r - utcoffset tz t)
      |exists (((o * 24 + h) * 60 + m) * 60 + r - utcoffset tz t)];
      unfold instant, wall_us, offset_us, add_days;
      cbn [ordinal hour minute second microsecond tzoffset
           Scheduler.datetime_now at_offset]; fold o; ring. }
  destruct Hd as [k ->]. apply Z.mod_mul.
  unfold us_per_second. lia.
Qed.

Lemma instant_after_run (j : Job) :
  instant (next_run_time (after_run j))
  = daily_next (time j) (instant (next_run_time j)).
Proof. unfold after_run. cbn [next_run_time]. apply instant_at_offset. Qed.

Lemma after_run_iter (job : Job) (n : nat) :
  instant (next_run_time job) mod us_per_day = time_of_day_us (time job) ->
  let j := Nat.iter n after_run job in
  job_id j = job_id job /\ name j = name job /\ time j = time job
  /\ data j = data job
  /\ instant (next_run_time j)
     = instant (next_run_time job) + Z.of_nat n * us_per_day.
Proof.
  intros Hrule. induction n as [|n IH].
  - cbn. repeat split; lia.
  - cbv zeta in *. rewrite Nat.iter_succ.
    destruct IH as (Hid & Hname & Htime & Hdata & Hnext).
    repeat split; try assumption.
    rewrite instant_after_run, Htime, Hnext.
    rewrite daily_next_on_rule; [lia|].
    rewrite <- Hrule. apply Z.mod_add.
    unfold us_per_day, us_per_second. lia.
Qed.

(** C1, as the code has it.  The job a plan registers keeps the rule of
    that plan: the queue a firing leaves does not depend on the store, the
    fired job stays in it, and after any number of runs the job has the
    same name, rule and data, and is due a whole number of days after its
    first fire instant, whatever the Settings have become. *)
Theorem firing_keeps_registered_rule (s : str) (tz : tzinfo) (t r : Z)
    (p : Scheduler.plan) (job : Job) :
  Scheduler.next_run s tz t r = Ok p ->
  time job = Scheduler.job_time_utc p ->
  next_run_time job = Scheduler.scheduled_utc p ->
  forall (db db' : Database) (q : JobQueue) (clk : Scheduler.fire_clock),
    (Scheduler.fire db q job clk).1 = (Scheduler.fire db' q job clk).1
    /\ (job ∈ jobs q ->
        after_run job ∈ jobs (Scheduler.fire db q job clk).1)
    /\ forall n : nat,
         let j := Nat.iter n after_run job in
         name j = name job /\ time j = Scheduler.job_time_utc p
         /\ data j = data job
         /\ instant (next_run_time j)
            = instant (Scheduler.scheduled_utc p) + Z.of_nat n * us_per_day.
Proof.
  intros Hp Htime Hnext db db' q clk.
  split; [reflexivity|]. split.
  - intros Hin. unfold Scheduler.fire. cbn [fst jobs].
    apply list_elem_of_fmap. exists job. split; [|exact Hin].
    by rewrite bool_decide_eq_true_2.
  - intros n.
    destruct (after_run_iter job n) as (_ & Hn & Ht & Hd & Hi).
    { rewrite Hnext, Htime. eapply plan_on_rule, Hp. }
    cbv zeta. rewrite Hn, Ht, Hd, Hi, Htime, Hnext. auto.
Qed.

(** C3, as the code has it.  When the machine's own clock
    ([datetime.now()], naive) reads Saturday or Sunday, the firing delivers
    no message, and the job stays in the queue under its daily rule. *)
Theorem weekend_skip_by_process_clock (db : Database) (q : JobQueue)
    (job : Job) (clk : Scheduler.fire_clock) :
  5 <= weekday (Scheduler.datetime_now_naive (Scheduler.sys_utcoffset clk)
                  (Scheduler.now_1 clk)) ->
  (Scheduler.fetch_and_notify_user db job clk).2 = []
  /\ ((Scheduler.fetch_and_notify_user db job clk).1 = Scheduler.WeekendSkipped
      \/ (Scheduler.fetch_and_notify_user db job clk).1
         = Scheduler.UserNotFound)
  /\ (Scheduler.fire db q job clk).2.2 = []
  /\ (job ∈ jobs q -> after_run job ∈ jobs (Scheduler.fire db q job clk).1).
Proof.
  intros Hw.
  assert (Hf : (Scheduler.fetch_and_notify_user db job clk).2 = []
    /\ ((Scheduler.fetch_and_notify_user db job clk).1
          = Scheduler.WeekendSkipped
        \/ (Scheduler.fetch_and_notify_user db job clk).1
           = Scheduler.UserNotFound)).
  { unfold Scheduler.fetch_and_notify_user.
    destruct (get_user db (telegram_id (data job))); [|auto].
    rewrite (proj2 (Z.leb_le _ _) Hw). auto. }
  destruct Hf as [Hsent Hout]. repeat split; try assumption.
  intros Hin. unfold Scheduler.fire. cbn [fst jobs].
  apply list_elem_of_fmap. exists job. split; [|exact Hin].
  by rewrite bool_decide_eq_true_2.
Qed.

(** Deactivation leaves the credentials [get_user] returns, and whether it
    returns any, as they were. *)
Lemma get_user_deactivated (db : Database) (id : Z) (utcnow : Z) :
  match get_user db id, get_user (deactivate_user db id utcnow).1 id with
  | Some u, Some u' =>
      aspen_username u' = aspen_username u
      /\ aspen_password u' = aspen_password u
      /\ is_active u' = false
  | None, None => True
  | _, _ => False
  end.
Proof.
  unfold deactivate_user, get_user, get_user_body.
  destruct (users db !! id) as [r|] eqn:Hr; cbn [fst users].
  - rewrite lookup_insert_eq.
    rewrite (StoreFacts.user_of_row_key db (mk_Database _ _ _))
      by reflexivity.
    unfold user_of_row. cbn [row_aspen_username row_aspen_password].
    destruct (_decrypt db (row_aspen_username r)); cbn [res_bind]; [|exact I].
    destruct (_decrypt db (row_aspen_password r)); cbn [res_bind]; [|exact I].
    auto.
  - rewrite Hr. exact I.
Qed.

(** When every send succeeds, the loop over the messages delivers all of
    them, in order. *)
Lemma send_all_ok (id : Z) (msgs : list str) :
  (forall m, m ∈ msgs -> send_message id m = Ok tt) ->
  Scheduler.send_all id msgs = ((fun m => (id, m)) <$> msgs, Ok tt).
Proof.
  induction msgs as [|m msgs IH]; intros Hsend; [reflexivity|].
  cbn [Scheduler.send_all]. rewrite (Hsend m) by apply list_elem_of_here.
  rewrite IH; [reflexivity|].
  intros m' Hin. by apply Hsend, list_elem_of_further.
Qed.

(** A firing that nothing stops: the account is found, the machine's clock
    reads a weekday, the zone is known, the scraper answers for the stored
    credentials and every send succeeds.  For a job as [run_daily] makes it
    the firing then ends as "sent" and has delivered the scraper's messages,
    all of them, in order, to the user of the job. *)
Lemma firing_proceeds (db : Database) (job : Job) (clk : Scheduler.fire_clock)
    (u : user) (tz : tzinfo) (msgs : list str) :
  let id := telegram_id (data job) in
  scheduled_time job = None ->
  get_user db id = Some u ->
  weekday (Scheduler.datetime_now_naive (Scheduler.sys_utcoffset clk)
             (Scheduler.now_1 clk)) < 5 ->
  pytz_timezone
    (match get_user_settings db id with
     | Some st => timezone st
     | None => lit "America/Chicago"
     end) = Ok tz ->
  fetch_formatted_grades (aspen_username u) (aspen_password u)
    (Scheduler.grade_title
       (strftime_title (Scheduler.datetime_now tz (Scheduler.now_2 clk))))
  = Ok msgs ->
  (forall m, m ∈ msgs -> send_message id m = Ok tt) ->
  Scheduler.fetch_and_notify_user db job clk
  = (Scheduler.SentUpdate, (fun m => (id, m)) <$> msgs).
Proof.
  cbv zeta. intros Hst Hu Hw Htz Hf Hsend.
  unfold Scheduler.fetch_and_notify_user. rewrite Hu, Hst.
  rewrite (proj2 (Z.leb_gt _ _) Hw).
  unfold gt. rewrite Z.ltb_irrefl. cbn [Z.ltb Z.compare].
  rewrite Htz, Hf, (send_all_ok _ _ Hsend). reflexivity.
Qed.

(** C9, as amended.  The firing gives up as "user not found" exactly when
    [get_user] finds no account, that is when the row is absent or when it
    is there and its ciphertext does not decrypt; for a row whose
    credentials decrypt that is never the case, whatever [is_active] holds.
    The flag is not consulted: on the store in which the account has just
    been deactivated [get_user] still returns the credentials, now with
    [is_active] false, and the firing ends the same way and delivers the
    same messages as on the store before.  So when the machine's clock
    reads a weekday, the zone is known, the scraper answers for the stored
    credentials and every send succeeds, the firing of a job as [run_daily]
    makes it fetches the grades of the deactivated account and sends every
    message of the scraper's answer to its user. *)
Theorem deactivated_account_still_served (db : Database) (job : Job)
    (clk : Scheduler.fire_clock) (utcnow : Z) :
  let id := telegram_id (data job) in
  let off := (deactivate_user db id utcnow).1 in
  ((Scheduler.fetch_and_notify_user db job clk).1 = Scheduler.UserNotFound
   <-> get_user db id = None)
  /\ (get_user db id = None
      <-> users db !! id = None
          \/ exists r e, users db !! id = Some r
                         /\ user_of_row db id r = Raise e)
  /\ (users db !! id = None ->
      Scheduler.fetch_and_notify_user db job clk
      = (Scheduler.UserNotFound, []))
  /\ (forall r u, users db !! id = Some r -> user_of_row db id r = Ok u ->
      (Scheduler.fetch_and_notify_user db job clk).1
      <> Scheduler.UserNotFound)
  /\ Scheduler.fetch_and_notify_user off job clk
     = Scheduler.fetch_and_notify_user db job clk
  /\ (forall u, get_user db id = Some u ->
      (exists u', get_user off id = Some u'
                  /\ is_active u' = false
                  /\ aspen_username u' = aspen_username u
                  /\ aspen_password u' = aspen_password u)
      /\ (Scheduler.fetch_and_notify_user off job clk).1
         <> Scheduler.UserNotFound
      /\ forall tz msgs,
           scheduled_time job = None ->
           weekday (Scheduler.datetime_now_naive (Scheduler.sys_utcoffset clk)
                      (Scheduler.now_1 clk)) < 5 ->
           pytz_timezone
             (match get_user_settings off id with
              | Some st => timezone st
              | None => lit "America/Chicago"
              end) = Ok tz ->
           fetch_formatted_grades (aspen_username u) (aspen_password u)
             (Scheduler.grade_title
                (strftime_title
                   (Scheduler.datetime_now tz (Scheduler.now_2 clk))))
           = Ok msgs ->
           (forall m, m ∈ msgs -> send_message id m = Ok tt) ->
           Scheduler.fetch_and_notify_user off job clk
           = (Scheduler.SentUpdate, (fun m => (id, m)) <$> msgs)).
Proof.
  cbv zeta.
  assert (Hiff :
    (Scheduler.fetch_and_notify_user db job clk).1 = Scheduler.UserNotFound
    <-> get_user db (telegram_id (data job)) = None).
  { unfold Scheduler.fetch_and_notify_user.
    destruct (get_user db (telegram_id (data job))); [|tauto].
    split; [|discriminate].
    repeat match goal with
    | |- context [if ?b then _ else _] => destruct b
    | |- context [match ?x with _ => _ end] => destruct x
    end; discriminate. }
  assert (Hs : get_user_settings
                 (deactivate_user db (telegram_id (data job)) utcnow).1
                 (telegram_id (data job))
               = get_user_settings db (telegram_id (data job))).
  { unfold deactivate_user, get_user_settings.
    destruct (users db !! telegram_id (data job)); reflexivity. }
  pose proof (get_user_deactivated db (telegram_id (data job)) utcnow) as Hd.
  assert (Hsame :
    Scheduler.fetch_and_notify_user
      (deactivate_user db (telegram_id (data job)) utcnow).1 job clk
    = Scheduler.fetch_and_notify_user db job clk).
  { unfold Scheduler.fetch_and_notify_user. rewrite Hs.
    destruct (get_user db (telegram_id (data job))) as [u|];
      destruct (get_user (deactivate_user db (telegram_id (data job)) utcnow).1
                  (telegram_id (data job))) as [u'|];
      try contradiction; [|reflexivity].
    destruct Hd as (-> & -> & _). reflexivity. }
  split; [exact Hiff|]. split; [|split; [|split; [|split; [exact Hsame|]]]].
  - unfold get_user, get_user_body.
    destruct (users db !! telegram_id (data job)) as [r|]; [|tauto].
    destruct (user_of_row db (telegram_id (data job)) r) as [u|e] eqn:Hrow;
      cbn [res_bind].
    + split; [discriminate|].
      intros [Hno|(r' & e & [= <-] & He)]; [discriminate|].
      rewrite Hrow in He. discriminate.
    + split; [|reflexivity]. intros _. right. by exists r, e.
  - intros Hno. unfold Scheduler.fetch_and_notify_user, get_user,
      get_user_body. rewrite Hno. reflexivity.
  - intros r u Hr Hu Hnf. apply Hiff in Hnf.
    unfold get_user, get_user_body in Hnf. rewrite Hr, Hu in Hnf.
    discriminate.
  - intros u Hu. rewrite Hsame, Hs. rewrite Hu in Hd.
    split; [|split].
    + destruct (get_user (deactivate_user db (telegram_id (data job)) utcnow).1
                  (telegram_id (data job))) as [u'|]; [|contradiction].
      destruct Hd as (Hun & Hpw & Hact). by exists u'.
    + intros Hnf. apply Hiff in Hnf. congruence.
    + intros tz msgs Hst Hw Htz Hf Hsend.
      by apply (firing_proceeds db job clk u tz msgs).
Qed.

End WithLibraries.
End FiringFacts.

(** ** The time handlers *)

Module HandlerFacts.
Import Py Re Database JobQueue TimeSpec TimeFacts StrFacts Handlers.
Local Open Scope Z_scope.

Section WithLibraries.
Context `{Fernet} `{Pytz}.

(** The guard of both handlers, on the stripped text. *)
Lemma guard_spec (text : str) :
  match_anchored time_pattern (strip text)
  = is_HHMM (strip text) || is_HMM (strip text).
Proof. rewrite match_anchored_strip. apply time_pattern_spec. Qed.

(** C7, as the code has it.  The text of the user, once stripped of
    surrounding whitespace, is accepted exactly when it has the form HH:MM
    or H:MM with an hour from 0 to 23 and a minute from 00 to 59.  A text
    that is not is answered with the format reminder, and the store and
    the queue are left as they were; a text that is accepted is stored as
    the user's notification time by both handlers. *)
Theorem time_input_accepted_iff (upd : update) (db : Database)
    (q : JobQueue) (t r : Z) :
  let time_input := strip (message_text upd) in
  let by_settings := set_notification_time upd db q t r in
  let by_setup := setup_notification_time_input upd db q in
  if is_HHMM time_input || is_HMM time_input then
    next_state by_settings = END /\ next_state by_setup = END
    /\ notification_time <$>
         get_user_settings (db_after by_settings) (effective_user_id upd)
       = Some time_input
    /\ notification_time <$>
         get_user_settings (db_after by_setup) (effective_user_id upd)
       = Some time_input
  else
    by_settings
    = {| next_state := SET_NOTIFICATION_TIME; db_after := db;
         queue_after := q;
         replies := [(effective_chat_id upd, InvalidTimeFormat)] |}
    /\ by_setup
       = {| next_state := SETUP_NOTIFICATION_TIME; db_after := db;
            queue_after := q;
            replies := [(effective_chat_id upd, InvalidTimeFormat)] |}.
Proof.
  cbv zeta. unfold set_notification_time, setup_notification_time_input.
  rewrite guard_spec.
  destruct (is_HHMM (strip (message_text upd))
            || is_HMM (strip (message_text upd))); cbn [negb].
  - unfold update_user_notification_time.
    cbn [next_state db_after]. rewrite !StoreFacts.get_user_settings_insert_eq.
    repeat split; reflexivity.
  - split; reflexivity.
Qed.

End WithLibraries.
End HandlerFacts.

(** ** One account followed through the code *)

Module ScenarioFacts.
Import Py Database JobQueue Sample Scenario StoreFacts TimeSpec TimeFacts.
Local Open Scope Z_scope.

Example first_plan_computed :
  plan_for (lit "15:00") Chicago friday_afternoon 7 = Ok first_plan.
Proof. vm_compute. reflexivity. Qed.

Example first_job_registered :
  reschedule (alice_at "15:00") empty_queue 42 (lit "15:00")
    friday_afternoon 7
  = {| jobs := [job_of 21 0 7 (utc 2024 3 1 21 0 7)]; next_id := 1 |}.
Proof. vm_compute. reflexivity. Qed.

(** C1, as the claim states it, fails.  Alice's job is registered for 15:00
    Chicago time, that is 21:00:07 UTC.  She then moves her zone to
    America/New_York, which only writes the settings.  The job fires on
    Friday at 21:00:07 UTC: it stays in the queue, due on Saturday at
    21:00:07 UTC again, while 15:00 in the zone now stored is 20:00 UTC,
    whatever the jitter. *)
Lemma stale_rule_after_zone_change :
  let q0 := reschedule (alice_at "15:00") empty_queue 42 (lit "15:00")
              friday_afternoon 7 in
  let job0 := job_of 21 0 7 (utc 2024 3 1 21 0 7) in
  let moved :=
    (update_user_timezone (alice_at "15:00") 42 (lit "America/New_York")).1 in
  let fired := fire moved q0 job0 (clock_at (utc 2024 3 1 21 0 7)) in
  jobs q0 = [job0]
  /\ get_user_settings moved 42
     = Some {| s_telegram_id := 42; timezone := lit "America/New_York";
               notification_frequency := lit "daily";
               notification_time := lit "15:00" |}
  /\ fired.2 = (Scheduler.SentUpdate, two_sent)
  /\ jobs fired.1 = [job_of 21 0 7 (utc 2024 3 2 21 0 7)]
  /\ forallb
       (fun r =>
          match plan_for (lit "15:00") New_York (utc 2024 3 1 21 0 7) r with
          | Ok p =>
              (instant (Scheduler.scheduled_utc p)
               =? utc 2024 3 2 20 0 0 + r * us_per_second)
              && negb (instant (Scheduler.scheduled_utc p)
                       =? utc 2024 3 2 21 0 7)
          | Raise _ => false
          end)
       (seqZ 0 31) = true.
Proof. vm_compute. repeat split. Qed.

Lemma firing_keeps_registered_rule_witness :
  instant (next_run_time
             (Nat.iter 3 after_run (job_of 21 0 7 (utc 2024 3 1 21 0 7))))
  = utc 2024 3 4 21 0 7.
Proof.
  destruct (@FiringFacts.firing_keeps_registered_rule toy_fernet year_2024
              always_two (lit "15:00") Chicago friday_afternoon 7 first_plan
              (job_of 21 0 7 (utc 2024 3 1 21 0 7)))
    with (db := alice_at "15:00") (db' := alice_db) (q := empty_queue)
         (clk := clock_at 0)
    as (_ & _ & Hn).
  - vm_compute. reflexivity.
  - reflexivity.
  - reflexivity.
  - destruct (Hn 3%nat) as (_ & _ & _ & Hi). rewrite Hi.
    unfold first_plan. cbn [Scheduler.scheduled_utc].
    rewrite DateFacts.instant_at_offset. reflexivity.
Defined.

(** C3, as the claim states it, fails.  Alice asked for 20:00 Chicago
    time.  On Sunday 3 March at 20:00:07 in Chicago the machine, on UTC,
    reads Monday 02:00:07: both messages are sent on her Sunday.  On
    Friday 1 March at 20:00:07 in Chicago the machine reads Saturday: her
    Friday update is skipped. *)
Lemma sunday_evening_is_served :
  let job := job_of 2 0 7 (utc 2024 3 4 2 0 7) in
  let sunday_evening := utc 2024 3 4 2 0 7 in
  let friday_evening := utc 2024 3 2 2 0 7 in
  get_user_settings (alice_at "20:00") 42
  = Some {| s_telegram_id := 42; timezone := lit "America/Chicago";
            notification_frequency := lit "daily";
            notification_time := lit "20:00" |}
  /\ weekday (@Scheduler.datetime_now year_2024 Chicago sunday_evening) = 6
  /\ notify (alice_at "20:00") job (clock_at sunday_evening)
     = (Scheduler.SentUpdate, two_sent)
  /\ weekday (@Scheduler.datetime_now year_2024 Chicago friday_evening) = 4
  /\ notify (alice_at "20:00") job (clock_at friday_evening)
     = (Scheduler.WeekendSkipped, []).
Proof. vm_compute. repeat split. Qed.

Lemma weekend_skip_by_process_clock_witness :
  (notify (alice_at "15:00") (job_of 21 0 7 (utc 2024 3 2 21 0 7))
     (clock_at (utc 2024 3 2 21 0 7))).2 = [].
Proof.
  destruct (@FiringFacts.weekend_skip_by_process_clock toy_fernet year_2024
              always_two (alice_at "15:00") empty_queue
              (job_of 21 0 7 (utc 2024 3 2 21 0 7))
              (clock_at (utc 2024 3 2 21 0 7))) as (Hsent & _).
  - vm_compute. discriminate.
  - exact Hsent.
Defined.

Lemma reschedule_twice_one_job_witness :
  let q1 := reschedule (alice_at "15:00") empty_queue 42 (lit "15:00")
              friday_afternoon 7 in
  let q2 := reschedule (alice_at "15:00") q1 42 (lit "15:00")
              (friday_afternoon + us_per_second) 19 in
  length (get_jobs_by_name q2 (Handlers.job_name 42)) = 1%nat.
Proof.
  destruct (@QueueFacts.reschedule_twice_one_job toy_fernet year_2024
              (alice_at "15:00") empty_queue 42 (lit "15:00")
              friday_afternoon 7 (friday_afternoon + us_per_second) 19
              alice Chicago)
    as (p1 & p2 & _ & _ & _ & _ & _ & Hone).
  - vm_compute. reflexivity.
  - vm_compute. reflexivity.
  - vm_compute. reflexivity.
  - lia.
  - lia.
  - exact Hone.
Defined.

(** A deactivated account whose job is still in the queue is served. *)
Example deactivated_alice_is_served :
  let off := (deactivate_user (alice_at "15:00") 42 (utc 2024 3 1 12 0 0)).1 in
  (is_active <$> get_user off 42) = Some false
  /\ get_all_active_users off = []
  /\ notify off (job_of 21 0 7 (utc 2024 3 1 21 0 7))
       (clock_at (utc 2024 3 1 21 0 7))
     = (Scheduler.SentUpdate, two_sent).
Proof. vm_compute. repeat split. Qed.

Lemma deactivated_account_still_served_witness :
  let off := (deactivate_user (alice_at "15:00") 42 (utc 2024 3 1 12 0 0)).1 in
  notify off (job_of 21 0 7 (utc 2024 3 1 21 0 7))
    (clock_at (utc 2024 3 1 21 0 7))
  = (Scheduler.SentUpdate, two_sent).
Proof.
  pose proof (@FiringFacts.deactivated_account_still_served toy_fernet
                year_2024 always_two (alice_at "15:00")
                (job_of 21 0 7 (utc 2024 3 1 21 0 7))
                (clock_at (utc 2024 3 1 21 0 7)) (utc 2024 3 1 12 0 0))
    as Hclaim.
  cbv zeta in Hclaim. destruct Hclaim as (_ & _ & _ & _ & _ & Hserved).
  destruct (Hserved alice) as (_ & _ & Hsent).
  - vm_compute. reflexivity.
  - apply (Hsent Chicago two_messages).
    + reflexivity.
    + vm_compute. reflexivity.
    + vm_compute. reflexivity.
    + reflexivity.
    + intros m _. reflexivity.
Defined.

(** C7, as the claim states it, fails: "9:05" is not of the form HH:MM,
    and neither is " 15:00 " with its blanks, yet both are accepted,
    stored and scheduled; "24:00" is refused and changes nothing. *)
Lemma one_digit_hour_is_accepted :
  is_HHMM (lit "9:05") = false
  /\ Handlers.next_state (handle "9:05") = Handlers.END
  /\ (notification_time <$>
        get_user_settings (Handlers.db_after (handle "9:05")) 42)
     = Some (lit "9:05")
  /\ jobs (Handlers.queue_after (handle "9:05"))
     = [job_of 15 5 7 (utc 2024 3 2 15 5 7)]
  /\ is_HHMM (lit " 15:00 ") = false
  /\ Handlers.next_state (handle " 15:00 ") = Handlers.END
  /\ handle "24:00"
     = {| Handlers.next_state := Handlers.SET_NOTIFICATION_TIME;
          Handlers.db_after := alice_at "15:00";
          Handlers.queue_after := empty_queue;
          Handlers.replies := [(42, Handlers.InvalidTimeFormat)] |}.
Proof. vm_compute. repeat split. Qed.

(** C9, as the claim states it, fails.  The store holds a row for id 7
    whose ciphertext is damaged.  On Friday 1 March 2024 a job for that id
    fires: the row is there, yet the firing gives up as "user not found"
    and nothing is sent. *)
Lemma damaged_row_aborts_firing :
  let job :=
    mk_Job 0 (Handlers.job_name 7) {| t_hour := 21; t_minute := 0;
                                        t_second := 7 |}
      {| telegram_id := 7; aspen_username := lit "bob";
         aspen_password := lit "hunter2";
         notification_method := lit "telegram"; is_active := true;
         created_at := 0; last_updated := 0 |}
      (at_offset (utc 2024 3 1 21 0 7) 0 (Some 0)) None in
  users damaged_db !! 7 = Some damaged_row
  /\ row_is_active damaged_row = 1
  /\ weekday (Scheduler.datetime_now_naive
                (Scheduler.sys_utcoffset (clock_at (utc 2024 3 1 21 0 7)))
                (Scheduler.now_1 (clock_at (utc 2024 3 1 21 0 7)))) = 4
  /\ notify damaged_db job (clock_at (utc 2024 3 1 21 0 7))
     = (Scheduler.UserNotFound, []).
Proof. vm_compute. repeat split. Qed.

Lemma time_input_accepted_iff_witness :
  Handlers.next_state
    (@Handlers.set_notification_time toy_fernet year_2024
       (text_from_alice "08:30") (alice_at "15:00") empty_queue
       friday_afternoon 7) = Handlers.END.
Proof.
  pose proof (@HandlerFacts.time_input_accepted_iff toy_fernet year_2024
                (text_from_alice "08:30") (alice_at "15:00") empty_queue
                friday_afternoon 7) as Hacc.
  cbv zeta in Hacc.
  change (is_HHMM (strip (Handlers.message_text (text_from_alice "08:30")))
          || is_HMM (strip (Handlers.message_text (text_from_alice "08:30"))))
    with true in Hacc.
  exact (proj1 Hacc).
Defined.

Lemma settings_update_keeps_other_field_witness :
  (timezone <$>
     get_user_settings
       (update_user_notification_time (alice_at "15:00") 42 (lit "08:30")).1
       42) = Some (lit "America/Chicago").
Proof.
  rewrite (proj1 (@settings_update_keeps_other_field toy_fernet
                    (alice_at "15:00") 42 (lit "08:30") (lit "UTC"))).
  reflexivity.
Defined.

End ScenarioFacts.

(* ===================================================================== *)
(** * Part IV. Further properties of the code                             *)
(* ===================================================================== *)

(** ** The store: listing, counting, deactivating, deleting *)

Module StoreMore.
Import Py Database Utf8Facts StoreFacts.
Local Open Scope Z_scope.

Section WithFernet.
Context `{Fernet}.

Lemma user_of_row_inv (self : Database) (id : Z) (r : user_row) (u : user) :
  user_of_row self id r = Ok u ->
  _decrypt self (row_aspen_username r) = Ok (aspen_username u)
  /\ _decrypt self (row_aspen_password r) = Ok (aspen_password u)
  /\ telegram_id u = id
  /\ notification_method u = row_notification_method r
  /\ is_active u = negb (row_is_active r =? 0)
  /\ created_at u = row_created_at r
  /\ last_updated u = row_last_updated r.
Proof.
  unfold user_of_row.
  destruct (_decrypt self (row_aspen_username r)); [|discriminate].
  destruct (_decrypt self (row_aspen_password r)); [|discriminate].
  cbn [res_bind]. intros Heq. injection Heq as <-. auto 10.
Qed.

Lemma get_user_Some (self : Database) (id : Z) (u : user) :
  get_user self id = Some u <->
  exists r, users self !! id = Some r /\ user_of_row self id r = Ok u.
Proof.
  unfold get_user, get_user_body. destruct (users self !! id) as [r|].
  - destruct (user_of_row self id r) as [u'|] eqn:Hr; cbn [res_bind].
    + split; [intros [= <-]; eauto|]. intros (r' & [= <-] & Hu).
      congruence.
    + split; [discriminate|]. intros (r' & [= <-] & Hu). congruence.
  - split; [discriminate|]. intros (r' & Hr & _). discriminate.
Qed.

Lemma users_of_rows_Forall2 (self : Database) (rows : list (Z * user_row))
    (us : list user) :
  users_of_rows self rows = Ok us ->
  Forall2 (fun ir u => user_of_row self ir.1 ir.2 = Ok u) rows us.
Proof.
  revert us. induction rows as [|[id r] rows IH]; intros us; cbn [users_of_rows].
  - intros [= <-]. constructor.
  - destruct (user_of_row self id r) as [u|] eqn:Hu; [|discriminate].
    destruct (users_of_rows self rows) as [us'|]; [|discriminate].
    cbn [res_bind]. intros [= <-]. constructor; [exact Hu|by apply IH].
Qed.

Lemma users_of_rows_total (self : Database) (rows : list (Z * user_row)) :
  Forall (fun ir => exists u, user_of_row self ir.1 ir.2 = Ok u) rows ->
  exists us, users_of_rows self rows = Ok us.
Proof.
  induction 1 as [|[id r] rows [u Hu] _ [us IH]]; cbn [users_of_rows].
  - by eexists.
  - cbn [fst snd] in Hu. rewrite Hu, IH. by eexists.
Qed.

Lemma elem_select_active (self : Database) (id : Z) (r : user_row) :
  (id, r) ∈ select_active self <->
  users self !! id = Some r /\ row_is_active r = 1.
Proof.
  unfold select_active. rewrite list_elem_of_filter, elem_of_map_to_list.
  cbn [snd]. tauto.
Qed.

Lemma NoDup_select_active (self : Database) :
  NoDup ((select_active self).*1).
Proof.
  apply (sublist_NoDup _ ((map_to_list (users self)).*1)).
  - apply NoDup_fst_map_to_list.
  - unfold select_active. apply fmap_sublist, sublist_filter.
Qed.

Lemma Forall2_ids (self : Database) (rows : list (Z * user_row))
    (us : list user) :
  Forall2 (fun ir u => user_of_row self ir.1 ir.2 = Ok u) rows us ->
  telegram_id <$> us = rows.*1.
Proof.
  induction 1 as [|[id r] u rows us Hu _ IH]; [reflexivity|].
  cbn [fmap list_fmap fst snd] in *. f_equal; [|exact IH].
  by apply user_of_row_inv in Hu as (_ & _ & -> & _).
Qed.

(** The answer of [get_all_active_users], when it is not the empty list of
    the [except] branch, is the loop's result over the selected rows. *)
Lemma active_users_rows (self : Database) :
  Forall2 (fun ir u => user_of_row self ir.1 ir.2 = Ok u)
    (select_active self) (get_all_active_users self)
  \/ get_all_active_users self = [].
Proof.
  unfold get_all_active_users.
  destruct (users_of_rows self (select_active self)) as [us|] eqn:Hus;
    [left; by apply users_of_rows_Forall2|by right].
Qed.

Lemma active_users_are_rows (self : Database) :
  NoDup (telegram_id <$> get_all_active_users self)
  /\ (forall u, u ∈ get_all_active_users self ->
        is_active u = true
        /\ get_user self (telegram_id u) = Some u
        /\ exists r, users self !! telegram_id u = Some r
                     /\ row_is_active r = 1)
  /\ Z.of_nat (length (get_all_active_users self)) <= get_user_count self.
Proof.
  unfold get_user_count.
  destruct (active_users_rows self) as [Hrows| ->].
  - split; [|split].
    + rewrite (Forall2_ids _ _ _ Hrows). apply NoDup_select_active.
    + intros u Hu.
      destruct (proj1 (list_elem_of_lookup _ _) Hu) as [i Hi].
      destruct (Forall2_lookup_r _ _ _ _ _ Hrows Hi) as ([id r] & Hir & Hok).
      cbn [fst snd] in Hok.
      apply list_elem_of_lookup_2, elem_select_active in Hir as [Hr Hact].
      pose proof (user_of_row_inv _ _ _ _ Hok) as (_ & _ & Hid & _ & Ha & _).
      subst id. split; [by rewrite Ha, Hact|].
      split; [apply get_user_Some; eauto|eauto].
    + rewrite (Forall2_length _ _ _ Hrows). lia.
  - split; [constructor|]. split; [intros u Hu; by apply elem_of_nil in Hu|].
    cbn [length]. lia.
Qed.

(** X1.  Whatever the store holds, the users [get_all_active_users]
    returns are stored accounts that are active; each is the very dict
    [get_user] returns for its id; no id comes twice; and there are at most
    as many as [get_user_count] counts. *)
Theorem active_users_sound (self : Database) :
  NoDup (telegram_id <$> get_all_active_users self)
  /\ (forall u, u ∈ get_all_active_users self ->
        is_active u = true
        /\ get_user self (telegram_id u) = Some u
        /\ exists r, users self !! telegram_id u = Some r
                     /\ row_is_active r = 1)
  /\ Z.of_nat (length (get_all_active_users self)) <= get_user_count self.
Proof. exact (active_users_are_rows self). Qed.

(** X2.  When every active row decrypts, [get_all_active_users] returns
    exactly the active accounts: a user is listed if and only if its row is
    stored with [is_active = 1] and it is what [get_user] returns; and the
    length of the list is [get_user_count]. *)
Theorem active_users_complete (self : Database) :
  (forall id r, users self !! id = Some r -> row_is_active r = 1 ->
     exists u, user_of_row self id r = Ok u) ->
  (forall u, u ∈ get_all_active_users self <->
     exists r, users self !! telegram_id u = Some r /\ row_is_active r = 1
               /\ get_user self (telegram_id u) = Some u)
  /\ Z.of_nat (length (get_all_active_users self)) = get_user_count self.
Proof.
  intros Hall.
  destruct (users_of_rows_total self (select_active self)) as [us Hus].
  { apply Forall_forall. intros [id r] Hir.
    apply elem_select_active in Hir as [Hr Ha]. by apply (Hall id r). }
  pose proof (users_of_rows_Forall2 _ _ _ Hus) as Hrows.
  unfold get_user_count, get_all_active_users. rewrite Hus. split.
  - intros u. split.
    + intros Hu. destruct (proj1 (list_elem_of_lookup _ _) Hu) as [i Hi].
      destruct (Forall2_lookup_r _ _ _ _ _ Hrows Hi) as ([id r] & Hir & Hok).
      cbn [fst snd] in Hok.
      apply list_elem_of_lookup_2, elem_select_active in Hir as [Hr Hact].
      pose proof (user_of_row_inv _ _ _ _ Hok) as (_ & _ & Hid & _).
      subst id. exists r. repeat split; try assumption.
      apply get_user_Some. eauto.
    + intros (r & Hr & Hact & Hg).
      apply get_user_Some in Hg as (r' & Hr' & Hok).
      assert (r' = r) as -> by congruence.
      assert (Hin : (telegram_id u, r) ∈ select_active self)
        by (by apply elem_select_active).
      destruct (proj1 (list_elem_of_lookup _ _) Hin) as [i Hi].
      destruct (Forall2_lookup_l _ _ _ _ _ Hrows Hi) as (u' & Hu' & Hok').
      cbn [fst snd] in Hok'. assert (u' = u) as -> by congruence.
      by eapply list_elem_of_lookup_2.
  - by rewrite (Forall2_length _ _ _ Hrows).
Qed.

(** What [get_user] finds right after [add_user]. *)
Lemma get_user_add_user (self : Database) (id : Z)
    (username password method : str) (utcnow : Z) (e1 e2 : N) :
  Forall (fun c => is_scalar c = true) username ->
  Forall (fun c => is_scalar c = true) password ->
  exists u,
    get_user (add_user self id username password method utcnow e1 e2).1 id
    = Some u
    /\ aspen_username u = username /\ aspen_password u = password.
Proof.
  intros Hu Hp.
  destruct (decrypt_encrypt self e1 username Hu) as (tu & Heu & Hdu).
  destruct (decrypt_encrypt self e2 password Hp) as (tp & Hep & Hdp).
  unfold add_user, add_user_body. rewrite Heu, Hep. cbn [res_bind].
  destruct (users self !! id) as [existing|]; cbn [fst];
    eexists; unfold get_user, get_user_body; cbn [users];
    rewrite lookup_insert_eq;
    (rewrite (user_of_row_key self (mk_Database _ _ _)) by reflexivity);
    (erewrite user_of_row_ok by eassumption);
    cbn [res_bind]; repeat split; reflexivity.
Qed.

(** How many selected rows a store has once the row of one id is replaced. *)
Lemma count_after_insert (self : Database) (k : fernet_key)
    (ss : gmap Z settings_row) (id : Z) (x : user_row) :
  let was :=
    match users self !! id with
    | Some y => if decide (row_is_active y = 1) then 1%nat else 0%nat
    | None => 0%nat
    end in
  let is_now := if decide (row_is_active x = 1) then 1%nat else 0%nat in
  (length (select_active
             {| encryption_key := k; users := <[id := x]> (users self);
                user_settings := ss |}) + was
   = length (select_active self) + is_now)%nat.
Proof.
  cbv zeta. unfold select_active. cbn [users].
  rewrite <- (insert_delete_eq (users self)).
  rewrite (map_to_list_insert (delete id (users self)))
    by apply lookup_delete_eq.
  rewrite filter_cons. cbn [snd].
  destruct (users self !! id) as [y|] eqn:Hy.
  - rewrite <- (map_to_list_delete (users self) id y Hy).
    rewrite filter_cons. cbn [snd].
    destruct (decide (row_is_active x = 1)), (decide (row_is_active y = 1));
      cbn [length]; lia.
  - rewrite (delete_id _ _ Hy).
    destruct (decide (row_is_active x = 1)); cbn [length]; lia.
Qed.

(** X3.  [add_user] with credentials that encode raises the count of
    active accounts by one for a new id and leaves it as it is for an id
    that has a row: an upsert never makes a second row. *)
Theorem add_user_count (self : Database) (id : Z)
    (username password method : str) (utcnow : Z) (e1 e2 : N) :
  Forall (fun c => is_scalar c = true) username ->
  Forall (fun c => is_scalar c = true) password ->
  get_user_count (add_user self id username password method utcnow e1 e2).1
  = match users self !! id with
    | Some _ => get_user_count self
    | None => get_user_count self + 1
    end.
Proof.
  intros Hu Hp.
  destruct (decrypt_encrypt self e1 username Hu) as (tu & Heu & _).
  destruct (decrypt_encrypt self e2 password Hp) as (tp & Hep & _).
  unfold add_user, add_user_body, get_user_count.
  rewrite Heu, Hep. cbn [res_bind].
  destruct (users self !! id) as [existing|] eqn:Hex; cbn [fst];
    match goal with
    | |- context [select_active (mk_Database ?k (<[id := ?x]> _) ?ss)] =>
        pose proof (count_after_insert self k ss id x) as Hc
    end;
    cbv zeta in Hc; rewrite Hex in Hc; cbn [row_is_active] in Hc.
  - destruct (decide (row_is_active existing = 1)); lia.
  - destruct (decide (1 = 1)); [lia|congruence].
Qed.

(** X4.  [deactivate_user] answers true exactly when the id has a row.
    Afterwards the id is not among the active users, the settings and
    every other row are untouched, and the count of active accounts is one
    less if the account was active. *)
Theorem deactivate_user_effect (self : Database) (id : Z) (utcnow : Z) :
  let after := (deactivate_user self id utcnow).1 in
  ((deactivate_user self id utcnow).2 = true <-> is_Some (users self !! id))
  /\ (forall u, u ∈ get_all_active_users after -> telegram_id u <> id)
  /\ (forall id', id' <> id -> users after !! id' = users self !! id')
  /\ user_settings after = user_settings self
  /\ get_user_count after
     = match users self !! id with
       | Some r => if decide (row_is_active r = 1) then get_user_count self - 1
                   else get_user_count self
       | None => get_user_count self
       end.
Proof.
  cbv zeta.
  assert (Hlist : forall u,
    u ∈ get_all_active_users (deactivate_user self id utcnow).1 ->
    telegram_id u <> id).
  { intros u Hu Heq.
    destruct (active_users_are_rows (deactivate_user self id utcnow).1)
      as (_ & Hs & _).
    destruct (Hs u Hu) as (_ & _ & r & Hr & Hact). rewrite Heq in Hr.
    clear Hs Hu. unfold deactivate_user in Hr.
    destruct (users self !! id) as [r0|] eqn:Hr0; cbn [fst users] in Hr.
    - rewrite lookup_insert_eq in Hr. injection Hr as <-.
      cbn [row_is_active] in Hact. discriminate.
    - rewrite Hr0 in Hr. discriminate. }
  unfold deactivate_user in *.
  destruct (users self !! id) as [r|] eqn:Hr; cbn [fst snd users user_settings].
  - split; [split; eauto|]. split; [exact Hlist|].
    split; [intros id' Hne; by rewrite lookup_insert_ne|].
    split; [reflexivity|]. unfold get_user_count.
    match goal with
    | |- context [select_active (mk_Database ?k (<[id := ?x]> _) ?ss)] =>
        pose proof (count_after_insert self k ss id x) as Hc
    end.
    cbv zeta in Hc. rewrite Hr in Hc. cbn [row_is_active] in Hc.
    destruct (decide (0 = 1)); [discriminate|].
    destruct (decide (row_is_active r = 1)); lia.
  - split; [split; [discriminate|by intros [? ?]]|].
    split; [exact Hlist|]. repeat split; reflexivity.
Qed.

(** X5.  [delete_user] removes the account and the settings of the id
    together: afterwards [get_user] and [get_user_settings] find nothing
    for it.  It answers true exactly when one of the two rows existed, and
    no other id loses or changes a row. *)
Theorem delete_user_effect (self : Database) (id : Z) :
  let after := (delete_user self id).1 in
  get_user after id = None
  /\ get_user_settings after id = None
  /\ ((delete_user self id).2 = true <->
      is_Some (users self !! id) \/ is_Some (user_settings self !! id))
  /\ (forall id', id' <> id ->
        users after !! id' = users self !! id'
        /\ get_user after id' = get_user self id'
        /\ get_user_settings after id' = get_user_settings self id').
Proof.
  cbv zeta. unfold delete_user, get_user, get_user_body, get_user_settings.
  cbn [fst snd users user_settings]. rewrite !lookup_delete_eq.
  split; [reflexivity|]. split; [reflexivity|]. split.
  - destruct (users self !! id), (user_settings self !! id); cbn;
      split; intros Hx; try reflexivity; try discriminate; eauto;
      destruct Hx as [[? ?]|[? ?]]; discriminate.
  - intros id' Hne. rewrite !lookup_delete_ne by done.
    split; [reflexivity|]. split; [|reflexivity].
    destruct (users self !! id') as [r|]; [|reflexivity].
    by rewrite (user_of_row_key self (mk_Database _ _ _)).
Qed.

(** X6.  [update_user_notification_method] answers true exactly when the
    id has a row; it then changes the method and [last_updated] only: the
    stored ciphertext, the active flag and the creation time stay, and so
    do the settings and every other row. *)
Theorem update_method_effect (self : Database) (id : Z) (method : str)
    (utcnow : Z) :
  let after := (update_user_notification_method self id method utcnow).1 in
  ((update_user_notification_method self id method utcnow).2 = true
   <-> is_Some (users self !! id))
  /\ users after !! id
     = (fun r =>
          {| row_aspen_username := row_aspen_username r;
             row_aspen_password := row_aspen_password r;
             row_notification_method := method;
             row_email := row_email r;
             row_is_active := row_is_active r;
             row_created_at := row_created_at r;
             row_last_updated := utcnow |}) <$> users self !! id
  /\ (forall u, get_user self id = Some u ->
        get_user after id
        = Some {| telegram_id := id; aspen_username := aspen_username u;
                  aspen_password := aspen_password u;
                  notification_method := method; is_active := is_active u;
                  created_at := created_at u; last_updated := utcnow |})
  /\ (forall id', id' <> id -> users after !! id' = users self !! id')
  /\ user_settings after = user_settings self.
Proof.
  cbv zeta. unfold update_user_notification_method.
  destruct (users self !! id) as [r|] eqn:Hr; cbn [fst snd users user_settings].
  - split; [split; eauto|]. rewrite lookup_insert_eq.
    split; [reflexivity|]. split; [|split; [|reflexivity]].
    + intros u Hu. apply get_user_Some in Hu as (r' & Hr' & Hok).
      assert (r' = r) as -> by congruence.
      apply user_of_row_inv in Hok as (Hdu & Hdp & Hid & _ & Ha & Hc & _).
      apply get_user_Some. eexists. cbn [users]. rewrite lookup_insert_eq.
      split; [reflexivity|].
      rewrite (user_of_row_key self (mk_Database _ _ _)) by reflexivity.
      unfold user_of_row. cbn [row_aspen_username row_aspen_password].
      rewrite Hdu. cbn [res_bind]. rewrite Hdp. cbn [res_bind].
      cbn [row_notification_method row_is_active row_created_at
           row_last_updated]. by rewrite Ha, Hc.
    + intros id' Hne. by rewrite lookup_insert_ne.
  - split; [split; [discriminate|by intros [? ?]]|].
    rewrite Hr. split; [reflexivity|]. split; [|auto].
    intros u Hu. apply get_user_Some in Hu as (r' & Hr' & _). congruence.
Qed.

(** X7.  [add_user] on an id that already has a row replaces the
    credentials and the method and sets [last_updated]; the active flag,
    the creation time and the e-mail column stay as they were (an account
    that was deactivated stays deactivated), and the settings and every
    other row are untouched. *)
Theorem add_user_keeps_flags (self : Database) (id : Z)
    (username password method : str) (utcnow : Z) (e1 e2 : N) (r : user_row) :
  users self !! id = Some r ->
  Forall (fun c => is_scalar c = true) username ->
  Forall (fun c => is_scalar c = true) password ->
  let after := (add_user self id username password method utcnow e1 e2).1 in
  (exists r', users after !! id = Some r'
     /\ row_is_active r' = row_is_active r
     /\ row_created_at r' = row_created_at r
     /\ row_email r' = row_email r
     /\ row_notification_method r' = method
     /\ row_last_updated r' = utcnow)
  /\ (is_active <$> get_user after id) = Some (negb (row_is_active r =? 0))
  /\ (forall id', id' <> id -> users after !! id' = users self !! id')
  /\ user_settings after = user_settings self.
Proof.
  intros Hr Hu Hp.
  destruct (decrypt_encrypt self e1 username Hu) as (tu & Heu & Hdu).
  destruct (decrypt_encrypt self e2 password Hp) as (tp & Hep & Hdp).
  cbv zeta. unfold add_user, add_user_body.
  rewrite Heu, Hep. cbn [res_bind]. rewrite Hr. cbn [fst users user_settings].
  split; [|split; [|split; [|reflexivity]]].
  - eexists. rewrite lookup_insert_eq. split; [reflexivity|]. auto.
  - unfold get_user, get_user_body. cbn [users]. rewrite lookup_insert_eq.
    rewrite (user_of_row_key self (mk_Database _ _ _)) by reflexivity.
    erewrite user_of_row_ok by eassumption. reflexivity.
  - intros id' Hne. by rewrite lookup_insert_ne.
Qed.

(** A surrogate code point stops the encoder. *)
Lemma encode_surrogate (s : str) (c : char) :
  c ∈ s -> is_surrogate c = true -> exists e, encode s = Raise e.
Proof.
  intros Hin Hc. induction s as [|a s IH]; [by apply elem_of_nil in Hin|].
  cbn [encode]. apply elem_of_cons in Hin as [<-|Hin].
  - assert (encode_char c = Raise UnicodeEncodeError) as ->; [|by eexists].
    unfold encode_char. unfold is_surrogate in *.
    apply andb_true_iff in Hc as [Hlo Hhi].
    apply N.leb_le in Hlo, Hhi. settle_N. reflexivity.
  - destruct (encode_char a); [|by eexists].
    destruct (IH Hin) as [e ->]. by eexists.
Qed.

(** X8.  When the username or the password holds a surrogate code point
    (which UTF-8 cannot carry), [add_user] answers false and the store is
    left exactly as it was. *)
Theorem add_user_unencodable (self : Database) (id : Z)
    (username password method : str) (utcnow : Z) (e1 e2 : N) (c : char) :
  c ∈ username ++ password ->
  is_surrogate c = true ->
  add_user self id username password method utcnow e1 e2 = (self, false).
Proof.
  intros Hin Hc. unfold add_user, add_user_body.
  apply elem_of_app in Hin as [Hin|Hin].
  - unfold _encrypt at 1.
    destruct (encode_surrogate username c Hin Hc) as [e ->]. reflexivity.
  - destruct (_encrypt self e1 username); [|reflexivity]. cbn [res_bind].
    unfold _encrypt.
    destruct (encode_surrogate password c Hin Hc) as [e ->]. reflexivity.
Qed.

(** X9.  The two settings updates commute: setting the time and then the
    zone leaves the same store as setting the zone and then the time, with
    the row holding the new zone, "daily" and the new time. *)
Theorem settings_updates_commute (self : Database) (id : Z)
    (new_time new_zone : str) :
  (update_user_timezone
     (update_user_notification_time self id new_time).1 id new_zone).1
  = (update_user_notification_time
       (update_user_timezone self id new_zone).1 id new_time).1
  /\ get_user_settings
       (update_user_timezone
          (update_user_notification_time self id new_time).1 id new_zone).1 id
     = Some {| s_telegram_id := id; timezone := new_zone;
               notification_frequency := lit "daily";
               notification_time := new_time |}.
Proof.
  unfold update_user_timezone, update_user_notification_time.
  cbn [fst users user_settings encryption_key].
  rewrite !get_user_settings_insert_eq.
  cbn [timezone notification_time row_timezone row_notification_time].
  rewrite !insert_insert_eq. split; reflexivity.
Qed.

End WithFernet.
End StoreMore.

(** ** Start-up scheduling and the dispatcher *)

Module SchedulerMore.
Import Py Database JobQueue StoreFacts StoreMore QueueFacts DateFacts.
Local Open Scope Z_scope.

Section WithLibraries.
Context `{Fernet} `{Pytz} `{Collaborators}.

(** The job [schedule_user] registers for a user and a plan. *)
Abbreviation job_for k u p :=
  {| job_id := k; name := Scheduler.job_name (telegram_id u);
     time := Scheduler.job_time_utc p; data := u;
     next_run_time := Scheduler.scheduled_utc p; scheduled_time := None |}.

Lemma schedule_user_plan (db : Database) (q : JobQueue) (u : user) (t r : Z) :
  Scheduler.schedule_user db q u t r
  = match Scheduler.user_plan db u t r with
    | Ok p =>
        run_daily q (Scheduler.job_time_utc p)
          (Scheduler.job_name (telegram_id u)) u (Scheduler.scheduled_utc p)
    | Raise _ => q
    end.
Proof. reflexivity. Qed.

(** The loop of [setup_scheduler]: the jobs it adds stand, in order, for
    the users whose plan could be computed, under fresh consecutive ids. *)
Lemma schedule_loop (db : Database) (clock draw : Z -> Z) (us : list user)
    (q0 : JobQueue) :
  let qf :=
    fold_left
      (fun q user =>
         Scheduler.schedule_user db q user (clock (telegram_id user))
           (draw (telegram_id user))) us q0 in
  exists added,
    jobs qf = jobs q0 ++ added
    /\ next_id qf = (next_id q0 + length added)%nat
    /\ job_id <$> added = seq (next_id q0) (length added)
    /\ Forall2
         (fun j u =>
            exists p,
              Scheduler.user_plan db u (clock (telegram_id u))
                (draw (telegram_id u)) = Ok p
              /\ j = job_for (job_id j) u p)
         added
         (filter (fun u => Scheduler.plannable db clock draw u = true) us).
Proof.
  cbv zeta. revert q0. induction us as [|u us IH]; intros q0.
  - exists []. cbn [fold_left]. rewrite app_nil_r, Nat.add_0_r.
    repeat split. constructor.
  - cbn [fold_left]. rewrite schedule_user_plan, filter_cons.
    destruct (decide (Scheduler.plannable db clock draw u = true)) as [Hy|Hn];
      unfold Scheduler.plannable in Hy || unfold Scheduler.plannable in Hn;
      destruct (Scheduler.user_plan db u (clock (telegram_id u))
                  (draw (telegram_id u))) as [p|e] eqn:Hp;
      try discriminate; try congruence.
    + destruct (IH (run_daily q0 (Scheduler.job_time_utc p)
                      (Scheduler.job_name (telegram_id u)) u
                      (Scheduler.scheduled_utc p)))
        as (added & Hj & Hn & Hids & Hrel).
      cbn [run_daily jobs next_id] in Hj, Hn, Hids.
      exists (job_for (next_id q0) u p :: added).
      rewrite Hj, Hn, <- app_assoc. cbn [app length fmap list_fmap seq].
      split; [reflexivity|]. split; [lia|]. split; [by f_equal|].
      constructor; [|exact Hrel]. exists p. by split.
    + destruct (IH q0) as (added & Hj & Hn' & Hids & Hrel).
      exists added. auto.
Qed.

Lemma same_key_same_elem {A B} (f : A -> B) (l : list A) (x y : A) :
  NoDup (f <$> l) -> x ∈ l -> y ∈ l -> f x = f y -> x = y.
Proof.
  induction l as [|a l IH]; cbn [fmap list_fmap]; intros Hnd Hx Hy Hf;
    [by apply elem_of_nil in Hx|].
  apply NoDup_cons in Hnd as [Ha Hnd].
  apply elem_of_cons in Hx as [->|Hx]; apply elem_of_cons in Hy as [->|Hy].
  - reflexivity.
  - exfalso. apply Ha. rewrite Hf. apply list_elem_of_fmap. by exists y.
  - exfalso. apply Ha. rewrite <- Hf. apply list_elem_of_fmap. by exists x.
  - by apply IH.
Qed.

Lemma count_key_NoDup {A} (f : A -> Z) (l : list A) (k : Z) :
  NoDup (f <$> l) ->
  length (filter (fun v => f v = k) l)
  = if decide (k ∈ f <$> l) then 1%nat else 0%nat.
Proof.
  induction l as [|a l IH]; cbn [fmap list_fmap]; intros Hnd.
  - destruct (decide (k ∈ [])) as [Hin|_]; [by apply elem_of_nil in Hin|done].
  - apply NoDup_cons in Hnd as [Ha Hnd]. rewrite filter_cons.
    destruct (decide (f a = k)) as [<-|Hne]; cbn [length]; rewrite (IH Hnd).
    + destruct (decide (f a ∈ f <$> l)) as [Hin|_]; [contradiction|].
      destruct (decide (f a ∈ f a :: (f <$> l))) as [_|Hnin]; [done|].
      exfalso. apply Hnin. left.
    + destruct (decide (k ∈ f <$> l)) as [Hin|Hnin];
        destruct (decide (k ∈ f a :: (f <$> l))) as [Hin'|Hnin']; try done.
      * exfalso. apply Hnin'. by right.
      * apply elem_of_cons in Hin' as [->|Hin']; [congruence|contradiction].
Qed.

(** As many jobs carry the name of an id as planned users carry the id. *)
Lemma count_jobs_by_user (db : Database) (clock draw : Z -> Z)
    (added : list Job) (planned : list user) (id : Z) :
  Forall2
    (fun j u =>
       exists p,
         Scheduler.user_plan db u (clock (telegram_id u))
           (draw (telegram_id u)) = Ok p
         /\ j = job_for (job_id j) u p) added planned ->
  length (filter (fun j => name j = Scheduler.job_name id) added)
  = length (filter (fun v => telegram_id v = id) planned).
Proof.
  induction 1 as [|j u added planned (p & _ & Hj) _ IH]; [reflexivity|].
  rewrite !filter_cons.
  destruct (decide (telegram_id u = id)) as [Hid|Hid];
    destruct (decide (name j = Scheduler.job_name id)) as [Hn|Hn];
    cbn [length]; try (by rewrite IH).
  - exfalso. apply Hn. rewrite Hj. cbn [name]. by rewrite Hid.
  - exfalso. apply Hid. rewrite Hj in Hn. cbn [name] in Hn.
    by apply job_name_inj.
Qed.

(** X10.  With a known global zone, [setup_scheduler] ends without error
    and leaves a queue that holds new jobs only: each job stands for an
    active user, carries that user's dict, name and plan, and the ids are
    distinct.  Under the name of each active user there is exactly one job
    when the user's settings (or their defaults) give a plan, and none when
    they raise; one user's bad settings do not cost another user's job. *)
Theorem setup_scheduler_one_job_per_user (TIMEZONE : str) (db : Database)
    (q : JobQueue) (clock draw : Z -> Z) (tz0 : tzinfo) :
  pytz_timezone TIMEZONE = Ok tz0 ->
  let result := Scheduler.setup_scheduler TIMEZONE db q clock draw in
  result.2 = Ok tt
  /\ (forall j, j ∈ jobs result.1 ->
        exists u p,
          u ∈ get_all_active_users db
          /\ Scheduler.user_plan db u (clock (telegram_id u))
               (draw (telegram_id u)) = Ok p
          /\ j = job_for (job_id j) u p
          /\ (next_id q <= job_id j)%nat)
  /\ (forall u, u ∈ get_all_active_users db ->
        length (get_jobs_by_name result.1
                  (Scheduler.job_name (telegram_id u)))
        = if Scheduler.plannable db clock draw u then 1%nat else 0%nat)
  /\ NoDup (job_id <$> jobs result.1).
Proof.
  intros Htz. cbv zeta. unfold Scheduler.setup_scheduler. rewrite Htz.
  cbn [fst snd].
  destruct (schedule_loop db clock draw (get_all_active_users db)
              (remove_all_jobs q)) as (added & Hj & _ & Hids & Hrel).
  cbv zeta in Hj. cbn [remove_all_jobs jobs next_id app] in Hj, Hids.
  destruct (active_users_are_rows db) as (Hnd & _).
  split; [reflexivity|]. split; [|split].
  - intros j Hin. rewrite Hj in Hin.
    destruct (proj1 (list_elem_of_lookup _ _) Hin) as [i Hi].
    destruct (Forall2_lookup_l _ _ _ _ _ Hrel Hi) as (u & Hu & p & Hp & Hjp).
    apply list_elem_of_lookup_2, list_elem_of_filter in Hu as [_ Hu].
    exists u, p. repeat split; try assumption.
    assert (Hk : (job_id <$> added) !! i = Some (job_id j))
      by (by rewrite list_lookup_fmap, Hi).
    rewrite Hids in Hk. apply lookup_seq in Hk as [-> _]. lia.
  - intros u Hu. unfold get_jobs_by_name. rewrite Hj.
    rewrite (count_jobs_by_user _ _ _ _ _ _ Hrel).
    rewrite (count_key_NoDup telegram_id).
    2:{ apply (sublist_NoDup _ (telegram_id <$> get_all_active_users db));
          [exact Hnd|]. apply fmap_sublist, sublist_filter. }
    destruct (decide (telegram_id u ∈ telegram_id <$>
                filter (fun u0 => Scheduler.plannable db clock draw u0 = true)
                  (get_all_active_users db))) as [Hin|Hnin].
    + apply list_elem_of_fmap in Hin as (v & Hid & Hv).
      apply list_elem_of_filter in Hv as [Hpl Hv].
      assert (v = u) as ->
        by (by apply (same_key_same_elem telegram_id
                        (get_all_active_users db))).
      by rewrite Hpl.
    + destruct (Scheduler.plannable db clock draw u) eqn:Hpl; [|reflexivity].
      exfalso. apply Hnin, list_elem_of_fmap. exists u.
      split; [reflexivity|]. by apply list_elem_of_filter.
  - rewrite Hj, Hids. apply NoDup_seq.
Qed.

(** When [config.TIMEZONE] is not a zone of the table, [setup_scheduler]
    raises after it has cleared the queue: no job is left, and none is
    registered. *)
Lemma setup_scheduler_bad_global_zone (TIMEZONE : str) (db : Database)
    (q : JobQueue) (clock draw : Z -> Z) (e : exn) :
  pytz_timezone TIMEZONE = Raise e ->
  Scheduler.setup_scheduler TIMEZONE db q clock draw
  = ({| jobs := []; next_id := next_id q |}, Raise e).
Proof. intros Htz. unfold Scheduler.setup_scheduler. by rewrite Htz. Qed.

(** The zone a firing, a reschedule and the start-up loop look up for an
    id: the stored one, or the default. *)
Abbreviation zone_of db id :=
  (match get_user_settings db id with
   | Some st => timezone st
   | None => lit "America/Chicago"
   end).

(** The loop over the messages delivers a prefix of them, the whole list
    when no send raises. *)
Lemma send_all_prefix (id : Z) (msgs : list str) :
  exists k,
    (Scheduler.send_all id msgs).1 = (fun m => (id, m)) <$> take k msgs
    /\ match (Scheduler.send_all id msgs).2 with
       | Ok _ => k = length msgs
       | Raise _ => (k < length msgs)%nat
       end.
Proof.
  induction msgs as [|m msgs (k & Hs & Hk)]; cbn [Scheduler.send_all].
  - exists 0%nat. split; reflexivity.
  - destruct (send_message id m).
    + destruct (Scheduler.send_all id msgs) as [sent r]. cbn [fst snd] in *.
      exists (S k). cbn [take fmap list_fmap length]. rewrite Hs.
      split; [reflexivity|]. destruct r; lia.
    + exists 0%nat. cbn. split; [reflexivity|lia].
Qed.

(** How the loop over the messages can end: with every message
    delivered, or at the first send that raises, with the messages before
    it delivered. *)
Lemma send_all_done (id : Z) (msgs : list str) (sent : list (Z * str)) :
  Scheduler.send_all id msgs = (sent, Ok tt) ->
  sent = (fun m => (id, m)) <$> msgs.
Proof.
  revert sent. induction msgs as [|m msgs IH]; intros sent;
    cbn [Scheduler.send_all].
  - by intros [= <-].
  - destruct (send_message id m); [|discriminate].
    destruct (Scheduler.send_all id msgs) as [sent' r].
    intros [= <- ->]. cbn [fmap list_fmap]. f_equal. by apply IH.
Qed.

Lemma send_all_stops (id : Z) (msgs : list str) (sent : list (Z * str))
    (e : exn) :
  Scheduler.send_all id msgs = (sent, Raise e) ->
  exists k m,
    sent = (fun m => (id, m)) <$> take k msgs
    /\ msgs !! k = Some m
    /\ send_message id m = Raise e.
Proof.
  revert sent. induction msgs as [|m msgs IH]; intros sent;
    cbn [Scheduler.send_all]; [discriminate|].
  destruct (send_message id m) as [[]|e'] eqn:Hm.
  - destruct (Scheduler.send_all id msgs) as [sent' r].
    intros [= <- ->]. destruct (IH sent' eq_refl) as (k & m' & -> & Hk & He).
    exists (S k), m'. by repeat split.
  - intros [= <- <-]. exists 0%nat, m. by repeat split.
Qed.

(** X11.  For a job as [run_daily] makes it (no [scheduled_time]), what a
    firing delivers is told by how it ends.  A firing that ends as "sent"
    has delivered the whole answer of the scraper for the credentials that
    [get_user] finds at that moment, in the scraper's order.  A firing that
    ends otherwise has delivered nothing, or, when a send raised, the
    messages before the one whose send raised, and it ends with that
    exception.  Every delivery goes to the user of the job, and there is
    never a delay notice.  And the firing does deliver: when the account
    is found, the machine's clock reads a weekday, the zone is known, the
    scraper answers and every send succeeds, the firing ends as "sent" with
    the whole answer delivered. *)
Theorem dispatcher_delivers_scraper_output (db : Database) (job : Job)
    (clk : Scheduler.fire_clock) :
  scheduled_time job = None ->
  let id := telegram_id (data job) in
  let result := Scheduler.fetch_and_notify_user db job clk in
  (forall c m, (c, m) ∈ result.2 -> c = id)
  /\ (result.1 = Scheduler.SentUpdate ->
      exists u tz msgs,
        get_user db id = Some u
        /\ pytz_timezone (zone_of db id) = Ok tz
        /\ fetch_formatted_grades (aspen_username u) (aspen_password u)
             (Scheduler.grade_title
                (strftime_title
                   (Scheduler.datetime_now tz (Scheduler.now_2 clk))))
           = Ok msgs
        /\ result.2 = (fun m => (id, m)) <$> msgs)
  /\ (result.1 <> Scheduler.SentUpdate ->
      result.2 = []
      \/ exists u tz msgs k m e,
           get_user db id = Some u
           /\ pytz_timezone (zone_of db id) = Ok tz
           /\ fetch_formatted_grades (aspen_username u) (aspen_password u)
                (Scheduler.grade_title
                   (strftime_title
                      (Scheduler.datetime_now tz (Scheduler.now_2 clk))))
              = Ok msgs
           /\ result.2 = (fun m => (id, m)) <$> take k msgs
           /\ msgs !! k = Some m
           /\ send_message id m = Raise e
           /\ result.1 = Scheduler.Failed e)
  /\ (forall u tz msgs,
        get_user db id = Some u ->
        weekday (Scheduler.datetime_now_naive (Scheduler.sys_utcoffset clk)
                   (Scheduler.now_1 clk)) < 5 ->
        pytz_timezone (zone_of db id) = Ok tz ->
        fetch_formatted_grades (aspen_username u) (aspen_password u)
          (Scheduler.grade_title
             (strftime_title
                (Scheduler.datetime_now tz (Scheduler.now_2 clk))))
        = Ok msgs ->
        (forall m, m ∈ msgs -> send_message id m = Ok tt) ->
        result = (Scheduler.SentUpdate, (fun m => (id, m)) <$> msgs)).
Proof.
  intros Hst. cbv zeta.
  assert (Hmain :
    ((Scheduler.fetch_and_notify_user db job clk).1 <> Scheduler.SentUpdate
     /\ (Scheduler.fetch_and_notify_user db job clk).2 = [])
    \/ exists u tz msgs,
         get_user db (telegram_id (data job)) = Some u
         /\ pytz_timezone (zone_of db (telegram_id (data job))) = Ok tz
         /\ fetch_formatted_grades (aspen_username u) (aspen_password u)
              (Scheduler.grade_title
                 (strftime_title
                    (Scheduler.datetime_now tz (Scheduler.now_2 clk))))
            = Ok msgs
         /\ (Scheduler.fetch_and_notify_user db job clk
             = (Scheduler.SentUpdate,
                (fun m => (telegram_id (data job), m)) <$> msgs)
             \/ exists k m e,
                  Scheduler.fetch_and_notify_user db job clk
                  = (Scheduler.Failed e,
                     (fun m => (telegram_id (data job), m)) <$> take k msgs)
                  /\ msgs !! k = Some m
                  /\ send_message (telegram_id (data job)) m = Raise e)).
  { unfold Scheduler.fetch_and_notify_user. rewrite Hst.
    destruct (get_user db (telegram_id (data job))) as [u|];
      [|by left].
    destruct (5 <=? _); [by left|].
    unfold gt. rewrite Z.ltb_irrefl. cbn [Z.ltb Z.compare].
    destruct (pytz_timezone _) as [tz|] eqn:Htz; [|by left].
    destruct (fetch_formatted_grades _ _ _) as [msgs|] eqn:Hf; [|by left].
    right. exists u, tz, msgs.
    split; [reflexivity|]. split; [reflexivity|]. split; [exact Hf|].
    destruct (Scheduler.send_all (telegram_id (data job)) msgs)
      as [sent [[]|e]] eqn:Hsend.
    - left. by rewrite (send_all_done _ _ _ Hsend).
    - right. destruct (send_all_stops _ _ _ _ Hsend) as (k & m & -> & Hk & He).
      by exists k, m, e. }
  split; [|split; [|split]].
  - intros c m Hin.
    destruct Hmain as [[_ Hnil]|(u & tz & msgs & _ & _ & _ &
                                 [Hr|(k & m' & e & Hr & _)])].
    + rewrite Hnil in Hin. by apply elem_of_nil in Hin.
    + rewrite Hr in Hin. cbn [snd] in Hin.
      by apply list_elem_of_fmap in Hin as (? & [= -> _] & _).
    + rewrite Hr in Hin. cbn [snd] in Hin.
      by apply list_elem_of_fmap in Hin as (? & [= -> _] & _).
  - intros Hsent.
    destruct Hmain as [[Hne _]|(u & tz & msgs & Hu & Htz & Hf &
                                [Hr|(k & m' & e & Hr & _)])].
    + contradiction.
    + exists u, tz, msgs. by rewrite Hr.
    + rewrite Hr in Hsent. discriminate.
  - intros Hne.
    destruct Hmain as [[_ Hnil]|(u & tz & msgs & Hu & Htz & Hf &
                                 [Hr|(k & m' & e & Hr & Hk & He)])].
    + by left.
    + rewrite Hr in Hne. contradiction.
    + right. exists u, tz, msgs, k, m', e. by rewrite Hr.
  - intros u tz msgs Hu Hw Htz Hf Hsend.
    by apply (FiringFacts.firing_proceeds db job clk u tz msgs).
Qed.

(** X12.  When the zone stored for a user (or the default, if none is
    stored) is not a zone of the table, every path fails closed: a firing
    delivers nothing, [reschedule_user_job] leaves the queue as it is, and
    the loop of [setup_scheduler] registers no job for the user. *)
Theorem unknown_zone_fails_closed (db : Database) (q : JobQueue) (job : Job)
    (clk : Scheduler.fire_clock) (u : user) (s : str) (t r : Z) (e : exn) :
  pytz_timezone (zone_of db (telegram_id u)) = Raise e ->
  telegram_id (data job) = telegram_id u ->
  (Scheduler.fetch_and_notify_user db job clk).2 = []
  /\ (Scheduler.fetch_and_notify_user db job clk).1 <> Scheduler.SentUpdate
  /\ Handlers.reschedule_user_job db q (telegram_id u) s t r = q
  /\ Scheduler.schedule_user db q u t r = q.
Proof.
  intros Htz Hid. split; [|split; [|split]].
  - unfold Scheduler.fetch_and_notify_user. rewrite Hid.
    destruct (get_user db (telegram_id u)); [|reflexivity].
    destruct (5 <=? _); [reflexivity|]. by rewrite Htz.
  - unfold Scheduler.fetch_and_notify_user. rewrite Hid.
    destruct (get_user db (telegram_id u)); [|discriminate].
    destruct (5 <=? _); [discriminate|]. rewrite Htz. discriminate.
  - unfold Handlers.reschedule_user_job.
    destruct (get_user db (telegram_id u)); [|reflexivity]. by rewrite Htz.
  - unfold Scheduler.schedule_user. by rewrite Htz.
Qed.

(** X13.  Once [delete_user] has removed the account, a job that is still
    in the queue for that id ends as "user not found" and delivers
    nothing. *)
Theorem deleted_user_job_is_silent (db : Database) (job : Job)
    (clk : Scheduler.fire_clock) :
  Scheduler.fetch_and_notify_user
    (delete_user db (telegram_id (data job))).1 job clk
  = (Scheduler.UserNotFound, []).
Proof.
  unfold Scheduler.fetch_and_notify_user, delete_user, get_user, get_user_body.
  cbn [fst users]. by rewrite lookup_delete_eq.
Qed.

(** X14.  The credentials a firing uses are the stored ones, not those of
    the dict the job was registered with: after [add_user] has replaced the
    credentials of the job's user, a firing that ends as "sent" has
    delivered exactly what the scraper returns for the new username and
    password. *)
Theorem firing_uses_stored_credentials (db : Database) (job : Job)
    (clk : Scheduler.fire_clock) (username password method : str)
    (utcnow : Z) (e1 e2 : N) :
  Forall (fun c => is_scalar c = true) username ->
  Forall (fun c => is_scalar c = true) password ->
  scheduled_time job = None ->
  let id := telegram_id (data job) in
  let db' := (add_user db id username password method utcnow e1 e2).1 in
  (Scheduler.fetch_and_notify_user db' job clk).1 = Scheduler.SentUpdate ->
  exists tz msgs,
    pytz_timezone (zone_of db' id) = Ok tz
    /\ fetch_formatted_grades username password
         (Scheduler.grade_title
            (strftime_title
               (Scheduler.datetime_now tz (Scheduler.now_2 clk)))) = Ok msgs
    /\ (Scheduler.fetch_and_notify_user db' job clk).2
       = (fun m => (id, m)) <$> msgs.
Proof.
  intros Hu Hp Hst. cbv zeta. intros Hsent.
  destruct (get_user_add_user db (telegram_id (data job)) username password
              method utcnow e1 e2 Hu Hp) as (u & Hg & Hun & Hpw).
  revert Hsent. unfold Scheduler.fetch_and_notify_user. rewrite Hst, Hg.
  destruct (5 <=? _); [discriminate|].
  unfold gt. rewrite Z.ltb_irrefl. cbn [Z.ltb Z.compare].
  destruct (pytz_timezone _) as [tz|] eqn:Htz; [|discriminate].
  rewrite Hun, Hpw.
  destruct (fetch_formatted_grades _ _ _) as [msgs|] eqn:Hf; [|discriminate].
  destruct (send_all_prefix (telegram_id (data job)) msgs) as (k & Hs & Hk).
  destruct (Scheduler.send_all (telegram_id (data job)) msgs) as [sent r].
  cbn [fst snd] in Hs, Hk. destruct r; [|discriminate]. intros _.
  exists tz, msgs. subst k. rewrite firstn_all in Hs. cbn [snd]. auto.
Qed.

End WithLibraries.
End SchedulerMore.

(** ** Registration, the time handlers and the callback buttons *)

Module HandlerMore.
Import Py Re Database JobQueue TimeSpec TimeFacts StrFacts NextRun.
Import StoreFacts StoreMore QueueFacts HandlerFacts Handlers.
Local Open Scope Z_scope.

Section WithLibraries.
Context `{Fernet} `{Pytz}.

(** X15.  Every time [generate_random_notification_time] can return (an
    hour from 12 to 19, a minute among 0, 15, 30 and 45) is a time string
    of the form HH:MM that the handlers' pattern accepts and that the
    scheduler parses back to that hour and minute. *)
Theorem generated_time_is_valid (hour minute : Z) :
  12 <= hour <= 19 ->
  minute ∈ [0; 15; 30; 45] ->
  is_HHMM (generate_random_notification_time hour minute) = true
  /\ fullmatch time_pattern (generate_random_notification_time hour minute)
     = true
  /\ Scheduler.parse_hour_minute
       (generate_random_notification_time hour minute) = Ok (hour, minute).
Proof.
  intros Hh Hm.
  assert (Hcases : hour = 12 \/ hour = 13 \/ hour = 14 \/ hour = 15
                   \/ hour = 16 \/ hour = 17 \/ hour = 18 \/ hour = 19)
    by lia.
  repeat (apply elem_of_cons in Hm as [->|Hm]);
    [| | | |by apply elem_of_nil in Hm];
    repeat (destruct Hcases as [->|Hcases]); try subst hour;
    vm_compute; auto.
Qed.

(** X16.  A text that the time handlers accept never makes the
    scheduling computation raise: for every zone, instant and jitter from 0
    to 30 both copies of the computation return a plan. *)
Theorem accepted_text_always_plans (text : str) (tz : tzinfo) (t r : Z) :
  match_anchored time_pattern (strip text) = true ->
  0 <= r <= 30 ->
  exists p,
    Handlers.next_run (strip text) tz t r = Ok p
    /\ Scheduler.next_run (strip text) tz t r = Ok p.
Proof.
  intros Hacc Hr. rewrite guard_spec in Hacc.
  destruct (next_run_succeeds (strip text) tz t r Hacc Hr) as [p Hp].
  exists p. split; [exact Hp|]. by rewrite <- next_run_same.
Qed.

Abbreviation zone_of db id :=
  (match get_user_settings db id with
   | Some st => timezone st
   | None => lit "America/Chicago"
   end).

(** [update_user_notification_time] does not touch the accounts. *)
Lemma get_user_after_time (db : Database) (id id' : Z) (time_input : str) :
  get_user (update_user_notification_time db id time_input).1 id'
  = get_user db id'.
Proof.
  unfold update_user_notification_time, get_user, get_user_body.
  cbn [fst users]. destruct (users db !! id') as [r|]; [|reflexivity].
  by rewrite (user_of_row_key db (mk_Database _ _ _)).
Qed.

(** What [set_notification_time] does with a text the guard accepts. *)
Lemma set_notification_time_accepted (upd : update) (db : Database)
    (q : JobQueue) (t r : Z) :
  match_anchored time_pattern (strip (message_text upd)) = true ->
  let db' := (update_user_notification_time db (effective_user_id upd)
                (strip (message_text upd))).1 in
  set_notification_time upd db q t r
  = {| next_state := END; db_after := db';
       queue_after :=
         reschedule_user_job db' q (effective_user_id upd)
           (strip (message_text upd)) t r;
       replies := [(effective_chat_id upd,
                    NotificationTimeUpdated (strip (message_text upd)))] |}.
Proof.
  intros Hacc. unfold set_notification_time. rewrite Hacc. reflexivity.
Qed.

(** X17.  For a user with an account and a known zone, an accepted text
    leaves the store and the queue in step: the stripped text is the stored
    notification time, next to the zone that was stored, and the queue
    holds exactly one job under the user's name, the very job the start-up
    loop would register from the stored settings at the same instant and
    jitter. *)
Theorem set_notification_time_in_step (upd : update) (db : Database)
    (q : JobQueue) (t r : Z) (u : user) (tz : tzinfo) :
  let uid := effective_user_id upd in
  let time_input := strip (message_text upd) in
  get_user db uid = Some u ->
  pytz_timezone (zone_of db uid) = Ok tz ->
  match_anchored time_pattern time_input = true ->
  0 <= r <= 30 ->
  let h := set_notification_time upd db q t r in
  exists p,
    Scheduler.user_plan (db_after h) u t r = Ok p
    /\ get_jobs_by_name (queue_after h) (Handlers.job_name uid)
       = [ mk_Job (next_id q) (Handlers.job_name uid)
             (Scheduler.job_time_utc p) u (Scheduler.scheduled_utc p) None ]
    /\ jobs (Scheduler.schedule_user (db_after h)
               {| jobs := []; next_id := next_id q |} u t r)
       = get_jobs_by_name (queue_after h) (Handlers.job_name uid)
    /\ get_user_settings (db_after h) uid
       = Some {| s_telegram_id := uid; timezone := zone_of db uid;
                 notification_frequency := lit "daily";
                 notification_time := time_input |}
    /\ next_state h = END
    /\ replies h = [(effective_chat_id upd, NotificationTimeUpdated time_input)].
Proof.
  cbv zeta. intros Hu Htz Hacc Hr.
  pose proof Hacc as Hvalid. rewrite guard_spec in Hvalid.
  destruct (next_run_succeeds (strip (message_text upd)) tz t r Hvalid Hr)
    as [p Hp].
  assert (Hid : telegram_id u = effective_user_id upd).
  { apply get_user_Some in Hu as (row & _ & Hok).
    by apply user_of_row_inv in Hok as (_ & _ & -> & _). }
  set (db' := (update_user_notification_time db (effective_user_id upd)
                 (strip (message_text upd))).1).
  assert (Hset : get_user_settings db' (effective_user_id upd)
     = Some {| s_telegram_id := effective_user_id upd;
               timezone := zone_of db (effective_user_id upd);
               notification_frequency := lit "daily";
               notification_time := strip (message_text upd) |}).
  { unfold db', update_user_notification_time. cbn [fst].
    by rewrite get_user_settings_insert_eq. }
  assert (Hplan : Scheduler.user_plan db' u t r = Ok p).
  { unfold Scheduler.user_plan. rewrite Hid, Hset.
    cbn [timezone notification_time]. rewrite Htz. cbn [res_bind].
    by rewrite <- next_run_same. }
  rewrite (set_notification_time_accepted upd db q t r Hacc). cbv zeta.
  fold db'. cbn [queue_after db_after next_state replies].
  rewrite (reschedule_user_job_ok db' q _ _ t r u tz p);
    [| unfold db'; by rewrite get_user_after_time
     | rewrite Hset; exact Htz
     | exact Hp].
  exists p. split; [exact Hplan|].
  destruct (one_job_after_replace q (Handlers.job_name (effective_user_id upd))
              (Scheduler.job_time_utc p) u (Scheduler.scheduled_utc p))
    as [Hone _]. cbv zeta in Hone. rewrite Hone.
  split; [reflexivity|]. split; [|auto].
  rewrite SchedulerMore.schedule_user_plan, Hplan.
  cbn [run_daily jobs next_id app]. by rewrite Hid.
Qed.

(** X18.  For an id without an account, an accepted text is stored as the
    notification time and answered as an update, but no job is registered:
    the queue is left as it was. *)
Theorem set_notification_time_without_account (upd : update) (db : Database)
    (q : JobQueue) (t r : Z) :
  let uid := effective_user_id upd in
  let time_input := strip (message_text upd) in
  users db !! uid = None ->
  match_anchored time_pattern time_input = true ->
  let h := set_notification_time upd db q t r in
  queue_after h = q
  /\ (notification_time <$> get_user_settings (db_after h) uid)
     = Some time_input
  /\ get_user (db_after h) uid = None
  /\ next_state h = END
  /\ replies h = [(effective_chat_id upd, NotificationTimeUpdated time_input)].
Proof.
  cbv zeta. intros Hno Hacc.
  rewrite (set_notification_time_accepted upd db q t r Hacc). cbv zeta.
  cbn [queue_after db_after next_state replies].
  assert (Hg : get_user (update_user_notification_time db
                 (effective_user_id upd) (strip (message_text upd))).1
                 (effective_user_id upd) = None).
  { rewrite get_user_after_time. unfold get_user, get_user_body.
    by rewrite Hno. }
  unfold reschedule_user_job. rewrite Hg.
  split; [reflexivity|]. split; [|auto].
  unfold update_user_notification_time. cbn [fst].
  by rewrite get_user_settings_insert_eq.
Qed.

(** [update_user_timezone] does not touch the accounts either. *)
Lemma get_user_after_zone (db : Database) (id id' : Z) (zone : str) :
  get_user (update_user_timezone db id zone).1 id' = get_user db id'.
Proof.
  unfold update_user_timezone, get_user, get_user_body.
  cbn [fst users]. destruct (users db !! id') as [r|]; [|reflexivity].
  by rewrite (user_of_row_key db (mk_Database _ _ _)).
Qed.

(** X19.  The two handlers of a time text store the same thing, but only
    the one of the settings menu registers a job: the one of the set-up
    flow leaves the queue as it was, whatever the text and the user. *)
Theorem setup_time_input_schedules_nothing (upd : update) (db : Database)
    (q : JobQueue) (t r : Z) :
  let h := setup_notification_time_input upd db q in
  let h' := set_notification_time upd db q t r in
  queue_after h = q
  /\ db_after h = db_after h'
  /\ next_state h
     = (if match_anchored time_pattern (strip (message_text upd))
        then END else SETUP_NOTIFICATION_TIME)
  /\ (match_anchored time_pattern (strip (message_text upd)) = true ->
      (notification_time <$> get_user_settings (db_after h)
                               (effective_user_id upd))
      = Some (strip (message_text upd))).
Proof.
  cbv zeta. unfold setup_notification_time_input, set_notification_time.
  destruct (match_anchored time_pattern (strip (message_text upd)));
    cbn [negb]; [|by repeat split].
  unfold update_user_notification_time.
  cbn [queue_after db_after next_state]. repeat split.
  intros _. by rewrite get_user_settings_insert_eq.
Qed.

(** With encodable credentials [add_user] answers true, the new account
    reads back, and the settings are left alone. *)
Lemma add_user_succeeds (self : Database) (id : Z)
    (username password method : str) (utcnow : Z) (e1 e2 : N) :
  Forall (fun c => is_scalar c = true) username ->
  Forall (fun c => is_scalar c = true) password ->
  exists db' u,
    add_user self id username password method utcnow e1 e2 = (db', true)
    /\ user_settings db' = user_settings self
    /\ get_user db' id = Some u
    /\ aspen_username u = username /\ aspen_password u = password.
Proof.
  intros Hu Hp.
  destruct (get_user_add_user self id username password method utcnow e1 e2
              Hu Hp) as (u & Hg & Hname & Hpass).
  destruct (decrypt_encrypt self e1 username Hu) as (tu & Heu & _).
  destruct (decrypt_encrypt self e2 password Hp) as (tp & Hep & _).
  revert Hg. unfold add_user, add_user_body. rewrite Heu, Hep.
  cbn [res_bind]. destruct (users self !! id); cbn [fst]; intros Hg;
    eexists _, u; repeat split; try eassumption; reflexivity.
Qed.

Lemma password_key_is_not_username :
  lit "aspen_password" <> lit "aspen_username".
Proof. discriminate. Qed.

Lemma password_key_is_not_updating :
  lit "aspen_password" <> lit "updating".
Proof. discriminate. Qed.

(** X20.  A registration (no credential update under way) with encodable
    credentials stores the username kept from the step before and the
    stripped password, and puts the settings at the defaults, whatever they
    were: America/Chicago, daily, and the generated time.  The settings of
    the other users are left alone. *)
Theorem registration_applies_defaults (upd : update)
    (user_data : gmap (list N) (list N)) (db : Database)
    (utcnow : Z) (e1 e2 : N) (hour minute : Z) (username : str) :
  let uid := effective_user_id upd in
  let password := strip (message_text upd) in
  let random_time := generate_random_notification_time hour minute in
  user_data !! lit "aspen_username" = Some username ->
  user_data !! lit "updating" <> Some (lit "credentials") ->
  Forall (fun c => is_scalar c = true) username ->
  Forall (fun c => is_scalar c = true) password ->
  exists l,
    register_password upd user_data db utcnow e1 e2 hour minute = Returned l
    /\ returned l = Some END
    /\ user_data_left l = <[lit "aspen_password" := password]> user_data
    /\ (exists u, get_user (db_left l) uid = Some u
                  /\ aspen_username u = username
                  /\ aspen_password u = password)
    /\ get_user_settings (db_left l) uid
       = Some {| s_telegram_id := uid; timezone := lit "America/Chicago";
                 notification_frequency := lit "daily";
                 notification_time := random_time |}
    /\ (forall id', id' <> uid ->
          get_user_settings (db_left l) id' = get_user_settings db id')
    /\ exists buttons,
         answers l = [RegistrationComplete random_time buttons]
         /\ buttons.*2 = [lit "setup_timezone"; lit "setup_notification_time";
                          lit "setup_complete"].
Proof.
  cbv zeta. intros Hname Hupd Hu Hp.
  destruct (add_user_succeeds db (effective_user_id upd) username
              (strip (message_text upd)) (lit "telegram") utcnow e1 e2 Hu Hp)
    as (db' & u & Hadd & Hset & Hg & Hun & Hpw).
  unfold register_password.
  rewrite lookup_insert_ne by exact password_key_is_not_username.
  rewrite Hname, Hadd.
  rewrite lookup_insert_ne by exact password_key_is_not_updating.
  rewrite bool_decide_eq_false_2 by exact Hupd.
  unfold start_setup_flow. eexists. split; [reflexivity|].
  cbn [returned user_data_left db_left answers].
  split; [reflexivity|]. split; [reflexivity|]. split.
  { exists u. by rewrite get_user_after_time, get_user_after_zone. }
  split.
  { unfold update_user_notification_time at 1. cbn [fst].
    rewrite get_user_settings_insert_eq.
    unfold update_user_timezone. cbn [fst].
    by rewrite get_user_settings_insert_eq. }
  split.
  { intros id' Hne.
    unfold update_user_notification_time at 1. cbn [fst].
    rewrite get_user_settings_insert_ne by done.
    unfold update_user_timezone. cbn [fst].
    rewrite get_user_settings_insert_ne by done.
    unfold get_user_settings. by rewrite Hset. }
  eexists. split; reflexivity.
Qed.

(** X21.  A credential update with encodable credentials replaces the
    stored username and password and leaves every settings row as it was:
    neither the zone nor the time goes back to a default. *)
Theorem credential_update_keeps_settings (upd : update)
    (user_data : gmap (list N) (list N)) (db : Database)
    (utcnow : Z) (e1 e2 : N) (hour minute : Z) (username : str) :
  let uid := effective_user_id upd in
  let password := strip (message_text upd) in
  user_data !! lit "aspen_username" = Some username ->
  user_data !! lit "updating" = Some (lit "credentials") ->
  Forall (fun c => is_scalar c = true) username ->
  Forall (fun c => is_scalar c = true) password ->
  exists l,
    register_password upd user_data db utcnow e1 e2 hour minute = Returned l
    /\ returned l = Some END
    /\ (exists u, get_user (db_left l) uid = Some u
                  /\ aspen_username u = username
                  /\ aspen_password u = password)
    /\ user_settings (db_left l) = user_settings db
    /\ (forall id', get_user_settings (db_left l) id'
                    = get_user_settings db id')
    /\ answers l = [CredentialsUpdated].
Proof.
  cbv zeta. intros Hname Hupd Hu Hp.
  destruct (add_user_succeeds db (effective_user_id upd) username
              (strip (message_text upd)) (lit "telegram") utcnow e1 e2 Hu Hp)
    as (db' & u & Hadd & Hset & Hg & Hun & Hpw).
  unfold register_password.
  rewrite lookup_insert_ne by exact password_key_is_not_username.
  rewrite Hname, Hadd.
  rewrite lookup_insert_ne by exact password_key_is_not_updating.
  rewrite bool_decide_eq_true_2 by exact Hupd.
  eexists. split; [reflexivity|].
  cbn [returned user_data_left db_left answers].
  split; [reflexivity|]. split; [by exists u|]. split; [exact Hset|].
  split; [|reflexivity].
  intros id'. unfold get_user_settings. by rewrite Hset.
Qed.

(** X22.  When the username kept from the step before or the password
    holds a surrogate code point, [register_password] stores nothing,
    not even the defaults, answers that the registration (or the update)
    failed, and ends the conversation. *)
Theorem registration_unencodable (upd : update)
    (user_data : gmap (list N) (list N)) (db : Database)
    (utcnow : Z) (e1 e2 : N) (hour minute : Z) (username : str) (c : char) :
  user_data !! lit "aspen_username" = Some username ->
  c ∈ username ++ strip (message_text upd) ->
  is_surrogate c = true ->
  exists l,
    register_password upd user_data db utcnow e1 e2 hour minute = Returned l
    /\ returned l = Some END
    /\ db_left l = db
    /\ answers l
       = [RegistrationFailed
            (if bool_decide (user_data !! lit "updating"
                             = Some (lit "credentials"))
             then lit "update" else lit "registration")].
Proof.
  intros Hname Hin Hc.
  assert (Hadd : add_user db (effective_user_id upd) username
                   (strip (message_text upd)) (lit "telegram") utcnow e1 e2
                 = (db, false)).
  { unfold add_user, add_user_body.
    apply elem_of_app in Hin as [Hin|Hin].
    - unfold _encrypt at 1.
      destruct (encode_surrogate username c Hin Hc) as [e ->]. reflexivity.
    - destruct (_encrypt db e1 username); [|reflexivity]. cbn [res_bind].
      unfold _encrypt.
      destruct (encode_surrogate _ c Hin Hc) as [e ->]. reflexivity. }
  unfold register_password.
  rewrite lookup_insert_ne by exact password_key_is_not_username.
  rewrite Hname, Hadd.
  rewrite lookup_insert_ne by exact password_key_is_not_updating.
  eexists. split; [reflexivity|]. by repeat split.
Qed.

Lemma startswith_app (prefix z : str) : startswith (prefix ++ z) prefix = true.
Proof.
  induction prefix as [|a prefix IH]; [by destruct z|].
  cbn [app startswith]. by rewrite N.eqb_refl, IH.
Qed.

Lemma username_key_is_not_updating :
  lit "aspen_username" <> lit "updating".
Proof. discriminate. Qed.

(** X23.  The registration conversation, [/register], then the username,
    then the password, all from one user.  When [get_user] finds an
    account for the user, [register] ends the conversation at once and
    nothing is stored.  Otherwise, whatever [user_data] held before, the
    three handlers pass through the states for the username and the
    password to the end, and leave an account with the stripped first text
    as username and the stripped second text as password, under the default
    settings. *)
Theorem registration_conversation (upd0 upd1 upd2 : update)
    (user_data : gmap (list N) (list N)) (db : Database)
    (utcnow : Z) (e1 e2 : N) (hour minute : Z) :
  let uid := effective_user_id upd0 in
  let username := strip (message_text upd1) in
  let password := strip (message_text upd2) in
  effective_user_id upd2 = uid ->
  Forall (fun c => is_scalar c = true) username ->
  Forall (fun c => is_scalar c = true) password ->
  let s0 := register upd0 user_data db in
  let s1 := register_username upd1 (user_data_left s0) in
  let s2 :=
    register_password upd2 s1.1.2 (db_left s0) utcnow e1 e2 hour minute in
  match get_user db uid with
  | Some _ =>
      s0 = {| returned := Some END; db_left := db; user_data_left := ∅;
              answers := [AlreadyRegistered] |}
  | None =>
      returned s0 = Some REGISTER_USERNAME
      /\ db_left s0 = db
      /\ s1.1.1 = REGISTER_PASSWORD
      /\ exists l u,
           s2 = Returned l
           /\ returned l = Some END
           /\ get_user (db_left l) uid = Some u
           /\ aspen_username u = username
           /\ aspen_password u = password
           /\ get_user_settings (db_left l) uid
              = Some {| s_telegram_id := uid;
                        timezone := lit "America/Chicago";
                        notification_frequency := lit "daily";
                        notification_time :=
                          generate_random_notification_time hour minute |}
  end.
Proof.
  cbv zeta. intros Hid Hu Hp. unfold register.
  destruct (get_user db (effective_user_id upd0)) as [u0|] eqn:Hg;
    [reflexivity|].
  cbn [returned db_left user_data_left].
  assert (Hs1 : register_username upd1 ∅
                = (REGISTER_PASSWORD,
                   <[lit "aspen_username" := strip (message_text upd1)]> ∅,
                   UsernameSaved (strip (message_text upd1)))).
  { unfold register_username.
    rewrite lookup_insert_ne by exact username_key_is_not_updating.
    rewrite lookup_empty. by rewrite bool_decide_eq_false_2. }
  rewrite Hs1. cbn [fst snd].
  split; [reflexivity|]. split; [reflexivity|]. split; [reflexivity|].
  destruct (add_user_succeeds db (effective_user_id upd2)
              (strip (message_text upd1)) (strip (message_text upd2))
              (lit "telegram") utcnow e1 e2 Hu Hp)
    as (db' & u & Hadd & Hset & Hg' & Hun & Hpw).
  unfold register_password.
  rewrite lookup_insert_ne by exact password_key_is_not_username.
  rewrite lookup_insert_eq, Hadd.
  rewrite lookup_insert_ne by exact password_key_is_not_updating.
  rewrite lookup_insert_ne by exact username_key_is_not_updating.
  rewrite lookup_empty. rewrite bool_decide_eq_false_2 by discriminate.
  unfold start_setup_flow. eexists _, u. split; [reflexivity|].
  cbn [returned db_left]. rewrite <- Hid.
  split; [reflexivity|]. split.
  { by rewrite get_user_after_time, get_user_after_zone. }
  split; [exact Hun|]. split; [exact Hpw|].
  unfold update_user_notification_time at 1. cbn [fst].
  rewrite get_user_settings_insert_eq.
  unfold update_user_timezone. cbn [fst].
  by rewrite get_user_settings_insert_eq.
Qed.

(** X24.  The credential update of the settings menu, the button
    [update_creds], then the username, then the password.  The button
    marks the update in [user_data], so the two text handlers pass through
    the states of the update to the end: the account of the user then holds
    the stripped first text as username and the stripped second text as
    password, its flags and every settings row are what they were, and the
    answer is that the credentials were updated. *)
Theorem credential_update_conversation (cb : callback) (upd1 upd2 : update)
    (user_data : gmap (list N) (list N)) (db : Database)
    (utcnow : Z) (e1 e2 : N) (hour minute : Z) :
  let uid := effective_user_id upd2 in
  let username := strip (message_text upd1) in
  let password := strip (message_text upd2) in
  data cb = lit "update_creds" ->
  Forall (fun c => is_scalar c = true) username ->
  Forall (fun c => is_scalar c = true) password ->
  exists l0 l2 u,
    button_callback cb user_data db = Returned l0
    /\ returned l0 = Some SET_CREDENTIALS_USERNAME
    /\ db_left l0 = db
    /\ (register_username upd1 (user_data_left l0)).1.1
       = SET_CREDENTIALS_PASSWORD
    /\ register_password upd2
         (register_username upd1 (user_data_left l0)).1.2 (db_left l0)
         utcnow e1 e2 hour minute = Returned l2
    /\ returned l2 = Some END
    /\ answers l2 = [CredentialsUpdated]
    /\ get_user (db_left l2) uid = Some u
    /\ aspen_username u = username
    /\ aspen_password u = password
    /\ user_settings (db_left l2) = user_settings db
    /\ (forall r, users db !! uid = Some r ->
          is_active u = negb (row_is_active r =? 0)
          /\ created_at u = row_created_at r).
Proof.
  cbv zeta. intros Hdata Hu Hp.
  destruct (add_user_succeeds db (effective_user_id upd2)
              (strip (message_text upd1)) (strip (message_text upd2))
              (lit "telegram") utcnow e1 e2 Hu Hp)
    as (db' & u & Hadd & Hset & Hg & Hun & Hpw).
  assert (Hb : button_callback cb user_data db
               = Returned
                   {| returned := Some SET_CREDENTIALS_USERNAME;
                      db_left := db;
                      user_data_left :=
                        <[lit "updating" := lit "credentials"]> user_data;
                      answers := [AskNewUsername] |}).
  { unfold button_callback. rewrite Hdata. reflexivity. }
  assert (Hs1 : register_username upd1
                  (<[lit "updating" := lit "credentials"]> user_data)
                = (SET_CREDENTIALS_PASSWORD,
                   <[lit "aspen_username" := strip (message_text upd1)]>
                     (<[lit "updating" := lit "credentials"]> user_data),
                   NewUsernameSaved (strip (message_text upd1)))).
  { unfold register_username.
    rewrite lookup_insert_ne by exact username_key_is_not_updating.
    rewrite lookup_insert_eq. by rewrite bool_decide_eq_true_2. }
  eexists _, _, u. split; [exact Hb|].
  cbn [returned db_left user_data_left]. rewrite Hs1. cbn [fst snd].
  split; [reflexivity|]. split; [reflexivity|]. split; [reflexivity|].
  split.
  { unfold register_password.
    rewrite lookup_insert_ne by exact password_key_is_not_username.
    rewrite lookup_insert_eq, Hadd.
    rewrite lookup_insert_ne by exact password_key_is_not_updating.
    rewrite lookup_insert_ne by exact username_key_is_not_updating.
    rewrite lookup_insert_eq. rewrite bool_decide_eq_true_2 by reflexivity.
    reflexivity. }
  cbn [returned db_left answers].
  split; [reflexivity|]. split; [reflexivity|]. split; [exact Hg|].
  split; [exact Hun|]. split; [exact Hpw|]. split; [exact Hset|].
  intros r Hr. revert Hadd Hg. unfold add_user, add_user_body.
  destruct (_encrypt db e1 _) as [tu|]; [|discriminate]. cbn [res_bind].
  destruct (_encrypt db e2 _) as [tp|]; [|discriminate]. cbn [res_bind].
  rewrite Hr. intros [= <-] Hg.
  apply get_user_Some in Hg as (r' & Hr' & Hok). cbn [users] in Hr'.
  rewrite lookup_insert_eq in Hr'. injection Hr' as <-.
  apply user_of_row_inv in Hok as (_ & _ & _ & _ & Hact & Hcr & _).
  by rewrite Hact, Hcr.
Qed.

(** What [button_callback] does with data that starts with
    [timezone_]. *)
Lemma button_callback_zone (z : str) (from eff : Z)
    (user_data : gmap (list N) (list N)) (db : Database) :
  let timezone := replace (lit "timezone_" ++ z) (lit "timezone_") [] in
  button_callback
    {| data := lit "timezone_" ++ z; from_user_id := from;
       callback_effective_user_id := eff |} user_data db
  = Returned
      {| returned := Some END;
         db_left := (update_user_timezone db from timezone).1;
         user_data_left := user_data;
         answers := [TimezoneUpdated
                       (timezone_display COMMON_TIMEZONES timezone
                          (lit "Unknown"))] |}.
Proof.
  cbv zeta. unfold button_callback. cbn [data from_user_id].
  replace (startswith (lit "timezone_" ++ z) (lit "feedback_")) with false
    by reflexivity.
  unfold str_eqb. rewrite !bool_decide_eq_false_2 by discriminate.
  rewrite startswith_app. reflexivity.
Qed.

(** What [button_callback] does with data that starts with
    [setup_timezone_]: no branch takes it. *)
Lemma button_callback_setup_zone (z : str) (from eff : Z)
    (user_data : gmap (list N) (list N)) (db : Database) :
  button_callback
    {| data := lit "setup_timezone_" ++ z; from_user_id := from;
       callback_effective_user_id := eff |} user_data db
  = Returned {| returned := None; db_left := db;
                user_data_left := user_data; answers := [] |}.
Proof.
  unfold button_callback. cbn [data from_user_id].
  replace (startswith (lit "setup_timezone_" ++ z) (lit "feedback_"))
    with false by reflexivity.
  replace (startswith (lit "setup_timezone_" ++ z) (lit "timezone_"))
    with false by reflexivity.
  unfold str_eqb. rewrite !bool_decide_eq_false_2 by discriminate.
  reflexivity.
Qed.

(** X25.  The keyboard of the settings menu and [button_callback] agree:
    pressing a zone button stores that button's zone for the user who
    pressed it, keeps the stored time (15:00 where there was none), answers
    with that button's label and ends the conversation; pressing the last
    button cancels and stores nothing. *)
Theorem timezone_keyboard_round_trip (cb : callback)
    (user_data : gmap (list N) (list N)) (db : Database) (label : str) :
  (label, data cb)
    ∈ timezone_buttons (lit "timezone_") (lit "cancel_timezone") ->
  exists l,
    button_callback cb user_data db = Returned l
    /\ returned l = Some END
    /\ user_data_left l = user_data
    /\ ((data cb = lit "cancel_timezone" /\ db_left l = db
         /\ answers l = [TimezoneCancelled])
        \/ (exists zone,
              (label, zone) ∈ COMMON_TIMEZONES
              /\ data cb = lit "timezone_" ++ zone
              /\ db_left l = (update_user_timezone db (from_user_id cb) zone).1
              /\ get_user_settings (db_left l) (from_user_id cb)
                 = Some {| s_telegram_id := from_user_id cb;
                           timezone := zone;
                           notification_frequency := lit "daily";
                           notification_time :=
                             match get_user_settings db (from_user_id cb) with
                             | Some cs => notification_time cs
                             | None => lit "15:00"
                             end |}
              /\ answers l = [TimezoneUpdated label])).
Proof.
  destruct cb as [d from eff]. cbn [data from_user_id]. intros Hin.
  unfold timezone_buttons, COMMON_TIMEZONES in Hin.
  cbn [map app] in Hin.
  repeat (apply elem_of_cons in Hin as [[= -> ->]|Hin];
    [ eexists; split; [apply button_callback_zone|];
      cbn [returned user_data_left db_left answers];
      split; [reflexivity|]; split; [reflexivity|]; right;
      eexists; split; [|split; [reflexivity|]];
        [ unfold COMMON_TIMEZONES; set_solver
        | split; [reflexivity|]; split; [|reflexivity];
          unfold update_user_timezone; cbn [fst];
          by rewrite get_user_settings_insert_eq ]
    | ]).
  apply elem_of_cons in Hin as [[= -> ->]|Hin];
    [|by apply elem_of_nil in Hin].
  eexists. split; [reflexivity|]. repeat split. by left.
Qed.

(** X26.  The zone buttons of the set-up keyboard do nothing: for data
    made of [setup_timezone_] and a zone, which is what every button but
    the last of the keyboard shown for [setup_timezone] carries,
    [button_callback] takes no branch; it returns nothing, answers
    nothing, and leaves the store and the user data as they were. *)
Theorem setup_zone_buttons_do_nothing (cb : callback)
    (user_data : gmap (list N) (list N)) (db : Database) (label : str) :
  (label, data cb)
    ∈ timezone_buttons (lit "setup_timezone_") (lit "setup_complete") ->
  data cb <> lit "setup_complete" ->
  (exists zone, (label, zone) ∈ COMMON_TIMEZONES
                /\ data cb = lit "setup_timezone_" ++ zone)
  /\ button_callback cb user_data db
     = Returned {| returned := None; db_left := db;
                   user_data_left := user_data; answers := [] |}.
Proof.
  destruct cb as [d from eff]. cbn [data]. intros Hin Hne.
  unfold timezone_buttons in Hin. apply elem_of_app in Hin as [Hin|Hin].
  - apply list_elem_of_fmap in Hin as ([display zone] & [= -> ->] & Hin).
    split; [by exists zone|]. apply button_callback_setup_zone.
  - apply list_elem_of_singleton in Hin as [= -> ->]. done.
Qed.

End WithLibraries.
End HandlerMore.

(** ** The key file *)

Module KeyFileFacts.
Import Py KeyFile.
Local Open Scope N_scope.

Lemma path_head_no_slash (b : str) :
  Forall (fun c => c <> 47) b -> path_head b = [].
Proof.
  induction 1 as [|c b Hc _ IH]; [reflexivity|].
  cbn [path_head]. rewrite IH. by apply N.eqb_neq in Hc as ->.
Qed.

Lemma path_head_slash (a b : str) :
  Forall (fun c => c <> 47) b -> path_head (a ++ 47 :: b) = a ++ [47].
Proof.
  intros Hb. induction a as [|c a IH]; cbn [app path_head].
  - by rewrite (path_head_no_slash b Hb).
  - rewrite IH. by destruct a.
Qed.

Lemma path_head_ends (p : str) :
  path_head p = [] \/ exists h, path_head p = h ++ [47].
Proof.
  induction p as [|c p IH]; [by left|]. cbn [path_head].
  destruct IH as [->|[h ->]].
  - destruct (N.eqb_spec c 47) as [->|_]; [right; by exists []|by left].
  - right. exists (c :: h). by destruct h.
Qed.

Lemma rstrip_slash_snoc (x : str) :
  rstrip_slash (x ++ [47]) = rstrip_slash x.
Proof. unfold rstrip_slash. by rewrite rev_app_distr. Qed.

Lemma rstrip_slash_keeps (x : str) (c : N) :
  c <> 47 -> rstrip_slash (x ++ [c]) = x ++ [c].
Proof.
  intros Hc. unfold rstrip_slash. rewrite rev_app_distr. cbn [rev app lstrip_slash].
  apply N.eqb_neq in Hc as ->. cbn [rev]. by rewrite rev_involutive.
Qed.

(** What [rstrip_slash] leaves is empty exactly for a run of slashes, and
    otherwise ends with a character that is no slash. *)
Lemma rstrip_slash_shape (x : str) :
  (all_slash x = true /\ rstrip_slash x = [])
  \/ (all_slash x = false
      /\ exists y c, rstrip_slash x = y ++ [c] /\ c <> 47).
Proof.
  induction x as [|c x IH] using rev_ind; [by left|].
  unfold all_slash in *. rewrite forallb_app. cbn [forallb].
  destruct (N.eqb_spec c 47) as [->|Hc].
  - rewrite rstrip_slash_snoc, andb_true_r. exact IH.
  - right. rewrite andb_false_r, andb_false_l || rewrite andb_false_r.
    split; [reflexivity|]. exists x, c. by rewrite rstrip_slash_keeps.
Qed.

Lemma all_slash_snoc (y : str) (c : N) :
  c <> 47 -> all_slash ((y ++ [c]) ++ [47]) = false.
Proof.
  intros Hc. unfold all_slash. rewrite !forallb_app. cbn [forallb].
  apply N.eqb_neq in Hc as ->. by rewrite andb_false_r.
Qed.

Lemma endswith_slash_snoc (y : str) (c : N) :
  endswith_slash (y ++ [c]) = (c =? 47).
Proof. unfold endswith_slash. by rewrite rev_app_distr. Qed.

Lemma key_name_no_slash : Forall (fun c => c <> 47) (lit "encryption.key").
Proof. repeat constructor; discriminate. Qed.

Lemma dirname_unfold (p : str) :
  dirname p
  = if all_slash (path_head p) then path_head p
    else rstrip_slash (path_head p).
Proof. unfold dirname. by destruct (path_head p). Qed.

(** What [dirname] answers: nothing, a run of slashes, or a path that
    does not end with a slash. *)
Lemma dirname_shape (p : str) :
  dirname p = []
  \/ (exists h, dirname p = h ++ [47] /\ all_slash (h ++ [47]) = true)
  \/ (exists y c, dirname p = y ++ [c] /\ c <> 47).
Proof.
  rewrite dirname_unfold. destruct (path_head_ends p) as [->|[h ->]];
    [by left|].
  destruct (rstrip_slash_shape (h ++ [47])) as [[Hall _]|[Hall Hy]];
    rewrite Hall.
  - right. left. by exists h.
  - right. right. exact Hy.
Qed.

Lemma path_join_snoc (y b : str) (c : N) :
  startswith b [47] = false ->
  path_join (y ++ [c]) b
  = if c =? 47 then (y ++ [c]) ++ b else (y ++ [c]) ++ 47 :: b.
Proof.
  intros Hb. unfold path_join. rewrite Hb, <- (endswith_slash_snoc y c).
  destruct (y ++ [c]) eqn:Hy; [by destruct y|reflexivity].
Qed.

(** X27.  The key file lies in the directory of the database file:
    [os.path.dirname] of the one is [os.path.dirname] of the other,
    whatever the path. *)
Theorem key_file_beside_database (db_path : str) :
  dirname (key_file db_path) = dirname db_path.
Proof.
  unfold key_file. pose proof key_name_no_slash as Hb.
  set (b := lit "encryption.key") in *.
  assert (Hstart : startswith b [47] = false) by reflexivity.
  destruct (dirname_shape db_path) as [->|[(h & -> & Hall)|(y & c & -> & Hc)]].
  - unfold path_join. rewrite Hstart. cbn [app].
    rewrite dirname_unfold. by rewrite (path_head_no_slash b Hb).
  - rewrite (path_join_snoc h b 47 Hstart), N.eqb_refl.
    rewrite <- app_assoc. cbn [app].
    rewrite dirname_unfold, (path_head_slash h b Hb). by rewrite Hall.
  - rewrite (path_join_snoc y b c Hstart).
    apply N.eqb_neq in Hc as Hc'. rewrite Hc'.
    rewrite dirname_unfold, (path_head_slash (y ++ [c]) b Hb).
    rewrite (all_slash_snoc y c Hc).
    by rewrite rstrip_slash_snoc, rstrip_slash_keeps.
Qed.

(** X28.  The key is created once: when the key is asked for again, after
    a first call, the same key comes back and no file is written, whatever
    a fresh generation would have yielded; the first call writes no other
    path than the key file, and writes nothing where the key file was
    there. *)
Theorem key_is_created_once (files : gmap (list N) bytes) (db_path : str)
    (generated generated' : bytes) :
  let first := _get_or_create_encryption_key files db_path generated in
  _get_or_create_encryption_key first.1 db_path generated' = first
  /\ first.1 !! key_file db_path = Some first.2
  /\ (forall path, path <> key_file db_path ->
        first.1 !! path = files !! path)
  /\ (forall content, files !! key_file db_path = Some content ->
        first = (files, content)).
Proof.
  cbv zeta. unfold _get_or_create_encryption_key.
  destruct (files !! key_file db_path) as [content|] eqn:Hfile; cbn [fst snd].
  - rewrite Hfile. split; [reflexivity|]. split; [reflexivity|].
    split; [reflexivity|]. by intros ? [= ->].
  - rewrite lookup_insert_eq. split; [reflexivity|]. split; [reflexivity|].
    split; [|discriminate].
    intros path Hne. by rewrite lookup_insert_ne.
Qed.

End KeyFileFacts.

(** ** The sample account again *)

Module MoreScenarios.
Import Py Database JobQueue Sample Scenario TimeSpec.
Local Open Scope Z_scope.

Ltac by_evaluation := apply (bool_decide_unpack _); vm_compute; exact I.

Lemma active_users_complete_witness :
  Z.of_nat (length (get_all_active_users alice_db)) = get_user_count alice_db.
Proof.
  apply (@StoreMore.active_users_complete toy_fernet alice_db).
  intros id r Hr Hact. apply elem_of_map_to_list in Hr.
  vm_compute in Hr. apply list_elem_of_singleton in Hr as [= -> ->].
  eexists. vm_compute. reflexivity.
Defined.

Lemma add_user_count_witness : get_user_count alice_db = 1.
Proof.
  unfold alice_db.
  rewrite (@StoreMore.add_user_count toy_fernet empty_db 42 (lit "alice")
             (lit "s3cret") (lit "telegram") (utc 2024 2 1 9 0 0) 3 4).
  - reflexivity.
  - repeat constructor.
  - repeat constructor.
Defined.

Lemma add_user_keeps_flags_witness :
  user_settings
    (add_user (alice_at "15:00") 42 (lit "alice") (lit "n3w") (lit "telegram")
       (utc 2024 3 1 12 0 0) 5 6).1
  = user_settings (alice_at "15:00").
Proof.
  destruct (users (alice_at "15:00") !! 42) as [r|] eqn:Hr.
  - refine (proj2 (proj2 (proj2
      (@StoreMore.add_user_keeps_flags toy_fernet (alice_at "15:00") 42
         (lit "alice") (lit "n3w") (lit "telegram") (utc 2024 3 1 12 0 0)
         5 6 r Hr _ _)))); by_evaluation.
  - vm_compute in Hr. discriminate Hr.
Defined.

Lemma add_user_unencodable_witness :
  add_user alice_db 42 [55296%N] (lit "s3cret") (lit "telegram")
    (utc 2024 3 1 12 0 0) 5 6
  = (alice_db, false).
Proof.
  apply (@StoreMore.add_user_unencodable toy_fernet alice_db 42 [55296%N]
           (lit "s3cret") (lit "telegram") (utc 2024 3 1 12 0 0) 5 6
           55296%N).
  - left.
  - reflexivity.
Defined.

Lemma setup_scheduler_one_job_per_user_witness :
  (@Scheduler.setup_scheduler toy_fernet year_2024 (lit "America/Chicago")
     (alice_at "15:00") empty_queue (fun _ => friday_afternoon)
     (fun _ => 7)).2 = Ok tt.
Proof.
  refine (proj1
    (@SchedulerMore.setup_scheduler_one_job_per_user toy_fernet year_2024
       (lit "America/Chicago") (alice_at "15:00") empty_queue
       (fun _ => friday_afternoon) (fun _ => 7) Chicago _)).
  vm_compute. reflexivity.
Defined.

Lemma dispatcher_delivers_scraper_output_witness :
  notify (alice_at "15:00") (job_of 21 0 7 (utc 2024 3 1 21 0 7))
    (clock_at (utc 2024 3 1 21 0 7))
  = (Scheduler.SentUpdate, two_sent).
Proof.
  refine (proj2 (proj2 (proj2
    (@SchedulerMore.dispatcher_delivers_scraper_output toy_fernet year_2024
       always_two (alice_at "15:00") (job_of 21 0 7 (utc 2024 3 1 21 0 7))
       (clock_at (utc 2024 3 1 21 0 7)) _))) alice Chicago two_messages
    _ _ _ _ _).
  - reflexivity.
  - vm_compute. reflexivity.
  - vm_compute. reflexivity.
  - vm_compute. reflexivity.
  - reflexivity.
  - intros m _. reflexivity.
Defined.

Lemma unknown_zone_fails_closed_witness :
  let lost :=
    (update_user_timezone (alice_at "15:00") 42 (lit "Mars/Phobos")).1 in
  (notify lost (job_of 21 0 7 (utc 2024 3 1 21 0 7))
     (clock_at (utc 2024 3 1 21 0 7))).2 = [].
Proof.
  refine (proj1
    (@SchedulerMore.unknown_zone_fails_closed toy_fernet year_2024 always_two
       (update_user_timezone (alice_at "15:00") 42 (lit "Mars/Phobos")).1
       empty_queue (job_of 21 0 7 (utc 2024 3 1 21 0 7))
       (clock_at (utc 2024 3 1 21 0 7)) alice (lit "15:00")
       friday_afternoon 7 UnknownTimeZoneError _ _)).
  - vm_compute. reflexivity.
  - reflexivity.
Defined.

Lemma firing_uses_stored_credentials_witness :
  let renewed :=
    (add_user (alice_at "15:00") 42 (lit "alice2") (lit "n3w")
       (lit "telegram") (utc 2024 3 1 12 0 0) 5 6).1 in
  exists tz msgs,
    @pytz_timezone year_2024 (lit "America/Chicago") = Ok tz
    /\ @fetch_formatted_grades always_two (lit "alice2") (lit "n3w")
         (Scheduler.grade_title
            (@strftime_title always_two
               (@Scheduler.datetime_now year_2024 tz
                  (Scheduler.now_2 (clock_at (utc 2024 3 1 21 0 7))))))
       = Ok msgs
    /\ (notify renewed (job_of 21 0 7 (utc 2024 3 1 21 0 7))
          (clock_at (utc 2024 3 1 21 0 7))).2
       = (fun m => (42, m)) <$> msgs.
Proof.
  refine (@SchedulerMore.firing_uses_stored_credentials toy_fernet year_2024
            always_two (alice_at "15:00")
            (job_of 21 0 7 (utc 2024 3 1 21 0 7))
            (clock_at (utc 2024 3 1 21 0 7)) (lit "alice2") (lit "n3w")
            (lit "telegram") (utc 2024 3 1 12 0 0) 5 6 _ _ _ _).
  - repeat constructor.
  - repeat constructor.
  - reflexivity.
  - vm_compute. reflexivity.
Defined.

Lemma generated_time_is_valid_witness :
  is_HHMM (Handlers.generate_random_notification_time 15 30) = true.
Proof.
  refine (proj1 (HandlerMore.generated_time_is_valid 15 30 _ _)).
  - lia.
  - by_evaluation.
Defined.

Lemma accepted_text_always_plans_witness :
  exists p,
    @Handlers.next_run year_2024 (strip (lit " 9:05 ")) Chicago
      friday_afternoon 7 = Ok p
    /\ @Scheduler.next_run year_2024 (strip (lit " 9:05 ")) Chicago
         friday_afternoon 7 = Ok p.
Proof.
  refine (@HandlerMore.accepted_text_always_plans year_2024 (lit " 9:05 ")
            Chicago friday_afternoon 7 _ _).
  - vm_compute. reflexivity.
  - lia.
Defined.

Lemma set_notification_time_in_step_witness :
  Handlers.replies (handle "08:30")
  = [(42, Handlers.NotificationTimeUpdated (lit "08:30"))].
Proof.
  destruct (@HandlerMore.set_notification_time_in_step toy_fernet year_2024
              (text_from_alice "08:30") (alice_at "15:00") empty_queue
              friday_afternoon 7 alice Chicago)
    as (p & _ & _ & _ & _ & _ & Hreplies).
  - vm_compute. reflexivity.
  - vm_compute. reflexivity.
  - vm_compute. reflexivity.
  - lia.
  - exact Hreplies.
Defined.

Lemma set_notification_time_without_account_witness :
  Handlers.queue_after
    (@Handlers.set_notification_time toy_fernet year_2024
       (text_from_alice "08:30") empty_db empty_queue friday_afternoon 7)
  = empty_queue.
Proof.
  refine (proj1
    (@HandlerMore.set_notification_time_without_account toy_fernet year_2024
       (text_from_alice "08:30") empty_db empty_queue friday_afternoon 7
       _ _)).
  - reflexivity.
  - vm_compute. reflexivity.
Defined.

Lemma registration_applies_defaults_witness :
  exists l,
    @Handlers.register_password toy_fernet (text_from_alice " s3cret ")
      {[ lit "aspen_username" := lit "alice" ]} empty_db
      (utc 2024 2 1 9 0 0) 3 4 15 30 = Handlers.Returned l
    /\ get_user_settings (Handlers.db_left l) 42
       = Some {| s_telegram_id := 42; timezone := lit "America/Chicago";
                 notification_frequency := lit "daily";
                 notification_time := lit "15:30" |}.
Proof.
  destruct (@HandlerMore.registration_applies_defaults toy_fernet
              (text_from_alice " s3cret ")
              {[ lit "aspen_username" := lit "alice" ]} empty_db
              (utc 2024 2 1 9 0 0) 3 4 15 30 (lit "alice"))
    as (l & Hl & _ & _ & _ & Hset & _).
  - vm_compute. reflexivity.
  - vm_compute. discriminate.
  - repeat constructor.
  - by_evaluation.
  - exists l. split; [exact Hl|exact Hset].
Defined.

Lemma credential_update_keeps_settings_witness :
  exists l,
    @Handlers.register_password toy_fernet (text_from_alice "n3w")
      (<[ lit "updating" := lit "credentials" ]>
         {[ lit "aspen_username" := lit "alice2" ]}) (alice_at "08:30")
      (utc 2024 3 1 12 0 0) 5 6 15 30 = Handlers.Returned l
    /\ user_settings (Handlers.db_left l) = user_settings (alice_at "08:30").
Proof.
  destruct (@HandlerMore.credential_update_keeps_settings toy_fernet
              (text_from_alice "n3w")
              (<[ lit "updating" := lit "credentials" ]>
                 {[ lit "aspen_username" := lit "alice2" ]})
              (alice_at "08:30") (utc 2024 3 1 12 0 0) 5 6 15 30
              (lit "alice2"))
    as (l & Hl & _ & _ & Hset & _).
  - vm_compute. reflexivity.
  - vm_compute. reflexivity.
  - repeat constructor.
  - by_evaluation.
  - exists l. split; [exact Hl|exact Hset].
Defined.

Lemma registration_unencodable_witness :
  exists l,
    @Handlers.register_password toy_fernet (text_from_alice "s3cret")
      {[ lit "aspen_username" := [55296%N] ]} empty_db
      (utc 2024 2 1 9 0 0) 3 4 15 30 = Handlers.Returned l
    /\ Handlers.db_left l = empty_db.
Proof.
  destruct (@HandlerMore.registration_unencodable toy_fernet
              (text_from_alice "s3cret")
              {[ lit "aspen_username" := [55296%N] ]} empty_db
              (utc 2024 2 1 9 0 0) 3 4 15 30 [55296%N] 55296%N)
    as (l & Hl & _ & Hdb & _).
  - vm_compute. reflexivity.
  - left.
  - reflexivity.
  - exists l. split; [exact Hl|exact Hdb].
Defined.

Lemma registration_conversation_witness :
  Handlers.returned
    (@Handlers.register toy_fernet (text_from_alice "/register") ∅ empty_db)
  = Some Handlers.REGISTER_USERNAME.
Proof.
  pose proof (@HandlerMore.registration_conversation toy_fernet
                (text_from_alice "/register") (text_from_alice " alice ")
                (text_from_alice " s3cret ") ∅ empty_db
                (utc 2024 2 1 9 0 0) 3 4 15 30) as Hflow.
  cbv zeta in Hflow.
  change (get_user empty_db
            (Handlers.effective_user_id (text_from_alice "/register")))
    with (@None user) in Hflow.
  refine (proj1 (Hflow _ _ _)).
  - reflexivity.
  - by_evaluation.
  - by_evaluation.
Defined.

Lemma credential_update_conversation_witness :
  exists l0,
    @Handlers.button_callback toy_fernet
      {| Handlers.data := lit "update_creds"; Handlers.from_user_id := 42;
         Handlers.callback_effective_user_id := 42 |} ∅ (alice_at "08:30")
    = Handlers.Returned l0
    /\ Handlers.returned l0 = Some Handlers.SET_CREDENTIALS_USERNAME.
Proof.
  destruct (@HandlerMore.credential_update_conversation toy_fernet
              {| Handlers.data := lit "update_creds";
                 Handlers.from_user_id := 42;
                 Handlers.callback_effective_user_id := 42 |}
              (text_from_alice " alice2 ") (text_from_alice " n3w ") ∅
              (alice_at "08:30") (utc 2024 3 1 12 0 0) 5 6 15 30)
    as (l0 & l2 & u & Hb & Hret & _).
  - reflexivity.
  - by_evaluation.
  - by_evaluation.
  - exists l0. split; [exact Hb|exact Hret].
Defined.

Lemma timezone_keyboard_round_trip_witness :
  exists l,
    @Handlers.button_callback toy_fernet
      {| Handlers.data := lit "timezone_America/Denver";
         Handlers.from_user_id := 42;
         Handlers.callback_effective_user_id := 42 |} ∅ (alice_at "08:30")
    = Handlers.Returned l
    /\ Handlers.returned l = Some Handlers.END.
Proof.
  destruct (@HandlerMore.timezone_keyboard_round_trip toy_fernet
              {| Handlers.data := lit "timezone_America/Denver";
                 Handlers.from_user_id := 42;
                 Handlers.callback_effective_user_id := 42 |} ∅
              (alice_at "08:30") (Handlers.us_flag ++ lit " Mountain"))
    as (l & Hl & Hret & _).
  - by_evaluation.
  - exists l. split; [exact Hl|exact Hret].
Defined.

Lemma setup_zone_buttons_do_nothing_witness :
  @Handlers.button_callback toy_fernet
    {| Handlers.data := lit "setup_timezone_America/Denver";
       Handlers.from_user_id := 42;
       Handlers.callback_effective_user_id := 42 |} ∅ (alice_at "08:30")
  = Handlers.Returned
      {| Handlers.returned := None; Handlers.db_left := alice_at "08:30";
         Handlers.user_data_left := ∅; Handlers.answers := [] |}.
Proof.
  refine (proj2
    (@HandlerMore.setup_zone_buttons_do_nothing toy_fernet
       {| Handlers.data := lit "setup_timezone_America/Denver";
          Handlers.from_user_id := 42;
          Handlers.callback_effective_user_id := 42 |} ∅
       (alice_at "08:30") (Handlers.us_flag ++ lit " Mountain") _ _)).
  - by_evaluation.
  - vm_compute. discriminate.
Defined.

End MoreScenarios.
